(** * Team Action Plan Manager: access control, sessions and task codes

    A shallow embedding of [scripts/models.py] and [scripts/handlers.py]:
    the SQLite tables become lists of rows, the managers become
    state-passing functions over a [World], the aiogram handlers become
    computations that may raise, and the in-memory [active_sessions]
    dictionary becomes a finite map keyed by the account id.  The keyboards
    of [scripts/ui.py] and the administrator list of [scripts/config.py]
    follow the handlers. *)

From Stdlib Require Import ZArith List Ascii String Lia Bool Arith Sorted.
From stdpp Require Import base option gmap strings list.

Local Open Scope nat_scope.

(** ** Python and SQLite string primitives

    Strings are byte strings; case mapping is the ASCII one, which is what
    SQLite's LIKE uses and what [str.lower] does on ASCII text. *)

Module Py.

Definition is_upper (c : ascii) : bool :=
  (65 <=? nat_of_ascii c) && (nat_of_ascii c <=? 90).

Definition lower_ascii (c : ascii) : ascii :=
  if is_upper c then ascii_of_nat (nat_of_ascii c + 32) else c.

(** [s.lower()] *)
Fixpoint lower (s : string) : string :=
  match s with
  | EmptyString => EmptyString
  | String c s' => String (lower_ascii c) (lower s')
  end.

(** [s.startswith(p)] *)
Definition startswith (s p : string) : bool := String.prefix p s.

(** [s.split(sep)] for a non-empty separator: a left-to-right scan for
    non-overlapping occurrences.  [skip] counts the characters of an
    occurrence that was just matched and still has to be consumed; the head
    of the result is the piece being built. *)
Fixpoint split_aux (sep : string) (skip : nat) (s : string) : list string :=
  match s with
  | EmptyString => [EmptyString]
  | String c s' =>
      match skip with
      | S k => split_aux sep k s'
      | O =>
          if String.prefix sep s
          then EmptyString :: split_aux sep (String.length sep - 1) s'
          else match split_aux sep 0 s' with
               | [] => [String c EmptyString]
               | piece :: rest => String c piece :: rest
               end
      end
  end.

Definition split (s sep : string) : list string := split_aux sep 0 s.

(** Decimal digits. *)
Definition digit_char (d : nat) : ascii := ascii_of_nat (48 + d).

Definition digit_val (c : ascii) : option nat :=
  let n := nat_of_ascii c in
  if (48 <=? n) && (n <=? 57) then Some (n - 48) else None.

Fixpoint digits_of (fuel n : nat) : string :=
  match fuel with
  | O => EmptyString
  | S fuel' =>
      if n <? 10 then String (digit_char n) EmptyString
      else digits_of fuel' (n / 10) +:+ String (digit_char (n mod 10)) EmptyString
  end.

(** [str(n)] for a natural number. *)
Definition str_nat (n : nat) : string := digits_of (S n) n.

(** [str(z)] for an int. *)
Definition str (z : Z) : string :=
  if (z <? 0)%Z then String "-"%char (str_nat (Z.to_nat (- z)))
  else str_nat (Z.to_nat z).

Fixpoint zeros (k : nat) : string :=
  match k with
  | O => EmptyString
  | S k' => String "0"%char (zeros k')
  end.

(** [f"{n:0{w}d}"] for a natural number: zero padding up to a minimum
    width, never truncation. *)
Definition format_0d (w n : nat) : string :=
  zeros (w - String.length (str_nat n)) +:+ str_nat n.

(** Whitespace as [int()] and [str.strip()] see it on ASCII text.  Python
    also counts characters outside ASCII as whitespace (U+0085, U+00A0 and
    others) and as decimal digits; [strip] and [int] below are [str.strip]
    and [int] on text whose bytes are all below 128, which is what the
    callback data of the keyboards built here is. *)
Definition is_space (c : ascii) : bool :=
  let n := nat_of_ascii c in
  (n =? 32) || ((9 <=? n) && (n <=? 13)) || ((28 <=? n) && (n <=? 31)).

Fixpoint lstrip (s : string) : string :=
  match s with
  | EmptyString => EmptyString
  | String c s' => if is_space c then lstrip s' else s
  end.

Fixpoint rstrip (s : string) : string :=
  match s with
  | EmptyString => EmptyString
  | String c s' =>
      match rstrip s' with
      | EmptyString => if is_space c then EmptyString else String c EmptyString
      | r => String c r
      end
  end.

Definition strip (s : string) : string := rstrip (lstrip s).

(** The digit part of an int literal: digits, with single underscores
    allowed between two digits. *)
Fixpoint int_digits (acc : nat) (after_digit : bool) (s : string) : option nat :=
  match s with
  | EmptyString => if after_digit then Some acc else None
  | String c s' =>
      match digit_val c with
      | Some d => int_digits (10 * acc + d) true s'
      | None =>
          if Ascii.eqb c "_"%char && after_digit
          then int_digits acc false s'
          else None
      end
  end.

(** [int(s)] on ASCII text; [None] stands for the [ValueError].  CPython's
    bound on the number of digits of a literal is not part of this
    function; it is applied where operator-written text is converted. *)
Definition int (s : string) : option Z :=
  match strip s with
  | EmptyString => None
  | String c r =>
      if Ascii.eqb c "+"%char then Z.of_nat <$> int_digits 0 false r
      else if Ascii.eqb c "-"%char then
        (fun n => (- Z.of_nat n)%Z) <$> int_digits 0 false r
      else Z.of_nat <$> int_digits 0 false (String c r)
  end.

(** Character classes used to describe the strings above. *)
Definition is_digit (c : ascii) : bool :=
  (48 <=? nat_of_ascii c) && (nat_of_ascii c <=? 57).

Fixpoint every (P : ascii -> bool) (s : string) : bool :=
  match s with
  | EmptyString => true
  | String c s' => P c && every P s'
  end.

(** The number a run of digits denotes, continuing from [acc]. *)
Fixpoint decimal (acc : nat) (s : string) : nat :=
  match s with
  | EmptyString => acc
  | String c s' => decimal (10 * acc + (nat_of_ascii c - 48)) s'
  end.

(** Values that cross the dictionary and SQL parameter boundary. *)
Inductive value : Type :=
  | VNone
  | VBool (b : bool)
  | VInt (z : Z)
  | VStr (s : string).

End Py.

(** ** SQLite expressions used by the queries *)

Module Sql.

(** [s LIKE p]: [%] matches any run of characters, [_] any single one, and
    letters match without regard to ASCII case. *)
Fixpoint like (p : string) : string -> bool :=
  match p with
  | EmptyString => fun s => match s with EmptyString => true | _ => false end
  | String c p' =>
      if Ascii.eqb c "%"%char then
        fix star (s : string) : bool :=
          like p' s || match s with
                       | EmptyString => false
                       | String _ s' => star s'
                       end
      else
        fun s =>
          match s with
          | EmptyString => false
          | String x s' =>
              (Ascii.eqb c "_"%char
               || Ascii.eqb (Py.lower_ascii c) (Py.lower_ascii x))
              && like p' s'
          end
  end.

(** [lit] is the start of [s], up to ASCII case. *)
Fixpoint iprefix (lit s : string) : bool :=
  match lit, s with
  | EmptyString, _ => true
  | String _ _, EmptyString => false
  | String c lit', String x s' =>
      Ascii.eqb (Py.lower_ascii c) (Py.lower_ascii x) && iprefix lit' s'
  end.

Definition is_wildcard (c : ascii) : bool :=
  Ascii.eqb c "%"%char || Ascii.eqb c "_"%char.

(** Storage of a bound parameter in a TEXT column (column affinity). *)
Definition text (v : Py.value) : option string :=
  match v with
  | Py.VNone => None
  | Py.VBool b => Some (if b then "1" else "0")
  | Py.VInt z => Some (Py.str z)
  | Py.VStr s => Some s
  end.

(** [CHECK (col IN (...))]: a NULL passes, any other value must be listed. *)
Definition check_in (allowed : list string) (v : option string) : bool :=
  match v with
  | None => true
  | Some s => bool_decide (s ∈ allowed)
  end.

End Sql.

(** ** Time

    [datetime.now()] is the local wall clock; SQLite's [CURRENT_TIMESTAMP],
    [DATE('now')] and [date('now', ...)] are UTC.  The two readings are kept
    apart. *)

Record DateTime : Type := {
  year : nat; month : nat; day : nat;
  hour : nat; minute : nat; second : nat
}.

Record Clock : Type := {
  local_now : DateTime;   (* datetime.now() *)
  utc_now : DateTime      (* CURRENT_TIMESTAMP *)
}.

Module Time.

(** [DATE(t)] *)
Definition date (t : DateTime) : nat * nat * nat := (year t, month t, day t).

(** [t.strftime('%y%m%d')] *)
Definition strftime_yymmdd (t : DateTime) : string :=
  Py.format_0d 2 (year t mod 100) +:+ Py.format_0d 2 (month t)
    +:+ Py.format_0d 2 (day t).

(** The text SQLite yields for a date, [YYYY-MM-DD]. *)
Definition date_text (d : nat * nat * nat) : string :=
  let '(y, m, dd) := d in
  Py.format_0d 4 y +:+ "-" +:+ Py.format_0d 2 m +:+ "-" +:+ Py.format_0d 2 dd.

Definition is_leap (y : nat) : bool :=
  (y mod 4 =? 0) && (negb (y mod 100 =? 0) || (y mod 400 =? 0)).

Definition days_in_month (y m : nat) : nat :=
  match m with
  | 2 => if is_leap y then 29 else 28
  | 4 | 6 | 9 | 11 => 30
  | _ => 31
  end.

Definition prev_day (d : nat * nat * nat) : nat * nat * nat :=
  let '(y, m, dd) := d in
  if 1 <? dd then (y, m, dd - 1)
  else if 1 <? m then (y, m - 1, days_in_month y (m - 1))
  else (y - 1, 12, 31).

(** [date('now', '-7 days')] and [date('now', 'start of month')] *)
Definition week_ago (c : Clock) : nat * nat * nat :=
  Nat.iter 7 prev_day (date (utc_now c)).

Definition start_of_month (c : Clock) : nat * nat * nat :=
  (year (utc_now c), month (utc_now c), 1).

(** Order of the stored timestamps. *)
Definition key (t : DateTime) : list nat :=
  [year t; month t; day t; hour t; minute t; second t].

Fixpoint lex_leb (a b : list nat) : bool :=
  match a, b with
  | [], _ => true
  | _ :: _, [] => false
  | x :: a', y :: b' => (x <? y) || ((x =? y) && lex_leb a' b')
  end.

Definition leb (a b : DateTime) : bool := lex_leb (key a) (key b).

End Time.

(** ** Rows of the four tables, as [DatabaseManager._create_tables] declares
    them.  Each module carries the field names of the matching dataclass.
    The two REAL columns of [tasks] (estimated and actual hours) are written
    and read by no code below and are left out. *)

Module User.
Record t : Type := {
  id : Z;
  telegram_id : string;
  username : option string;
  full_name : option string;
  status : string;
  role : option string;
  created_at : DateTime;
  last_login : option DateTime
}.
End User.

Module Task.
Record t : Type := {
  id : Z;
  task_code : string;
  task_type : string;
  category : string;
  description : string;
  customer_name : option string;
  customer_city : option string;
  customer_area : option string;
  travel_required : bool;
  company_type : option string;
  status : string;
  priority : option string;
  created_by : option Z;
  created_at : DateTime;
  completion_date : option DateTime
}.
End Task.

Module ActivityLog.
Record t : Type := {
  id : Z;
  user_id : Z;
  activity_type : string;
  description : option string;
  start_time : string;
  end_time : option string;
  duration_minutes : option Z;
  task_id : option Z;
  location_notes : option string;
  billable : bool;
  company_type : option string;
  created_at : DateTime
}.
End ActivityLog.

Module FileRecord.
Record t : Type := {
  id : Z;
  task_id : option Z;
  filename : string;
  original_filename : string;
  file_type : string;
  file_size : option Z;
  upload_method : string;
  uploaded_by : option Z;
  uploaded_at : DateTime;
  description : option string
}.
End FileRecord.

(** The AUTOINCREMENT counters of the two tables this code inserts into
    are kept with the tables. *)
Record Database : Type := {
  users : list User.t;
  tasks : list Task.t;
  activity_logs : list ActivityLog.t;
  files : list FileRecord.t;
  users_seq : Z;
  tasks_seq : Z
}.

Inductive Table : Type := Users | Tasks | ActivityLogs | Files.

(** The SQL statements the managers execute. *)
Inductive Stmt : Type :=
  | SelectUserByTelegramId (telegram_id : string)
  | SelectUserId (telegram_id : string)
  | InsertUser (telegram_id : string)
  | UpdateLastLogin (user_id : Z)
  | CountTasksLike
  | InsertTask (task_code : string)
  | SelectTasks (status_filter : option string)
  | SelectTaskByCode (task_code : string)
  | SelectActivities (user_id : Z)
  | SelectActivityStats (user_id : Z)
  | SelectGlobalStats.

Definition tables_of (s : Stmt) : list Table :=
  match s with
  | SelectUserByTelegramId _ | SelectUserId _ | InsertUser _
  | UpdateLastLogin _ => [Users]
  | CountTasksLike | InsertTask _ | SelectTasks _
  | SelectTaskByCode _ => [Tasks]
  | SelectActivities _ | SelectActivityStats _ => [ActivityLogs]
  | SelectGlobalStats => [Tasks; Users; Files; ActivityLogs]
  end.

Inductive exc : Type :=
  | KeyError | AttributeError | ValueError | IndexError | IntegrityError.

Inductive Result (A : Type) : Type :=
  | Done (a : A)
  | Raised (e : exc).
Arguments Done {A} a.
Arguments Raised {A} e.

(** ** Transport: inbound events and outbound calls *)

Record TgUser : Type := {
  tg_id : Z;
  tg_full_name : string;
  tg_username : option string
}.

Record Message : Type := { from_user : TgUser }.

Record CallbackQuery : Type := {
  data : option string;
  cb_from_user : TgUser;
  message : Message
}.

Record UserStats : Type := {
  total_activities : nat;
  week_activities : nat;
  month_minutes : Z;       (* SUM(duration_minutes); shown divided by 60.0 *)
  top_activities : list (string * nat)
}.

(** [completion_rate] is a float derived from the first two counts when the
    message is rendered and is not carried. *)
Record GlobalStats : Type := {
  total_tasks : nat;
  completed_tasks : nat;
  active_tasks : nat;
  active_users : nat;
  total_files : nat;
  team_week_activities : nat;
  task_distribution : list (string * nat)
}.

(** What a rendered message shows.  The HTML text and keyboards of [ui.py]
    are not modelled; each screen keeps the data its text is built from. *)
Inductive Screen : Type :=
  | AccessDeniedScreen
  | InfoMessage (text : string)
  | ErrorMessage (text : string)
  | RegistrationPendingScreen (full_name telegram_id : string)
  | TaskFiltersScreen
  | TaskCategoriesScreen
  | ActivityTypesScreen
  | StatsScreen (name : option string)
      (personal : option (option UserStats)) (team : option (option GlobalStats))
  | UploadTaskListScreen (buttons : list (string * string))
  | ScheduleScreen (active : list Task.t) (recent : list ActivityLog.t)
  | SettingsScreen (user : User.t)
  | NoTasksScreen (filter_type : string)
  | TasksScreen (filter_type : string) (found : nat) (page : list Task.t)
      (total_pages : nat)
  | CreateTaskStepScreen (category : string)
  | LogActivityStepScreen (activity_type : string)
  | UploadPromptScreen (task : Task.t)
  | LearnMoreScreen.

Inductive Outbound : Type :=
  | MessageAnswer (s : Screen)                         (* message.answer *)
  | MessageEdit (s : Screen)                           (* message.edit_text *)
  | MessageDelete                                      (* message.delete *)
  | CallbackAnswer (text : option string) (show_alert : bool).

(** ** The world a handler runs in

    [storage] is the fate of the coming manager calls, one entry per call:
    [false] stands for an [sqlite3] error, either at [get_connection] or
    while the statements run (both make the manager return its failure
    value without committing); an exhausted list means no further error.
    [sql_log] records the statements executed and [outbox] the transport
    calls made, oldest first. *)
Record World : Type := {
  db : Database;
  active_sessions : gmap Z (gmap string Py.value);
  clock : Clock;
  storage : list bool;
  sql_log : list Stmt;
  outbox : list Outbound
}.

Definition send (o : Outbound) (w : World) : World :=
  {| db := db w; active_sessions := active_sessions w; clock := clock w;
     storage := storage w; sql_log := sql_log w; outbox := outbox w ++ [o] |}.

Definition set_session (k : Z) (s : gmap string Py.value) (w : World) : World :=
  {| db := db w; active_sessions := <[k := s]> (active_sessions w);
     clock := clock w; storage := storage w; sql_log := sql_log w;
     outbox := outbox w |}.

Definition St (A : Type) : Type := World -> A * World.

(** One manager call: open a connection, run the statements inside the
    [try], commit on success, close in the [finally]. *)
Definition with_connection {A : Type} (failure : A)
    (body : Database -> Clock -> list Stmt * Result (A * Database)) : St A :=
  fun w =>
    match storage w with
    | false :: rest =>
        (failure,
         {| db := db w; active_sessions := active_sessions w; clock := clock w;
            storage := rest; sql_log := sql_log w; outbox := outbox w |})
    | plan =>
        let run := body (db w) (clock w) in
        match run.2 with
        | Done (a, db') =>
            (a,
             {| db := db'; active_sessions := active_sessions w;
                clock := clock w; storage := tail plan;
                sql_log := sql_log w ++ run.1; outbox := outbox w |})
        | Raised _ =>
            (failure,
             {| db := db w; active_sessions := active_sessions w;
                clock := clock w; storage := tail plan;
                sql_log := sql_log w ++ run.1; outbox := outbox w |})
        end
    end.

(** Handlers may raise. *)
Definition Act (A : Type) : Type := World -> Result A * World.

Definition ret {A : Type} (a : A) : Act A := fun w => (Done a, w).

Definition raise {A : Type} (e : exc) : Act A := fun w => (Raised e, w).

Definition bind {A B : Type} (m : Act A) (k : A -> Act B) : Act B :=
  fun w =>
    let r := m w in
    match r.1 with
    | Done a => k a r.2
    | Raised e => (Raised e, r.2)
    end.

Definition call {A : Type} (m : St A) : Act A :=
  fun w => let r := m w in (Done r.1, r.2).

Definition emit (o : Outbound) : Act unit := fun w => (Done tt, send o w).

Definition try_except (body : Act unit) (handler : exc -> Act unit) : Act unit :=
  fun w =>
    let r := body w in
    match r.1 with
    | Done a => (Done a, r.2)
    | Raised e => handler e r.2
    end.

Notation "x <- m ;; k" := (bind m (fun x => k))
  (at level 100, m at next level, right associativity).
Notation "m ;;; k" := (bind m (fun _ => k))
  (at level 100, right associativity).

(** ** models.py *)

Module UserStatus.
Definition PENDING : string := "pending".
Definition ACTIVE : string := "active".
Definition REJECTED : string := "rejected".
End UserStatus.

Module TaskStatus.
Definition TO_DO : string := "to_do".
Definition IN_PROGRESS : string := "in_progress".
Definition COMPLETED : string := "completed".
End TaskStatus.

Module TaskPriority.
Definition NORMAL : string := "normal".
End TaskPriority.

(** The id an AUTOINCREMENT table gives to the next row. *)
Definition next_id (seq : Z) (ids : list Z) : Z :=
  (Z.max seq (foldr Z.max 0 ids) + 1)%Z.

(** [d.get(k, default)] and [d[k]] *)
Definition dict_get (d : gmap string Py.value) (k : string)
    (dflt : Py.value) : Py.value :=
  default dflt (d !! k).

Definition subscript (d : gmap string Py.value) (k : string) : Result Py.value :=
  match d !! k with
  | Some v => Done v
  | None => Raised KeyError
  end.

(** [v.lower()]: only a [str] has the method. *)
Definition lower_method (v : Py.value) : Result string :=
  match v with
  | Py.VStr s => Done (Py.lower s)
  | _ => Raised AttributeError
  end.

Fixpoint insert_by {A : Type} (before : A -> A -> bool) (x : A) (l : list A)
    : list A :=
  match l with
  | [] => [x]
  | y :: l' => if before x y then x :: l else y :: insert_by before x l'
  end.

(** [ORDER BY]: a stable sort; SQLite leaves the order of ties open. *)
Definition order_by {A : Type} (before : A -> A -> bool) (l : list A) : list A :=
  foldr (insert_by before) [] l.

(** [LIMIT n]: a negative bound means no bound. *)
Definition limit_rows {A : Type} (n : Z) (l : list A) : list A :=
  if (n <? 0)%Z then l else take (Z.to_nat n) l.

(** *** UserManager *)

Definition get_user_by_telegram_id (telegram_id : string) : St (option User.t) :=
  with_connection None (fun d _ =>
    ([SelectUserByTelegramId telegram_id],
     Done (List.find (fun u => String.eqb (User.telegram_id u) telegram_id)
                     (users d), d))).

Definition touch_login (user_id : Z) (now : DateTime) (u : User.t) : User.t :=
  if (User.id u =? user_id)%Z
  then {| User.id := User.id u; User.telegram_id := User.telegram_id u;
          User.username := User.username u; User.full_name := User.full_name u;
          User.status := User.status u; User.role := User.role u;
          User.created_at := User.created_at u; User.last_login := Some now |}
  else u.

Definition update_last_login (user_id : Z) : St bool :=
  with_connection false (fun d c =>
    ([UpdateLastLogin user_id],
     Done (true,
           {| users := touch_login user_id (utc_now c) <$> users d;
              tasks := tasks d; activity_logs := activity_logs d;
              files := files d; users_seq := users_seq d;
              tasks_seq := tasks_seq d |}))).

Definition register_user (telegram_id full_name : string)
    (username : option string) : St bool :=
  with_connection false (fun d c =>
    if existsb (fun u => String.eqb (User.telegram_id u) telegram_id) (users d)
    then ([SelectUserId telegram_id], Done (false, d))
    else
      let new_id := next_id (users_seq d) (User.id <$> users d) in
      let row :=
        {| User.id := new_id; User.telegram_id := telegram_id;
           User.username := username; User.full_name := Some full_name;
           User.status := UserStatus.PENDING; User.role := None;
           User.created_at := utc_now c; User.last_login := None |} in
      ([SelectUserId telegram_id; InsertUser telegram_id],
       Done (true,
             {| users := users d ++ [row]; tasks := tasks d;
                activity_logs := activity_logs d; files := files d;
                users_seq := new_id; tasks_seq := tasks_seq d |}))).

(** *** TaskManager *)

Definition category_prefixes : gmap string string :=
  list_to_map
    [("installation", "INST"); ("maintenance", "MAINT"); ("repair", "REP");
     ("inspection", "INSP"); ("calibration", "CAL"); ("commissioning", "COMM");
     ("training", "TRAIN"); ("emergency", "EMRG"); ("other", "OTHER")].

Definition known_prefixes : list string :=
  ["INST"; "MAINT"; "REP"; "INSP"; "CAL"; "COMM"; "TRAIN"; "EMRG"; "OTHER"; "TASK"].

Definition code_prefix (lowered : string) : string :=
  default "TASK" (category_prefixes !! lowered).

Definition like_pattern (prefix date_str : string) : string :=
  prefix +:+ "-" +:+ date_str +:+ "-%".

(** The WHERE clause of the count:
    [task_code LIKE ? AND DATE(created_at) = DATE('now')]. *)
Definition counted_today (c : Clock) (pattern : string) (t : Task.t) : bool :=
  Sql.like pattern (Task.task_code t)
  && bool_decide (Time.date (Task.created_at t) = Time.date (utc_now c)).

Definition today_count (d : Database) (c : Clock) (prefix : string) : nat :=
  length (List.filter
            (counted_today c
               (like_pattern prefix (Time.strftime_yymmdd (local_now c))))
            (tasks d)).

Definition _generate_task_code (d : Database) (c : Clock)
    (category : Py.value) : Result string :=
  match lower_method category with
  | Raised e => Raised e
  | Done lowered =>
      let prefix := code_prefix lowered in
      let date_str := Time.strftime_yymmdd (local_now c) in
      let count := today_count d c prefix + 1 in
      Done (prefix +:+ "-" +:+ date_str +:+ "-" +:+ Py.format_0d 3 count)
  end.

(** The parameter tuple of the INSERT, evaluated left to right before the
    statement runs: [task_data['category']] and [task_data['description']]
    raise on a missing key, [task_data.get('customer_city', '').lower()]
    raises on a value that is not a [str]. *)
Record TaskParams : Type := {
  p_task_type : Py.value;
  p_category : Py.value;
  p_description : Py.value;
  p_customer_name : Py.value;
  p_customer_city : Py.value;
  p_customer_area : Py.value;
  p_travel_required : bool;
  p_company_type : Py.value;
  p_priority : Py.value
}.

Definition task_params (task_data : gmap string Py.value) : Result TaskParams :=
  match subscript task_data "category" with
  | Raised e => Raised e
  | Done category =>
  match subscript task_data "description" with
  | Raised e => Raised e
  | Done description =>
  match lower_method (dict_get task_data "customer_city" (Py.VStr "")) with
  | Raised e => Raised e
  | Done city =>
      Done {| p_task_type := dict_get task_data "task_type" (Py.VStr "technical_task");
              p_category := category;
              p_description := description;
              p_customer_name := dict_get task_data "customer_name" Py.VNone;
              p_customer_city := dict_get task_data "customer_city" Py.VNone;
              p_customer_area := dict_get task_data "customer_area" Py.VNone;
              p_travel_required := negb (String.eqb city "tanger");
              p_company_type := dict_get task_data "company_type" Py.VNone;
              p_priority := dict_get task_data "priority" (Py.VStr TaskPriority.NORMAL) |}
  end end end.

(** The INSERT of [create_task] with the constraints of the [tasks] table:
    UNIQUE and NOT NULL columns, the CHECK lists and the foreign key on
    [created_by] (the connection sets [PRAGMA foreign_keys = ON]). *)
Definition insert_task (d : Database) (c : Clock) (task_code : string)
    (p : TaskParams) (created_by : Z) : Result Database :=
  match Sql.text (p_task_type p), Sql.text (p_category p),
        Sql.text (p_description p) with
  | Some ty, Some cat, Some descr =>
      if forallb (fun t => negb (String.eqb (Task.task_code t) task_code)) (tasks d)
         && Sql.check_in ["technical_task"; "support_ticket"] (Some ty)
         && Sql.check_in ["SARL"; "ZF"] (Sql.text (p_company_type p))
         && Sql.check_in ["normal"; "high"; "critical"] (Sql.text (p_priority p))
         && existsb (fun u => (User.id u =? created_by)%Z) (users d)
      then
        let new_id := next_id (tasks_seq d) (Task.id <$> tasks d) in
        let row :=
          {| Task.id := new_id; Task.task_code := task_code;
             Task.task_type := ty; Task.category := cat;
             Task.description := descr;
             Task.customer_name := Sql.text (p_customer_name p);
             Task.customer_city := Sql.text (p_customer_city p);
             Task.customer_area := Sql.text (p_customer_area p);
             Task.travel_required := p_travel_required p;
             Task.company_type := Sql.text (p_company_type p);
             Task.status := TaskStatus.TO_DO;
             Task.priority := Sql.text (p_priority p);
             Task.created_by := Some created_by;
             Task.created_at := utc_now c;
             Task.completion_date := None |} in
        Done {| users := users d; tasks := tasks d ++ [row];
                activity_logs := activity_logs d; files := files d;
                users_seq := users_seq d; tasks_seq := new_id |}
      else Raised IntegrityError
  | _, _, _ => Raised IntegrityError
  end.

(** The second statement of [create_task]: parameters, then the INSERT. *)
Definition insert_statement (task_data : gmap string Py.value) (created_by : Z)
    (task_code : string) (d : Database) (c : Clock)
    : list Stmt * Result Database :=
  match task_params task_data with
  | Raised e => ([], Raised e)
  | Done p => ([InsertTask task_code], insert_task d c task_code p created_by)
  end.

Definition create_task (task_data : gmap string Py.value) (created_by : Z)
    : St (option string) :=
  with_connection None (fun d c =>
    match _generate_task_code d c (dict_get task_data "category" Py.VNone) with
    | Raised e => ([], Raised e)
    | Done task_code =>
        let ins := insert_statement task_data created_by task_code d c in
        (CountTasksLike :: ins.1,
         match ins.2 with
         | Raised e => Raised e
         | Done d' => Done (Some task_code, d')
         end)
    end).

Definition get_all_tasks (status_filter : option string) : St (list Task.t) :=
  with_connection [] (fun d _ =>
    let newest_first :=
      order_by (fun a b => Time.leb (Task.created_at b) (Task.created_at a)) in
    ([SelectTasks status_filter],
     Done (match status_filter with
           | Some (String c s) =>
               newest_first
                 (List.filter (fun t => String.eqb (Task.status t) (String c s))
                              (tasks d))
           | _ => newest_first (tasks d)
           end, d))).

Definition get_task_by_code (task_code : string) : St (option Task.t) :=
  with_connection None (fun d _ =>
    ([SelectTaskByCode task_code],
     Done (List.find (fun t => String.eqb (Task.task_code t) task_code)
                     (tasks d), d))).

(** *** ActivityManager *)

Definition owned_by (user_id : Z) (a : ActivityLog.t) : bool :=
  (ActivityLog.user_id a =? user_id)%Z.

Definition get_user_activities (user_id limit : Z) : St (list ActivityLog.t) :=
  with_connection [] (fun d _ =>
    ([SelectActivities user_id],
     Done (limit_rows limit
             (order_by
                (fun a b =>
                   String.leb (ActivityLog.start_time b) (ActivityLog.start_time a))
                (List.filter (owned_by user_id) (activity_logs d))), d))).

(** [start_time >= date(...)], a comparison of TEXT values. *)
Definition since (d : nat * nat * nat) (a : ActivityLog.t) : bool :=
  String.leb (Time.date_text d) (ActivityLog.start_time a).

(** [SELECT key, COUNT( * ) ... GROUP BY key] *)
Definition group_count (keys : list string) : list (string * nat) :=
  (fun k => (k, length (List.filter (String.eqb k) keys))) <$> remove_dups keys.

Definition sum_minutes (rows : list ActivityLog.t) : Z :=
  foldr (fun a acc => (default 0 (ActivityLog.duration_minutes a) + acc)%Z) 0%Z rows.

(** The result is [None] where the source returns the empty dictionary. *)
Definition get_user_stats (user_id : Z) : St (option UserStats) :=
  with_connection None (fun d c =>
    let own := List.filter (owned_by user_id) (activity_logs d) in
    ([SelectActivityStats user_id],
     Done (Some
             {| total_activities := length own;
                week_activities := length (List.filter (since (Time.week_ago c)) own);
                month_minutes :=
                  sum_minutes (List.filter (since (Time.start_of_month c)) own);
                top_activities :=
                  take 5
                    (order_by (fun x y => y.2 <=? x.2)
                       (group_count (ActivityLog.activity_type <$> own))) |},
           d))).

(** *** StatsManager *)

Definition count_status (s : string) (ts : list Task.t) : nat :=
  length (List.filter (fun t => String.eqb (Task.status t) s) ts).

Definition get_global_stats : St (option GlobalStats) :=
  with_connection None (fun d c =>
    ([SelectGlobalStats],
     Done (Some
             {| total_tasks := length (tasks d);
                completed_tasks := count_status TaskStatus.COMPLETED (tasks d);
                active_tasks := count_status TaskStatus.IN_PROGRESS (tasks d);
                active_users :=
                  length (List.filter
                            (fun u => String.eqb (User.status u) UserStatus.ACTIVE)
                            (users d));
                total_files := length (files d);
                team_week_activities :=
                  length (List.filter (since (Time.week_ago c)) (activity_logs d));
                task_distribution := group_count (Task.status <$> tasks d) |},
           d))).

(** ** handlers.py *)

Definition store_session (k : Z) (s : gmap string Py.value) : Act unit :=
  fun w => (Done tt, set_session k s w).

(** [f(...)[1]] on the result of a split. *)
Definition item1 (parts : list string) : Act string :=
  match parts !! 1 with
  | Some p => ret p
  | None => raise IndexError
  end.

(** [callback.data.<method>]: the attribute is absent on [None]. *)
Definition data_of (callback : CallbackQuery) : Act string :=
  match data callback with
  | Some d => ret d
  | None => raise AttributeError
  end.

Definition _check_user_access (telegram_id : string) : Act (option User.t) :=
  user <- call (get_user_by_telegram_id telegram_id) ;;
  match user with
  | None => ret None
  | Some u =>
      if negb (String.eqb (User.status u) UserStatus.ACTIVE) then ret None
      else call (update_last_login (User.id u)) ;;; ret (Some u)
  end.

Definition _require_auth (m : Message) : Act (option User.t) :=
  user <- _check_user_access (Py.str (tg_id (from_user m))) ;;
  match user with
  | None => emit (MessageAnswer AccessDeniedScreen) ;;; ret None
  | Some u => ret (Some u)
  end.

Definition _require_role (user : User.t) (required_roles : list string) : bool :=
  match User.role user with
  | Some r => bool_decide (r ∈ required_roles)
  | None => false
  end.

Definition cmd_register (m : Message) : Act unit :=
  let telegram_id := Py.str (tg_id (from_user m)) in
  existing_user <- call (get_user_by_telegram_id telegram_id) ;;
  match existing_user with
  | Some u =>
      if String.eqb (User.status u) UserStatus.ACTIVE then
        emit (MessageAnswer (InfoMessage "You are already registered and active!"))
      else if String.eqb (User.status u) UserStatus.PENDING then
        emit (MessageAnswer (InfoMessage "Your registration is pending approval."))
      else
        emit (MessageAnswer (ErrorMessage
          "Your registration was rejected. Please contact an administrator."))
  | None =>
      let full_name :=
        match tg_full_name (from_user m) with
        | EmptyString => "User_" +:+ telegram_id
        | name => name
        end in
      success <- call (register_user telegram_id full_name
                         (tg_username (from_user m))) ;;
      if success : bool then
        emit (MessageAnswer (RegistrationPendingScreen full_name telegram_id))
      else
        emit (MessageAnswer (ErrorMessage "Registration failed. Please try again."))
  end.

Definition handle_my_tasks (m : Message) : Act unit :=
  user <- _require_auth m ;;
  match user with
  | None => ret tt
  | Some _ => emit (MessageAnswer TaskFiltersScreen)
  end.

Definition handle_new_task (m : Message) : Act unit :=
  user <- _require_auth m ;;
  match user with
  | None => ret tt
  | Some u =>
      if negb (_require_role u ["manager"; "technician"]) then
        emit (MessageAnswer (ErrorMessage "You don't have permission to create tasks."))
      else emit (MessageAnswer TaskCategoriesScreen)
  end.

Definition handle_log_activity (m : Message) : Act unit :=
  user <- _require_auth m ;;
  match user with
  | None => ret tt
  | Some _ => emit (MessageAnswer ActivityTypesScreen)
  end.

Definition handle_my_stats (m : Message) : Act unit :=
  user <- _require_auth m ;;
  match user with
  | None => ret tt
  | Some u =>
      user_stats <- call (get_user_stats (User.id u)) ;;
      global_stats <- call get_global_stats ;;
      emit (MessageAnswer
              (StatsScreen (User.full_name u) (Some user_stats) (Some global_stats)))
  end.

(** [x or 'No customer'] *)
Definition or_default (x : option string) (dflt : string) : string :=
  match x with
  | Some (String c s) => String c s
  | _ => dflt
  end.

Definition upload_button (t : Task.t) : string * string :=
  (Task.task_code t +:+ " - " +:+ or_default (Task.customer_name t) "No customer",
   "upload_task_" +:+ Py.str (Task.id t)).

Definition handle_upload_file (m : Message) : Act unit :=
  user <- _require_auth m ;;
  match user with
  | None => ret tt
  | Some _ =>
      tasks <- call (get_all_tasks None) ;;
      match tasks with
      | [] => emit (MessageAnswer (InfoMessage "No tasks available for file upload."))
      | _ =>
          emit (MessageAnswer
                  (UploadTaskListScreen
                     ((upload_button <$> take 10 tasks)
                        ++ [("?? Search Tasks", "upload_search")])))
      end
  end.

(** The rows the two schedule paragraphs list. *)
Definition _format_active_tasks (tasks : list Task.t) : list Task.t :=
  take 3 (List.filter
            (fun t => bool_decide (Task.status t ∈ ["to_do"; "in_progress"]))
            tasks).

Definition _format_recent_activities (activities : list ActivityLog.t)
    : list ActivityLog.t :=
  take 3 activities.

Definition handle_schedule (m : Message) : Act unit :=
  user <- _require_auth m ;;
  match user with
  | None => ret tt
  | Some u =>
      tasks <- call (get_all_tasks None) ;;
      user_activities <- call (get_user_activities (User.id u) 5) ;;
      emit (MessageAnswer
              (ScheduleScreen (_format_active_tasks tasks)
                 (_format_recent_activities user_activities)))
  end.

Definition handle_settings (m : Message) : Act unit :=
  user <- _require_auth m ;;
  match user with
  | None => ret tt
  | Some u => emit (MessageAnswer (SettingsScreen u))
  end.

Definition handle_file_upload (m : Message) : Act unit :=
  user <- _require_auth m ;;
  match user with
  | None => ret tt
  | Some _ =>
      emit (MessageAnswer (InfoMessage
        "Please select a task first using the ?? Upload File button."))
  end.

(** *** Callback handlers *)

Definition _handle_task_filter (callback : CallbackQuery) (user : User.t)
    : Act unit :=
  d <- data_of callback ;;
  filter_type <- item1 (Py.split d "tasks_filter_") ;;
  let status_filter :=
    if String.eqb filter_type "all" then None else Some filter_type in
  tasks <- call (get_all_tasks status_filter) ;;
  match tasks with
  | [] => emit (MessageEdit (NoTasksScreen filter_type))
  | _ =>
      let tasks_per_page := 5 in
      let total_pages := (length tasks + tasks_per_page - 1) / tasks_per_page in
      emit (MessageEdit
              (TasksScreen filter_type (length tasks) (take tasks_per_page tasks)
                 total_pages))
  end.

Definition create_task_session (category : string) : gmap string Py.value :=
  list_to_map [("action", Py.VStr "create_task"); ("category", Py.VStr category);
               ("step", Py.VStr "description")].

Definition log_activity_session (activity_type : string) : gmap string Py.value :=
  list_to_map [("action", Py.VStr "log_activity");
               ("activity_type", Py.VStr activity_type);
               ("step", Py.VStr "description")].

Definition upload_file_session (task_id : Z) : gmap string Py.value :=
  list_to_map [("action", Py.VStr "upload_file"); ("task_id", Py.VInt task_id);
               ("step", Py.VStr "waiting_file")].

Definition _handle_category_selection (callback : CallbackQuery) (user : User.t)
    : Act unit :=
  if negb (_require_role user ["manager"; "technician"]) then
    emit (CallbackAnswer (Some "? You don't have permission to create tasks.") true)
  else
    d <- data_of callback ;;
    category <- item1 (Py.split d "cat_") ;;
    store_session (User.id user) (create_task_session category) ;;;
    emit (MessageEdit (CreateTaskStepScreen category)).

Definition _handle_activity_selection (callback : CallbackQuery) (user : User.t)
    : Act unit :=
  d <- data_of callback ;;
  activity_type <- item1 (Py.split d "act_") ;;
  store_session (User.id user) (log_activity_session activity_type) ;;;
  emit (MessageEdit (LogActivityStepScreen activity_type)).

Definition _handle_upload_task_selection (callback : CallbackQuery)
    (user : User.t) : Act unit :=
  d <- data_of callback ;;
  number <- item1 (Py.split d "upload_task_") ;;
  match Py.int number with
  | None => raise ValueError
  | Some task_id =>
      task <- call (get_task_by_code ("TASK-" +:+ Py.str task_id)) ;;
      match task with
      | None => emit (CallbackAnswer (Some "? Task not found.") true)
      | Some t =>
          store_session (User.id user) (upload_file_session task_id) ;;;
          emit (MessageEdit (UploadPromptScreen t))
      end
  end.

Definition _handle_stats_action (callback : CallbackQuery) (user : User.t)
    : Act unit :=
  d <- data_of callback ;;
  action <- item1 (Py.split d "stats_") ;;
  if String.eqb action "personal" then
    stats <- call (get_user_stats (User.id user)) ;;
    emit (MessageEdit (StatsScreen (User.full_name user) (Some stats) None))
  else if String.eqb action "team" then
    stats <- call get_global_stats ;;
    emit (MessageEdit (StatsScreen None None (Some stats)))
  else if String.eqb action "refresh" then
    user_stats <- call (get_user_stats (User.id user)) ;;
    global_stats <- call get_global_stats ;;
    emit (MessageEdit
            (StatsScreen (User.full_name user) (Some user_stats) (Some global_stats)))
  else emit (MessageEdit (InfoMessage "Feature coming soon!")).

Definition _show_learn_more (callback : CallbackQuery) : Act unit :=
  emit (MessageEdit LearnMoreScreen).

Definition placeholder (text : string) : Act unit :=
  emit (CallbackAnswer (Some text) false).

Definition _handle_city_selection (callback : CallbackQuery) (user : User.t) :=
  placeholder "City selection - Feature in development".
Definition _handle_company_selection (callback : CallbackQuery) (user : User.t) :=
  placeholder "Company selection - Feature in development".
Definition _handle_priority_selection (callback : CallbackQuery) (user : User.t) :=
  placeholder "Priority selection - Feature in development".
Definition _handle_upload_search (callback : CallbackQuery) (user : User.t) :=
  placeholder "Upload search - Feature in development".
Definition _handle_schedule_action (callback : CallbackQuery) (user : User.t) :=
  placeholder "Schedule action - Feature in development".
Definition _handle_settings_action (callback : CallbackQuery) (user : User.t) :=
  placeholder "Settings action - Feature in development".
Definition _handle_help_action (callback : CallbackQuery) (user : User.t) :=
  placeholder "Help action - Feature in development".

Definition access_denied_alert : Outbound :=
  CallbackAnswer (Some "? Access denied. Please register first.") true.

Definition unknown_action : Outbound :=
  CallbackAnswer (Some "? Unknown action") false.

Definition error_alert : Outbound :=
  CallbackAnswer (Some "? An error occurred. Please try again.") true.

(** [data == literal]; [None] equals no literal. *)
Definition data_is (callback : CallbackQuery) (literal : string) : bool :=
  match data callback with
  | Some d => String.eqb d literal
  | None => false
  end.

(** The if/elif chain that follows the access check.  Every branch but
    [noop] falls through to the closing [callback.answer()]. *)
Definition dispatch (callback : CallbackQuery) (user : User.t) : Act unit :=
  d <- data_of callback ;;
  let answer := emit (CallbackAnswer None false) in
  if Py.startswith d "tasks_filter_" then
    _handle_task_filter callback user ;;; answer
  else if Py.startswith d "cat_" then
    _handle_category_selection callback user ;;; answer
  else if Py.startswith d "city_" then
    _handle_city_selection callback user ;;; answer
  else if Py.startswith d "company_" then
    _handle_company_selection callback user ;;; answer
  else if Py.startswith d "priority_" then
    _handle_priority_selection callback user ;;; answer
  else if Py.startswith d "act_" then
    _handle_activity_selection callback user ;;; answer
  else if Py.startswith d "upload_task_" then
    _handle_upload_task_selection callback user ;;; answer
  else if String.eqb d "upload_search" then
    _handle_upload_search callback user ;;; answer
  else if Py.startswith d "stats_" then
    _handle_stats_action callback user ;;; answer
  else if Py.startswith d "schedule_" then
    _handle_schedule_action callback user ;;; answer
  else if Py.startswith d "settings_" then
    _handle_settings_action callback user ;;; answer
  else if Py.startswith d "help_" then
    _handle_help_action callback user ;;; answer
  else if String.eqb d "noop" then answer
  else emit unknown_action ;;; answer.

Definition handle_callback (callback : CallbackQuery) : Act unit :=
  let telegram_id := Py.str (tg_id (cb_from_user callback)) in
  try_except
    (if data_is callback "start_registration" then
       emit MessageDelete ;;; cmd_register (message callback)
     else if data_is callback "learn_more" then _show_learn_more callback
     else
       user <- _check_user_access telegram_id ;;
       match user with
       | None => emit access_denied_alert
       | Some u => dispatch callback u
       end)
    (fun _ => emit error_alert).

(** ** Entry points registered with the dispatcher

    The menu-button handlers and the callback handler of
    [TelegramBotApplication._setup_handlers] that reach task, activity or
    file data. *)

Inductive Operation : Type :=
  | MyTasks (m : Message)
  | NewTask (m : Message)
  | LogActivity (m : Message)
  | MyStats (m : Message)
  | UploadFile (m : Message)
  | Schedule (m : Message)
  | Settings (m : Message)
  | FileUpload (m : Message)
  | Callback (callback : CallbackQuery).

Definition run (op : Operation) : Act unit :=
  match op with
  | MyTasks m => handle_my_tasks m
  | NewTask m => handle_new_task m
  | LogActivity m => handle_log_activity m
  | MyStats m => handle_my_stats m
  | UploadFile m => handle_upload_file m
  | Schedule m => handle_schedule m
  | Settings m => handle_settings m
  | FileUpload m => handle_file_upload m
  | Callback callback => handle_callback callback
  end.

Definition caller (op : Operation) : TgUser :=
  match op with
  | MyTasks m | NewTask m | LogActivity m | MyStats m | UploadFile m
  | Schedule m | Settings m | FileUpload m => from_user m
  | Callback callback => cb_from_user callback
  end.

(** The two callbacks handled before the access check. *)
Definition registration_callback (callback : CallbackQuery) : bool :=
  data_is callback "start_registration" || data_is callback "learn_more".

Definition authenticated (op : Operation) : bool :=
  match op with
  | Callback callback => negb (registration_callback callback)
  | _ => true
  end.

Definition denial (op : Operation) : Outbound :=
  match op with
  | Callback _ => access_denied_alert
  | _ => MessageAnswer AccessDeniedScreen
  end.

(** The status stored for an external handle, if the handle is known. *)
Definition account_status (d : Database) (telegram_id : string) : option string :=
  User.status <$>
    List.find (fun u => String.eqb (User.telegram_id u) telegram_id) (users d).

(** The tokens the callback if/elif chain recognises. *)
Definition catalog_prefixes : list string :=
  ["tasks_filter_"; "cat_"; "city_"; "company_"; "priority_"; "act_";
   "upload_task_"; "stats_"; "schedule_"; "settings_"; "help_"].

Definition catalog_literals : list string :=
  ["start_registration"; "learn_more"; "upload_search"; "noop"].

Definition in_catalog (d : string) : bool :=
  existsb (String.eqb d) catalog_literals
  || existsb (Py.startswith d) catalog_prefixes.

Definition is_response (o : Outbound) : bool :=
  match o with
  | MessageDelete => false
  | _ => true
  end.

(** The activity rows an outbound call shows. *)
Definition shown_activities (o : Outbound) : list ActivityLog.t :=
  match o with
  | MessageAnswer (ScheduleScreen _ recent)
  | MessageEdit (ScheduleScreen _ recent) => recent
  | _ => []
  end.

(** ** What a computation sends

    [emits P m]: whatever the start and the outcome, [m] only appends to
    the outbox, and every outbound call it appends satisfies [P].
    [responds m]: when [m] returns, one of the calls it appended is a
    response to the user. *)

Definition emits {A : Type} (P : Outbound -> Prop) (m : Act A) : Prop :=
  forall w, exists out, outbox (m w).2 = outbox w ++ out /\ Forall P out.

Definition returned {A : Type} (r : Result A) : Prop :=
  match r with
  | Done _ => True
  | Raised _ => False
  end.

Definition responds {A : Type} (m : Act A) : Prop :=
  forall w, exists out,
    outbox (m w).2 = outbox w ++ out
    /\ (returned (m w).1 -> existsb is_response out = true).

(** ** Two connections inside [create_task] at once

    [create_task] opens a connection of its own and issues the count and
    the INSERT as two statements, with no transaction around the pair.  A
    request is therefore in one of three phases, and a schedule says which
    of two requests executes its next statement against the shared
    tables. *)

Inductive Phase : Type :=
  | Started
  | Counted (task_code : string)
  | Finished (result : option string).

Definition advance (c : Clock) (task_data : gmap string Py.value)
    (created_by : Z) (ph : Phase) (d : Database) : Phase * Database :=
  match ph with
  | Started =>
      match _generate_task_code d c (dict_get task_data "category" Py.VNone) with
      | Raised _ => (Finished None, d)
      | Done task_code => (Counted task_code, d)
      end
  | Counted task_code =>
      match (insert_statement task_data created_by task_code d c).2 with
      | Raised _ => (Finished None, d)
      | Done d' => (Finished (Some task_code), d')
      end
  | Finished r => (Finished r, d)
  end.

Inductive Turn : Type := First | Second.

Record Race : Type := {
  phase1 : Phase;
  phase2 : Phase;
  shared : Database
}.

Definition turn (c : Clock) (req1 req2 : gmap string Py.value * Z)
    (t : Turn) (r : Race) : Race :=
  match t with
  | First =>
      let s := advance c req1.1 req1.2 (phase1 r) (shared r) in
      {| phase1 := s.1; phase2 := phase2 r; shared := s.2 |}
  | Second =>
      let s := advance c req2.1 req2.2 (phase2 r) (shared r) in
      {| phase1 := phase1 r; phase2 := s.1; shared := s.2 |}
  end.

Definition interleave (c : Clock) (req1 req2 : gmap string Py.value * Z)
    (schedule : list Turn) (d : Database) : Race :=
  fold_left (fun r t => turn c req1 req2 t r) schedule
    {| phase1 := Started; phase2 := Started; shared := d |}.

(** Two clock readings of one day, as the generator sees days: the local
    date it prints and the UTC date it counts by are both the same. *)
Definition same_day (c c' : Clock) : Prop :=
  Time.strftime_yymmdd (local_now c') = Time.strftime_yymmdd (local_now c)
  /\ Time.date (utc_now c') = Time.date (utc_now c).

Definition at_clock (c : Clock) (w : World) : World :=
  {| db := db w; active_sessions := active_sessions w; clock := c;
     storage := storage w; sql_log := sql_log w; outbox := outbox w |}.

(** A run of creation requests, each at its own clock reading; the result
    lists the codes of the creations that went through, in order. *)
Fixpoint create_all (reqs : list (Clock * gmap string Py.value * Z)) (w : World)
    : list string * World :=
  match reqs with
  | [] => ([], w)
  | (c, task_data, created_by) :: rest =>
      let r := create_task task_data created_by (at_clock c w) in
      let rs := create_all rest r.2 in
      (match r.1 with
       | Some task_code => task_code :: rs.1
       | None => rs.1
       end, rs.2)
  end.

(** The code that carries number [k + i]. *)
Definition dated_code (prefix date_str : string) (k i : nat) : string :=
  prefix +:+ "-" +:+ date_str +:+ "-" +:+ Py.format_0d 3 (k + i).

(** The shape of the codes [_generate_task_code] produces. *)
Definition generated_code (code : string) : Prop :=
  exists (prefix : string) (t : DateTime) (n : nat),
    prefix ∈ known_prefixes
    /\ code = prefix +:+ "-" +:+ Time.strftime_yymmdd t +:+ "-" +:+ Py.format_0d 3 n.

(** ** Sample data *)

Module Sample.

Definition noon : DateTime :=
  {| year := 2025; month := 11; day := 3; hour := 12; minute := 0; second := 0 |}.

Definition clk : Clock := {| local_now := noon; utc_now := noon |}.

(** A host one hour ahead of UTC, shortly after local midnight and later
    the same local day. *)
Definition night : Clock :=
  {| local_now := {| year := 2025; month := 11; day := 4;
                     hour := 0; minute := 30; second := 0 |};
     utc_now := {| year := 2025; month := 11; day := 3;
                   hour := 23; minute := 30; second := 0 |} |}.

Definition morning : Clock :=
  {| local_now := {| year := 2025; month := 11; day := 4;
                     hour := 9; minute := 0; second := 0 |};
     utc_now := {| year := 2025; month := 11; day := 4;
                   hour := 8; minute := 0; second := 0 |} |}.

Definition user (i : Z) (handle status : string) (role : option string) : User.t :=
  {| User.id := i; User.telegram_id := handle; User.username := None;
     User.full_name := Some ("user " +:+ handle); User.status := status;
     User.role := role; User.created_at := noon; User.last_login := None |}.

Definition activity (i owner : Z) (kind start : string) : ActivityLog.t :=
  {| ActivityLog.id := i; ActivityLog.user_id := owner;
     ActivityLog.activity_type := kind; ActivityLog.description := None;
     ActivityLog.start_time := start; ActivityLog.end_time := None;
     ActivityLog.duration_minutes := Some 30%Z; ActivityLog.task_id := None;
     ActivityLog.location_notes := None; ActivityLog.billable := true;
     ActivityLog.company_type := None; ActivityLog.created_at := noon |}.

Definition database : Database :=
  {| users := [user 1 "100" "active" (Some "technician");
               user 2 "200" "pending" None;
               user 3 "300" "active" (Some "commercial")];
     tasks := [];
     activity_logs := [activity 1 1 "repair" "2025-11-03T09:00:00";
                       activity 2 3 "travel_time" "2025-11-03T10:00:00";
                       activity 3 1 "repair" "2025-11-02T08:00:00"];
     files := [];
     users_seq := 3; tasks_seq := 0 |}.

Definition task (i : nat) (code : string) : Task.t :=
  {| Task.id := Z.of_nat i; Task.task_code := code;
     Task.task_type := "technical_task"; Task.category := "repair";
     Task.description := "replace pump seal"; Task.customer_name := None;
     Task.customer_city := None; Task.customer_area := None;
     Task.travel_required := true; Task.company_type := None;
     Task.status := "to_do"; Task.priority := Some "normal";
     Task.created_by := Some 1%Z; Task.created_at := noon;
     Task.completion_date := None |}.

(** A day on which 999 repair tasks were already created. *)
Definition busy_day : Database :=
  {| users := users database;
     tasks := (fun k => task k ("REP-251103-" +:+ Py.format_0d 3 k)) <$> seq 1 999;
     activity_logs := []; files := [];
     users_seq := 3; tasks_seq := 999 |}.

Definition world : World :=
  {| db := database; active_sessions := ∅; clock := clk; storage := [];
     sql_log := []; outbox := [] |}.

(** Accounts 1 and 3 are in the middle of logging an activity. *)
Definition mid_flow : World :=
  {| db := database;
     active_sessions :=
       <[1%Z := log_activity_session "documentation"]>
         (<[3%Z := log_activity_session "documentation"]> ∅);
     clock := clk; storage := []; sql_log := []; outbox := [] |}.

Definition sender (i : Z) : TgUser :=
  {| tg_id := i; tg_full_name := "Sender"; tg_username := None |}.

Definition bot_message : Message := {| from_user := sender 999 |}.

Definition press (token : string) (i : Z) : CallbackQuery :=
  {| data := Some token; cb_from_user := sender i; message := bot_message |}.

Definition repair_task : gmap string Py.value :=
  list_to_map [("category", Py.VStr "repair");
               ("description", Py.VStr "replace pump seal")].

End Sample.

(** ** ui.py: inline keyboards

    A button is its text and its callback data; a keyboard is a list of
    rows. *)

Definition Button : Type := string * string.

(** The loop of [create_inline_menu]: a row is closed as soon as it holds
    [columns] buttons or more, and a last, shorter row is kept. *)
Fixpoint inline_rows (columns : Z) (options current_row : list Button)
    : list (list Button) :=
  match options with
  | [] =>
      match current_row with
      | [] => []
      | _ => [current_row]
      end
  | b :: rest =>
      let row := current_row ++ [b] in
      if (columns <=? Z.of_nat (length row))%Z
      then row :: inline_rows columns rest []
      else inline_rows columns rest row
  end.

Definition create_inline_menu (options : list Button) (columns : Z)
    : list (list Button) :=
  inline_rows columns options [].

Definition create_pagination_keyboard (current_page total_pages : Z)
    (callback_prefix : string) : list (list Button) :=
  [ (if (1 <? current_page)%Z
     then [("◀️ Previous",
            callback_prefix +:+ "_page_" +:+ Py.str (current_page - 1))]
     else [])
    ++ [(Py.str current_page +:+ "/" +:+ Py.str total_pages, "noop")]
    ++ (if (current_page <? total_pages)%Z
        then [("Next ▶️",
               callback_prefix +:+ "_page_" +:+ Py.str (current_page + 1))]
        else []) ].

Definition create_task_filters_keyboard : list (list Button) :=
  create_inline_menu
    [("📋 To Do", "tasks_filter_to_do");
     ("⚡ In Progress", "tasks_filter_in_progress");
     ("⏳ Pending", "tasks_filter_pending");
     ("🚫 Blocked", "tasks_filter_blocked");
     ("✅ Completed", "tasks_filter_completed");
     ("📋 All Tasks", "tasks_filter_all")] 2.

Definition task_categories : list Button :=
  [("🔧 Installation", "cat_installation");
   ("⚙️ Maintenance", "cat_maintenance");
   ("🛠️ Repair", "cat_repair");
   ("🔍 Inspection", "cat_inspection");
   ("📏 Calibration", "cat_calibration");
   ("🚀 Commissioning", "cat_commissioning");
   ("📚 Training", "cat_training");
   ("🚨 Emergency", "cat_emergency");
   ("📝 Other", "cat_other")].

Definition create_task_categories_keyboard : list (list Button) :=
  create_inline_menu task_categories 3.

Definition activity_types : list Button :=
  [("🏢 Customer Visit", "act_customer_visit");
   ("🔧 Installation", "act_installation");
   ("⚙️ Maintenance", "act_maintenance");
   ("🛠️ Repair", "act_repair");
   ("📝 Documentation", "act_documentation");
   ("📧 Email Work", "act_email_work");
   ("🚗 Travel Time", "act_travel_time");
   ("☕ Break Time", "act_break_time");
   ("📦 Courier Collection", "act_courier_collection");
   ("📊 Project Study", "act_project_study");
   ("🏭 Workshop Work", "act_workshop_work")].

Definition create_activity_types_keyboard : list (list Button) :=
  create_inline_menu activity_types 2.

(** The keyboard [_handle_task_filter] attaches to a task list: the
    refresh and back row, under the pagination row of page 1 when there is
    more than one page. *)
Definition task_list_keyboard (filter_type : string) (total_pages : nat)
    : list (list Button) :=
  let keyboard_buttons :=
    [[("?? Refresh", "tasks_filter_" +:+ filter_type); ("?? Back", "tasks_back")]] in
  if 1 <? total_pages
  then match create_pagination_keyboard 1 (Z.of_nat total_pages)
               ("tasks_" +:+ filter_type) with
       | pagination_row :: _ => pagination_row :: keyboard_buttons
       | [] => keyboard_buttons
       end
  else keyboard_buttons.

(** ** config.py *)

(** [sep.join(parts)] *)
Fixpoint join (sep : string) (parts : list string) : string :=
  match parts with
  | [] => EmptyString
  | [p] => p
  | p :: rest => p +:+ sep +:+ join sep rest
  end.

Definition nonblank (s : string) : bool :=
  match Py.strip s with
  | EmptyString => false
  | _ => true
  end.

(** Text whose bytes are all below 128.  On such text [Py.strip] is
    [str.strip] and [Py.int] reads what [int] reads. *)
Definition ascii_text (s : string) : bool :=
  Py.every (fun c => nat_of_ascii c <? 128) s.

(** [sys.int_info.default_max_str_digits]: by default CPython refuses, with
    [ValueError], to convert a decimal literal of more digits. *)
Definition int_max_str_digits : Z := 4300.

Fixpoint digit_count (s : string) : nat :=
  match s with
  | EmptyString => 0
  | String c s' => (if Py.is_digit c then 1 else 0) + digit_count s'
  end.

(** [int(s)] under that bound. *)
Definition int_within_limit (s : string) : option Z :=
  if (int_max_str_digits <? Z.of_nat (digit_count s))%Z then None
  else Py.int s.

(** [_parse_admin_ids], on the value of [TELEGRAM_ADMIN_IDS] ([None] when
    the variable is unset): the comprehension raises [ValueError] at the
    first entry [int] rejects, and the [except] turns that into the empty
    list.  The value is taken to be ASCII text; what Python does with
    whitespace and digits outside ASCII is not modelled, and the statements
    about this function carry [ascii_text] or build their text from ASCII
    parts. *)
Definition _parse_admin_ids (env : option string) : list Z :=
  match default EmptyString env with
  | EmptyString => []
  | admin_ids_str =>
      default []
        (mapM (fun id_str => int_within_limit (Py.strip id_str))
              (List.filter nonblank (Py.split admin_ids_str ",")))
  end.

(** An entry as an administrator may write it: an id, or nothing, between
    blanks; and an id whose decimal form is within the bound on digits. *)
Definition blanks (s : string) : bool := Py.every Py.is_space s.

Definition printable (z : Z) : Prop :=
  (Z.of_nat (digit_count (Py.str z)) <= int_max_str_digits)%Z.

Definition admin_entry (item : string * option Z * string) : string :=
  item.1.1 +:+ from_option Py.str EmptyString item.1.2 +:+ item.2.

(** ** Properties of the tables *)

(** Unique keys and the foreign key of [tasks.created_by]. *)
Definition consistent (d : Database) : Prop :=
  NoDup (User.telegram_id <$> users d)
  /\ NoDup (User.id <$> users d)
  /\ NoDup (Task.task_code <$> tasks d)
  /\ NoDup (Task.id <$> tasks d)
  /\ Forall (fun t => match Task.created_by t with
                      | Some u => u ∈ User.id <$> users d
                      | None => True
                      end) (tasks d).

(** A row without its login stamp. *)
Definition forget_login (u : User.t) : User.t :=
  {| User.id := User.id u; User.telegram_id := User.telegram_id u;
     User.username := User.username u; User.full_name := User.full_name u;
     User.status := User.status u; User.role := User.role u;
     User.created_at := User.created_at u; User.last_login := None |}.

(** What the entry points may do to the tables: tasks, activity logs and
    files stay as they are; the accounts keep their place and every column
    but the login stamp; new accounts come last, pending, without a role,
    under handles that were not known. *)
Definition evolves (d d' : Database) : Prop :=
  tasks d' = tasks d
  /\ activity_logs d' = activity_logs d
  /\ files d' = files d
  /\ exists added : list User.t,
       forget_login <$> users d' = (forget_login <$> users d) ++ added
       /\ Forall (fun u => User.status u = UserStatus.PENDING
                           /\ User.role u = None
                           /\ User.telegram_id u ∉ User.telegram_id <$> users d)
                 added.

(** A sequence of updates handled one after the other. *)
Fixpoint steps (ops : list Operation) (w : World) : World :=
  match ops with
  | [] => w
  | op :: rest => steps rest (run op w).2
  end.

(** ** What a computation does to the tables and to the sessions

    [changes R m]: whatever the start, a run of [m] takes the tables to
    tables that [R] relates to them.  [writes key m]: a run of [m] leaves
    the sessions as they are or sets the one entry [key]. *)

Definition changes {A : Type} (R : Database -> Database -> Prop) (m : Act A)
    : Prop :=
  forall w, R (db w) (db (m w).2).

Definition writes {A : Type} (key : option Z) (m : Act A) : Prop :=
  forall w,
    active_sessions (m w).2 = active_sessions w
    \/ exists k s,
         key = Some k
         /\ active_sessions (m w).2 = <[k := s]> (active_sessions w).

(** * Strings *)
#[local] Arguments String.append : simpl nomatch.

Section Strings.

Lemma append_assoc (a b c : string) : (a +:+ b) +:+ c = a +:+ (b +:+ c).
Proof. induction a as [|x a IH]; simpl; [reflexivity | now rewrite IH]. Qed.

Lemma append_nil_r (a : string) : a +:+ "" = a.
Proof. induction a as [|x a IH]; simpl; [reflexivity | now rewrite IH]. Qed.

Lemma length_append (a b : string) :
  String.length (a +:+ b) = String.length a + String.length b.
Proof. induction a as [|x a IH]; simpl; [reflexivity | now rewrite IH]. Qed.

Lemma every_append P (a b : string) :
  Py.every P (a +:+ b) = Py.every P a && Py.every P b.
Proof.
  induction a as [|x a IH]; simpl; [reflexivity |].
  rewrite IH. now rewrite andb_assoc.
Qed.

Lemma every_impl (P Q : ascii -> bool) (s : string) :
  (forall c, P c = true -> Q c = true) ->
  Py.every P s = true -> Py.every Q s = true.
Proof.
  intros HPQ. induction s as [|x s IH]; simpl; [reflexivity |].
  intros [Hx Hs]%andb_prop. rewrite (HPQ _ Hx). simpl. auto.
Qed.

Lemma digit_char_code (d : nat) : d < 10 -> nat_of_ascii (Py.digit_char d) = 48 + d.
Proof. intros H. unfold Py.digit_char. apply nat_ascii_embedding. lia. Qed.

Lemma digit_char_is_digit (d : nat) : d < 10 -> Py.is_digit (Py.digit_char d) = true.
Proof.
  intros H. unfold Py.is_digit. rewrite digit_char_code by assumption.
  apply andb_true_intro. split; apply Nat.leb_le; lia.
Qed.

Lemma decimal_append (acc : nat) (a b : string) :
  Py.decimal acc (a +:+ b) = Py.decimal (Py.decimal acc a) b.
Proof. revert acc. induction a as [|x a IH]; intros acc; simpl; [reflexivity | apply IH]. Qed.


Lemma digits_of_unfold (fuel n : nat) :
  Py.digits_of (S fuel) n =
  if n <? 10 then String (Py.digit_char n) EmptyString
  else Py.digits_of fuel (n / 10) +:+ String (Py.digit_char (n mod 10)) EmptyString.
Proof. reflexivity. Qed.

Lemma digits_of_spec (fuel n : nat) :
  n < fuel ->
  Py.every Py.is_digit (Py.digits_of fuel n) = true
  /\ Py.decimal 0 (Py.digits_of fuel n) = n
  /\ 1 <= String.length (Py.digits_of fuel n).
Proof.
  revert n. induction fuel as [|fuel IH]; intros n Hn; [lia |].
  rewrite digits_of_unfold. destruct (n <? 10) eqn:Hlt.
  - apply Nat.ltb_lt in Hlt.
    cbn [Py.every Py.decimal String.length].
    rewrite digit_char_is_digit, digit_char_code by assumption.
    repeat split; lia.
  - apply Nat.ltb_ge in Hlt.
    assert (Hq : n / 10 < fuel).
    { pose proof (Nat.div_lt n 10). lia. }
    destruct (IH _ Hq) as (Hd & Hv & Hl).
    assert (Hm : n mod 10 < 10) by (apply Nat.mod_upper_bound; lia).
    rewrite every_append, decimal_append, length_append, Hd, Hv.
    cbn [Py.every Py.decimal String.length andb].
    rewrite digit_char_is_digit, digit_char_code by assumption.
    repeat split; try lia.
    pose proof (Nat.div_mod_eq n 10). lia.
Qed.

Lemma str_nat_digits (n : nat) : Py.every Py.is_digit (Py.str_nat n) = true.
Proof. apply digits_of_spec. lia. Qed.

Lemma str_nat_decimal (n : nat) : Py.decimal 0 (Py.str_nat n) = n.
Proof. apply digits_of_spec. lia. Qed.

Lemma str_nat_nonempty (n : nat) : 1 <= String.length (Py.str_nat n).
Proof. apply digits_of_spec. lia. Qed.

Lemma decimal_zeros (k : nat) (s : string) :
  Py.decimal 0 (Py.zeros k +:+ s) = Py.decimal 0 s.
Proof. induction k as [|k IH]; [reflexivity | exact IH]. Qed.

Lemma format_0d_decimal (w n : nat) : Py.decimal 0 (Py.format_0d w n) = n.
Proof. unfold Py.format_0d. rewrite decimal_zeros. apply str_nat_decimal. Qed.

Lemma format_0d_inj (w n m : nat) : Py.format_0d w n = Py.format_0d w m -> n = m.
Proof.
  intros H. rewrite <- (format_0d_decimal w n), <- (format_0d_decimal w m).
  now rewrite H.
Qed.

Lemma zeros_digits (k : nat) : Py.every Py.is_digit (Py.zeros k) = true.
Proof. induction k as [|k IH]; [reflexivity | exact IH]. Qed.

Lemma length_zeros (k : nat) : String.length (Py.zeros k) = k.
Proof. induction k as [|k IH]; [reflexivity |]. cbn [Py.zeros String.length]. now rewrite IH. Qed.

Lemma format_0d_digits (w n : nat) : Py.every Py.is_digit (Py.format_0d w n) = true.
Proof.
  unfold Py.format_0d. rewrite every_append, zeros_digits, str_nat_digits. reflexivity.
Qed.

Lemma format_0d_length (w n : nat) :
  String.length (Py.format_0d w n) = Nat.max w (String.length (Py.str_nat n)).
Proof. unfold Py.format_0d. rewrite length_append, length_zeros. lia. Qed.

Lemma decimal_bound (s : string) (acc : nat) :
  Py.every Py.is_digit s = true ->
  Py.decimal acc s < (acc + 1) * 10 ^ String.length s.
Proof.
  revert acc. induction s as [|x s IH]; intros acc.
  - cbn [Py.decimal String.length]. rewrite Nat.pow_0_r. lia.
  - cbn [Py.every Py.decimal String.length].
    intros [Hx Hs]%andb_prop. specialize (IH (10 * acc + (nat_of_ascii x - 48)) Hs).
    unfold Py.is_digit in Hx. apply andb_prop in Hx as [H1%Nat.leb_le H2%Nat.leb_le].
    eapply Nat.lt_le_trans; [exact IH |].
    rewrite Nat.pow_succ_r'. 
    assert (10 * acc + (nat_of_ascii x - 48) + 1 <= (acc + 1) * 10) by lia.
    generalize dependent (10 ^ String.length s). intros p _. nia.
Qed.

Lemma str_nat_length_lower (n k : nat) : 10 ^ k <= n -> k < String.length (Py.str_nat n).
Proof.
  intros H.
  pose proof (decimal_bound (Py.str_nat n) 0 (str_nat_digits n)) as Hb.
  rewrite str_nat_decimal in Hb. rewrite Nat.add_0_l, Nat.mul_1_l in Hb.
  destruct (Nat.lt_ge_cases k (String.length (Py.str_nat n))) as [|Hge]; [assumption |].
  pose proof (Nat.pow_le_mono_r 10 _ _ ltac:(lia) Hge). lia.
Qed.

Lemma digits_of_length_upper (k fuel n : nat) :
  n < fuel -> n < 10 ^ S k -> String.length (Py.digits_of fuel n) <= S k.
Proof.
  revert fuel n. induction k as [|k IH]; intros fuel n Hf Hn.
  - destruct fuel; [lia |]. rewrite digits_of_unfold.
    rewrite Nat.pow_1_r in Hn.
    destruct (n <? 10) eqn:E; [cbn [String.length]; lia | apply Nat.ltb_ge in E; lia].
  - destruct fuel; [lia |]. rewrite digits_of_unfold.
    destruct (n <? 10) eqn:E; [cbn [String.length]; lia |]. apply Nat.ltb_ge in E.
    rewrite length_append. cbn [String.length].
    assert (n / 10 < fuel) by (pose proof (Nat.div_lt n 10); lia).
    assert (n / 10 < 10 ^ S k).
    { apply Nat.Div0.div_lt_upper_bound. rewrite (Nat.pow_succ_r' 10 (S k)) in Hn. lia. }
    specialize (IH fuel (n / 10)). lia.
Qed.

Lemma format_03d_length (n : nat) : n < 1000 -> String.length (Py.format_0d 3 n) = 3.
Proof.
  intros H. rewrite format_0d_length.
  pose proof (digits_of_length_upper 2 (S n) n ltac:(lia)) as Hu.
  change (10 ^ 3) with 1000 in Hu. specialize (Hu H).
  unfold Py.str_nat. lia.
Qed.

End Strings.

(** * SQL LIKE against a literal followed by [%] *)

Lemma like_percent (s : string) : Sql.like "%" s = true.
Proof.
  induction s as [|x s IH]; [reflexivity |].
  change (Sql.like "%" (String x s)) with (false || Sql.like "%" s).
  exact IH.
Qed.

Lemma like_literal (lit s : string) :
  Py.every (fun c => negb (Sql.is_wildcard c)) lit = true ->
  Sql.like (lit +:+ "%") s = Sql.iprefix lit s.
Proof.
  revert s. induction lit as [|c lit IH]; intros s Hlit.
  - apply like_percent.
  - cbn [Py.every] in Hlit. apply andb_prop in Hlit as [Hc Hlit].
    apply negb_true_iff in Hc. unfold Sql.is_wildcard in Hc.
    apply orb_false_elim in Hc as [Hp Hu].
    change (String c lit +:+ "%") with (String c (lit +:+ "%")).
    cbn [Sql.like]. rewrite Hp.
    destruct s as [|x s]; [reflexivity |].
    rewrite Hu, IH by assumption. reflexivity.
Qed.

Lemma iprefix_append (lit t : string) : Sql.iprefix lit (lit +:+ t) = true.
Proof.
  induction lit as [|c lit IH]; [reflexivity |].
  change (String c lit +:+ t) with (String c (lit +:+ t)).
  cbn [Sql.iprefix]. now rewrite Ascii.eqb_refl.
Qed.

Lemma digit_not_wildcard (c : ascii) :
  Py.is_digit c = true -> negb (Sql.is_wildcard c) = true.
Proof.
  unfold Py.is_digit, Sql.is_wildcard. intros [H1%Nat.leb_le H2%Nat.leb_le]%andb_prop.
  apply negb_true_iff, orb_false_intro; apply Ascii.eqb_neq; intros ->;
    vm_compute in H1, H2; lia.
Qed.

Lemma digit_not_space (c : ascii) :
  Py.is_digit c = true -> negb (Py.is_space c) = true.
Proof.
  unfold Py.is_digit, Py.is_space. intros [H1%Nat.leb_le H2%Nat.leb_le]%andb_prop.
  generalize dependent (nat_of_ascii c). intros n H1 H2.
  assert (E1 : (n =? 32) = false) by (apply Nat.eqb_neq; lia).
  assert (E2 : (n <=? 13) = false) by (apply Nat.leb_gt; lia).
  assert (E3 : (n <=? 31) = false) by (apply Nat.leb_gt; lia).
  rewrite E1, E2, E3, !andb_false_r. reflexivity.
Qed.

(** * [str.split] *)

Lemma split_aux_nonempty (sep : string) (k : nat) (s : string) :
  Py.split_aux sep k s <> [].
Proof.
  revert k. induction s as [|c s IH]; intros k; [discriminate |].
  cbn [Py.split_aux]. destruct k as [|k]; [| apply IH].
  destruct (String.prefix sep (String c s)); [discriminate |].
  destruct (Py.split_aux sep 0 s); discriminate.
Qed.

Lemma startswith_split (s sep : string) :
  sep <> EmptyString -> Py.startswith s sep = true ->
  exists p rest, Py.split s sep = EmptyString :: p :: rest.
Proof.
  intros Hsep Hpre. unfold Py.startswith in Hpre. unfold Py.split.
  destruct s as [|c s].
  - destruct sep; [congruence | discriminate].
  - cbn [Py.split_aux]. rewrite Hpre.
    destruct (Py.split_aux sep (String.length sep - 1) s) as [|p rest] eqn:E.
    + now apply split_aux_nonempty in E.
    + eauto.
Qed.

Lemma split_aux_absent (a : ascii) (sep t : string) :
  Py.every (fun c => negb (Ascii.eqb c a)) t = true ->
  Py.split_aux (String a sep) 0 t = [t].
Proof.
  induction t as [|c t IH]; [reflexivity |].
  cbn [Py.every]. intros [Hc Ht]%andb_prop.
  apply negb_true_iff, Ascii.eqb_neq in Hc.
  cbn [Py.split_aux String.prefix].
  destruct (ascii_dec a c) as [->|_]; [congruence |].
  now rewrite IH.
Qed.

(** * [int(str(z))] *)

Lemma strip_id (s : string) :
  Py.every (fun c => negb (Py.is_space c)) s = true -> Py.strip s = s.
Proof.
  intros H. unfold Py.strip.
  assert (Hl : Py.lstrip s = s).
  { destruct s as [|c s]; [reflexivity |]. cbn [Py.every] in H.
    apply andb_prop in H as [Hc%negb_true_iff _]. cbn [Py.lstrip]. now rewrite Hc. }
  rewrite Hl. clear Hl. induction s as [|c s IH]; [reflexivity |].
  cbn [Py.every] in H. apply andb_prop in H as [Hc%negb_true_iff Hs].
  cbn [Py.rstrip]. rewrite (IH Hs). destruct s; [now rewrite Hc | reflexivity].
Qed.

Lemma digit_val_digit (c : ascii) :
  Py.is_digit c = true -> Py.digit_val c = Some (nat_of_ascii c - 48).
Proof. unfold Py.is_digit, Py.digit_val. now intros ->. Qed.

Lemma int_digits_decimal (s : string) (acc : nat) (b : bool) :
  Py.every Py.is_digit s = true ->
  Py.int_digits acc b s =
  match s with
  | EmptyString => if b then Some acc else None
  | _ => Some (Py.decimal acc s)
  end.
Proof.
  revert acc b. induction s as [|c s IH]; intros acc b; [reflexivity |].
  cbn [Py.every]. intros [Hc Hs]%andb_prop.
  cbn [Py.int_digits Py.decimal]. rewrite (digit_val_digit c Hc), (IH _ _ Hs).
  now destruct s.
Qed.

Lemma int_digits_str_nat (n : nat) : Py.int_digits 0 false (Py.str_nat n) = Some n.
Proof.
  rewrite int_digits_decimal by apply str_nat_digits.
  pose proof (str_nat_nonempty n) as Hn. pose proof (str_nat_decimal n) as Hd.
  destruct (Py.str_nat n); [cbn [String.length] in Hn; lia | now rewrite Hd].
Qed.

Lemma str_nat_no_space (n : nat) :
  Py.every (fun c => negb (Py.is_space c)) (Py.str_nat n) = true.
Proof. eapply every_impl; [apply digit_not_space | apply str_nat_digits]. Qed.

Lemma int_str (z : Z) : Py.int (Py.str z) = Some z.
Proof.
  unfold Py.str. destruct (z <? 0)%Z eqn:Hz.
  - apply Z.ltb_lt in Hz. unfold Py.int. rewrite strip_id.
    + change (Ascii.eqb "-" "+") with false. change (Ascii.eqb "-" "-") with true.
      cbn match. rewrite int_digits_str_nat. cbn [fmap option_fmap option_map].
      f_equal. lia.
    + cbn [Py.every]. rewrite str_nat_no_space. reflexivity.
  - apply Z.ltb_ge in Hz. unfold Py.int. rewrite strip_id by apply str_nat_no_space.
    pose proof (int_digits_str_nat (Z.to_nat z)) as Hi.
    pose proof (str_nat_digits (Z.to_nat z)) as Hd.
    destruct (Py.str_nat (Z.to_nat z)) as [|c r] eqn:E; [discriminate Hi |].
    cbn [Py.every] in Hd. apply andb_prop in Hd as [Hc _].
    assert (Hp : Ascii.eqb c "+" = false).
    { apply Ascii.eqb_neq. intros ->. discriminate Hc. }
    assert (Hm : Ascii.eqb c "-" = false).
    { apply Ascii.eqb_neq. intros ->. discriminate Hc. }
    rewrite Hp, Hm, Hi. cbn [fmap option_fmap option_map]. f_equal. lia.
Qed.

Lemma str_inj (a b : Z) : Py.str a = Py.str b -> a = b.
Proof.
  intros H. pose proof (int_str a) as Ha. rewrite H, int_str in Ha. congruence.
Qed.

(** * Manager calls and the world *)

Lemma with_connection_frame {A : Type} (failure : A)
    (body : Database -> Clock -> list Stmt * Result (A * Database)) (w : World) :
  active_sessions (with_connection failure body w).2 = active_sessions w
  /\ clock (with_connection failure body w).2 = clock w
  /\ outbox (with_connection failure body w).2 = outbox w.
Proof.
  unfold with_connection.
  destruct (storage w) as [|[|] rest]; cbn;
    destruct (body (db w) (clock w)).2 as [[a d']|e]; cbn; auto.
Qed.

Lemma get_user_by_telegram_id_result (telegram_id : string) (w : World) :
  (get_user_by_telegram_id telegram_id w).1 = None
  \/ (get_user_by_telegram_id telegram_id w).1 =
       List.find (fun u => String.eqb (User.telegram_id u) telegram_id)
                 (users (db w)).
Proof.
  unfold get_user_by_telegram_id, with_connection.
  destruct (storage w) as [|[|] rest]; cbn; auto.
Qed.

Lemma get_user_by_telegram_id_frame (telegram_id : string) (w : World) :
  db (get_user_by_telegram_id telegram_id w).2 = db w
  /\ active_sessions (get_user_by_telegram_id telegram_id w).2 = active_sessions w
  /\ outbox (get_user_by_telegram_id telegram_id w).2 = outbox w
  /\ exists l, sql_log (get_user_by_telegram_id telegram_id w).2 = sql_log w ++ l
       /\ Forall (fun s => s = SelectUserByTelegramId telegram_id) l.
Proof.
  unfold get_user_by_telegram_id, with_connection.
  destruct (storage w) as [|[|] rest]; cbn; repeat split; trivial.
  - exists [SelectUserByTelegramId telegram_id]. split; [reflexivity | repeat constructor].
  - exists [SelectUserByTelegramId telegram_id]. split; [reflexivity | repeat constructor].
  - exists []. split; [now rewrite app_nil_r | constructor].
Qed.

(** * Access control *)

Lemma check_user_access_denied (telegram_id : string) (w : World) :
  account_status (db w) telegram_id <> Some UserStatus.ACTIVE ->
  _check_user_access telegram_id w =
  (Done None, (get_user_by_telegram_id telegram_id w).2).
Proof.
  intros Hst. unfold _check_user_access, bind, call. cbn.
  destruct (get_user_by_telegram_id_result telegram_id w) as [E|E].
  - rewrite E. reflexivity.
  - destruct (get_user_by_telegram_id telegram_id w).1 as [u|] eqn:Eu; [| reflexivity].
    unfold account_status in Hst. rewrite <- E in Hst. cbn in Hst.
    destruct (String.eqb (User.status u) UserStatus.ACTIVE) eqn:Ea.
    + apply String.eqb_eq in Ea. congruence.
    + reflexivity.
Qed.

Lemma require_auth_denied (m : Message) (w : World) :
  account_status (db w) (Py.str (tg_id (from_user m))) <> Some UserStatus.ACTIVE ->
  _require_auth m w =
  (Done None,
   send (MessageAnswer AccessDeniedScreen)
     (get_user_by_telegram_id (Py.str (tg_id (from_user m))) w).2).
Proof.
  intros Hst. unfold _require_auth, bind.
  rewrite (check_user_access_denied _ w Hst). reflexivity.
Qed.

Lemma run_denied (op : Operation) (w : World) :
  authenticated op = true ->
  account_status (db w) (Py.str (tg_id (caller op))) <> Some UserStatus.ACTIVE ->
  run op w =
  (Done tt,
   send (denial op) (get_user_by_telegram_id (Py.str (tg_id (caller op))) w).2).
Proof.
  intros Hauth Hst.
  destruct op as [m|m|m|m|m|m|m|m|callback]; cbn [run caller denial] in *;
    try (unfold handle_my_tasks, handle_new_task, handle_log_activity,
           handle_my_stats, handle_upload_file, handle_schedule,
           handle_settings, handle_file_upload, bind;
         rewrite (require_auth_denied m w Hst); reflexivity).
  cbn [authenticated] in Hauth. unfold registration_callback in Hauth.
  apply negb_true_iff, orb_false_elim in Hauth as [H1 H2].
  unfold handle_callback, try_except. rewrite H1, H2. unfold bind.
  rewrite (check_user_access_denied _ w Hst). reflexivity.
Qed.

(** C1. A caller whose account is not active (unregistered, pending,
    rejected) is answered with the access-denied response by every
    menu handler and every callback past the registration pair; the
    tables and the sessions are left as they were, and the only statement
    executed is the lookup of the caller in [users]. *)
Theorem C1_inactive_caller_is_denied (op : Operation) (w : World) :
  authenticated op = true ->
  account_status (db w) (Py.str (tg_id (caller op))) <> Some UserStatus.ACTIVE ->
  (run op w).1 = Done tt
  /\ outbox (run op w).2 = outbox w ++ [denial op]
  /\ db (run op w).2 = db w
  /\ active_sessions (run op w).2 = active_sessions w
  /\ exists l, sql_log (run op w).2 = sql_log w ++ l
       /\ Forall (fun s => tables_of s = [Users]) l
       /\ Forall (fun s => s = SelectUserByTelegramId (Py.str (tg_id (caller op)))) l.
Proof.
  intros Hauth Hst. rewrite (run_denied op w Hauth Hst).
  destruct (get_user_by_telegram_id_frame (Py.str (tg_id (caller op))) w)
    as (Hdb & Hses & Hout & l & Hlog & Hl).
  cbn. rewrite Hout. repeat split; trivial.
  exists l. repeat split; trivial.
  eapply Forall_impl; [exact Hl |]. now intros s ->.
Qed.

Lemma C1_witness :
  (run (Callback (Sample.press "stats_personal" 200)) Sample.world).1 = Done tt
  /\ outbox (run (Callback (Sample.press "stats_personal" 200)) Sample.world).2
     = [access_denied_alert].
Proof.
  destruct (C1_inactive_caller_is_denied
              (Callback (Sample.press "stats_personal" 200)) Sample.world)
    as (H1 & H2 & _).
  - reflexivity.
  - vm_compute. discriminate.
  - split; [exact H1 | exact H2].
Defined.

(** * Registration *)

Lemma find_existsb {A : Type} (f : A -> bool) (l : list A) :
  List.find f l = None <-> existsb f l = false.
Proof.
  induction l as [|x l IH]; cbn; [tauto |].
  destruct (f x); cbn; [split; discriminate | exact IH].
Qed.

Lemma account_status_known (d : Database) (telegram_id : string) :
  account_status d telegram_id = None <->
  existsb (fun u => String.eqb (User.telegram_id u) telegram_id) (users d) = false.
Proof.
  unfold account_status. rewrite <- find_existsb.
  destruct (List.find _ (users d)); cbn; split; congruence.
Qed.

Lemma register_user_failure (telegram_id full_name : string)
    (username : option string) (w : World) :
  (register_user telegram_id full_name username w).1 = false ->
  db (register_user telegram_id full_name username w).2 = db w.
Proof.
  unfold register_user, with_connection.
  destruct (existsb (fun u => String.eqb (User.telegram_id u) telegram_id)
              (users (db w))) eqn:E;
    destruct (storage w) as [|[|] rest]; cbn; rewrite ?E; cbn; congruence.
Qed.

(** C6. [register_user] adds one account in status pending for a handle
    that is not stored (when the storage call goes through), refuses a
    stored handle whatever else happens, and changes no table whenever it
    refuses; [cmd_register] leaves every table alone for a stored handle. *)
Theorem C6_register (telegram_id full_name : string) (username : option string)
    (w : World) :
  (account_status (db w) telegram_id <> None ->
     (register_user telegram_id full_name username w).1 = false
     /\ db (register_user telegram_id full_name username w).2 = db w)
  /\ (account_status (db w) telegram_id = None ->
      head (storage w) <> Some false ->
      (register_user telegram_id full_name username w).1 = true
      /\ exists row,
           users (db (register_user telegram_id full_name username w).2)
             = users (db w) ++ [row]
           /\ User.telegram_id row = telegram_id
           /\ User.status row = UserStatus.PENDING
           /\ User.full_name row = Some full_name
           /\ User.username row = username
           /\ User.role row = None
           /\ tasks (db (register_user telegram_id full_name username w).2)
                = tasks (db w)
           /\ activity_logs (db (register_user telegram_id full_name username w).2)
                = activity_logs (db w)
           /\ files (db (register_user telegram_id full_name username w).2)
                = files (db w))
  /\ (forall m : Message,
        account_status (db w) (Py.str (tg_id (from_user m))) <> None ->
        db (cmd_register m w).2 = db w).
Proof.
  split; [| split].
  - intros Hknown.
    assert (Hf : (register_user telegram_id full_name username w).1 = false).
    { unfold register_user, with_connection.
      destruct (existsb (fun u => String.eqb (User.telegram_id u) telegram_id)
                  (users (db w))) eqn:E.
      - destruct (storage w) as [|[|] rest]; cbn; rewrite ?E; reflexivity.
      - now apply account_status_known in E. }
    split; [exact Hf | now apply register_user_failure].
  - intros Hnew Hok. apply account_status_known in Hnew.
    unfold register_user, with_connection.
    destruct (storage w) as [|[|] rest]; cbn in *; try congruence;
      rewrite Hnew; cbn; (split; [reflexivity |]); eexists; repeat split.
  - intros m Hknown. unfold cmd_register, bind, call. cbn.
    pose proof (get_user_by_telegram_id_frame (Py.str (tg_id (from_user m))) w)
      as (Hdb & _).
    destruct (get_user_by_telegram_id_result (Py.str (tg_id (from_user m))) w)
      as [E|E].
    + rewrite E. cbn.
      set (w1 := (get_user_by_telegram_id (Py.str (tg_id (from_user m))) w).2) in *.
      set (name := match tg_full_name (from_user m) with
                   | EmptyString => _ | String a s => _ end).
      assert (Hf : (register_user (Py.str (tg_id (from_user m))) name
                      (tg_username (from_user m)) w1).1 = false).
      { unfold register_user, with_connection. rewrite Hdb.
        destruct (existsb (fun u => String.eqb (User.telegram_id u)
                                      (Py.str (tg_id (from_user m))))
                    (users (db w))) eqn:Ex.
        - destruct (storage w1) as [|[|] rest]; cbn; rewrite ?Ex; reflexivity.
        - now apply account_status_known in Ex. }
      rewrite Hf. cbn. rewrite register_user_failure by exact Hf. exact Hdb.
    + unfold account_status in Hknown. rewrite <- E in Hknown.
      destruct (get_user_by_telegram_id (Py.str (tg_id (from_user m))) w).1 as [u|];
        [| now cbn in Hknown].
      cbn. destruct (String.eqb (User.status u) UserStatus.ACTIVE); cbn; [exact Hdb |].
      destruct (String.eqb (User.status u) UserStatus.PENDING); cbn; exact Hdb.
Qed.

Lemma C6_witness :
  (register_user "400" "Dana" None Sample.world).1 = true
  /\ (register_user "200" "Dana" None Sample.world).1 = false.
Proof.
  pose proof (C6_register "400" "Dana" None Sample.world) as (_ & Hnew & _).
  pose proof (C6_register "200" "Dana" None Sample.world) as (Hold & _ & _).
  split.
  - apply Hnew; [reflexivity | discriminate].
  - apply Hold. vm_compute. discriminate.
Defined.

(** * Task creation *)

Lemma create_task_inv (task_data : gmap string Py.value) (created_by : Z)
    (w : World) (task_code : string) :
  (create_task task_data created_by w).1 = Some task_code ->
  exists p,
    _generate_task_code (db w) (clock w) (dict_get task_data "category" Py.VNone)
      = Done task_code
    /\ task_params task_data = Done p
    /\ insert_task (db w) (clock w) task_code p created_by
       = Done (db (create_task task_data created_by w).2)
    /\ clock (create_task task_data created_by w).2 = clock w.
Proof.
  unfold create_task, with_connection, insert_statement.
  destruct (_generate_task_code (db w) (clock w)
              (dict_get task_data "category" Py.VNone)) as [code|e];
    destruct (task_params task_data) as [p|e'];
    destruct (storage w) as [|[|] rest]; cbn; try discriminate;
    destruct (insert_task (db w) (clock w) code p created_by) as [d'|e''] eqn:Ei;
    cbn; try discriminate; intros [= <-]; exists p; auto.
Qed.

Lemma insert_task_inv (d : Database) (c : Clock) (task_code : string)
    (p : TaskParams) (created_by : Z) (d' : Database) :
  insert_task d c task_code p created_by = Done d' ->
  exists row,
    tasks d' = tasks d ++ [row]
    /\ Task.task_code row = task_code
    /\ Task.travel_required row = p_travel_required p
    /\ Task.created_at row = utc_now c
    /\ Task.status row = TaskStatus.TO_DO
    /\ Task.priority row = Sql.text (p_priority p)
    /\ users d' = users d
    /\ activity_logs d' = activity_logs d
    /\ files d' = files d
    /\ forallb (fun t => negb (String.eqb (Task.task_code t) task_code)) (tasks d)
       = true.
Proof.
  unfold insert_task.
  destruct (Sql.text (p_task_type p)) as [ty|]; [| discriminate].
  destruct (Sql.text (p_category p)) as [cat|]; [| discriminate].
  destruct (Sql.text (p_description p)) as [descr|]; [| discriminate].
  destruct (forallb _ (tasks d)) eqn:Hu; [| discriminate].
  cbn [andb].
  match goal with |- (if ?b then _ else _) = _ -> _ => destruct b end;
    [| discriminate].
  intros [= <-]. eexists. cbn. repeat split.
Qed.

Lemma dict_get_insert_ne (d : gmap string Py.value) (k k' : string)
    (v dflt : Py.value) :
  k <> k' -> dict_get (<[k := v]> d) k' dflt = dict_get d k' dflt.
Proof. intros H. unfold dict_get. now rewrite lookup_insert_ne. Qed.

Lemma subscript_insert_ne (d : gmap string Py.value) (k k' : string)
    (v : Py.value) :
  k <> k' -> subscript (<[k := v]> d) k' = subscript d k'.
Proof. intros H. unfold subscript. now rewrite lookup_insert_ne. Qed.

Lemma task_params_travel (task_data : gmap string Py.value) (p : TaskParams) :
  task_params task_data = Done p ->
  (task_data !! "customer_city" = None /\ p_travel_required p = true)
  \/ (exists city, task_data !! "customer_city" = Some (Py.VStr city)
        /\ p_travel_required p = negb (String.eqb (Py.lower city) "tanger")).
Proof.
  unfold task_params.
  destruct (subscript task_data "category"); [| discriminate].
  destruct (subscript task_data "description"); [| discriminate].
  unfold dict_get at 1.
  destruct (task_data !! "customer_city") as [[ | | |city]|]; cbn;
    try discriminate; intros [= <-]; cbn; eauto.
Qed.

(** C9. A created task stores [travel_required] as "the supplied
    [customer_city], lower-cased, is not tanger"; with no [customer_city]
    the flag is set; a [travel_required] entry of the input is never read. *)
Theorem C9_travel_required (task_data : gmap string Py.value) (created_by : Z)
    (w : World) :
  (forall v,
     create_task (<["travel_required" := v]> task_data) created_by w
     = create_task task_data created_by w)
  /\ (forall task_code,
        (create_task task_data created_by w).1 = Some task_code ->
        exists row,
          tasks (db (create_task task_data created_by w).2) = tasks (db w) ++ [row]
          /\ Task.task_code row = task_code
          /\ ((task_data !! "customer_city" = None
               /\ Task.travel_required row = true)
              \/ (exists city,
                    task_data !! "customer_city" = Some (Py.VStr city)
                    /\ Task.travel_required row
                       = negb (String.eqb (Py.lower city) "tanger")))).
Proof.
  split.
  - intros v. unfold create_task, insert_statement, task_params.
    rewrite !dict_get_insert_ne, !subscript_insert_ne by discriminate.
    reflexivity.
  - intros task_code Hc.
    destruct (create_task_inv _ _ _ _ Hc) as (p & _ & Hp & Hi & _).
    destruct (insert_task_inv _ _ _ _ _ _ Hi) as (row & Ht & Hcode & Htr & _).
    exists row. repeat split; trivial. rewrite Htr.
    now apply task_params_travel.
Qed.

Lemma C9_witness :
  exists row,
    tasks (db (create_task (<["customer_city" := Py.VStr "TANGER"]> Sample.repair_task)
                 1 Sample.world).2) = [row]
    /\ Task.travel_required row = false.
Proof.
  destruct (C9_travel_required
              (<["customer_city" := Py.VStr "TANGER"]> Sample.repair_task)
              1 Sample.world) as (_ & H).
  destruct (H "REP-251103-001" ltac:(vm_compute; reflexivity))
    as (row & Ht & _ & [[Hn _] | (city & Hcity & Hflag)]).
  - vm_compute in Hn. discriminate.
  - exists row. split; [exact Ht |].
    rewrite Hflag. vm_compute in Hcity. injection Hcity as <-. reflexivity.
Defined.

(** * Task codes *)

Lemma known_prefix_cases (P : string -> Prop) :
  P "INST" -> P "MAINT" -> P "REP" -> P "INSP" -> P "CAL" -> P "COMM" ->
  P "TRAIN" -> P "EMRG" -> P "OTHER" -> P "TASK" ->
  forall p, p ∈ known_prefixes -> P p.
Proof.
  intros ? ? ? ? ? ? ? ? ? ? p Hp. unfold known_prefixes in Hp.
  repeat (apply elem_of_cons in Hp as [->|Hp]; [assumption |]).
  now apply elem_of_nil in Hp.
Qed.

Lemma code_prefix_known (lowered : string) : code_prefix lowered ∈ known_prefixes.
Proof.
  unfold code_prefix.
  destruct (category_prefixes !! lowered) as [p|] eqn:E; cbn.
  - apply elem_of_list_to_map_2 in E.
    repeat (apply elem_of_cons in E as [E|E];
            [injection E as _ ->; unfold known_prefixes; set_solver |]).
    now apply elem_of_nil in E.
  - unfold known_prefixes. set_solver.
Qed.

Lemma code_prefix_unknown (lowered : string) :
  category_prefixes !! lowered = None -> code_prefix lowered = "TASK".
Proof. intros E. unfold code_prefix. now rewrite E. Qed.

Lemma strftime_digits (t : DateTime) :
  Py.every Py.is_digit (Time.strftime_yymmdd t) = true.
Proof.
  unfold Time.strftime_yymmdd. now rewrite !every_append, !format_0d_digits.
Qed.

Lemma format_02d_length (n : nat) : n < 100 -> String.length (Py.format_0d 2 n) = 2.
Proof.
  intros H. rewrite format_0d_length.
  pose proof (digits_of_length_upper 1 (S n) n ltac:(lia)) as Hu.
  change (10 ^ 2) with 100 in Hu. specialize (Hu H).
  unfold Py.str_nat. lia.
Qed.

Lemma strftime_length (t : DateTime) :
  month t < 100 -> day t < 100 -> String.length (Time.strftime_yymmdd t) = 6.
Proof.
  intros Hm Hd. unfold Time.strftime_yymmdd.
  rewrite !length_append, !format_02d_length; trivial.
  apply Nat.mod_upper_bound. lia.
Qed.

(** The literal part of the LIKE pattern. *)
Lemma like_pattern_literal (prefix date_str : string) :
  like_pattern prefix date_str = (prefix +:+ "-" +:+ date_str +:+ "-") +:+ "%".
Proof. unfold like_pattern. now rewrite !append_assoc. Qed.

Lemma code_literal (prefix date_str seq : string) :
  prefix +:+ "-" +:+ date_str +:+ "-" +:+ seq
  = (prefix +:+ "-" +:+ date_str +:+ "-") +:+ seq.
Proof. now rewrite !append_assoc. Qed.

Lemma literal_no_wildcard (prefix date_str : string) :
  prefix ∈ known_prefixes ->
  Py.every Py.is_digit date_str = true ->
  Py.every (fun c => negb (Sql.is_wildcard c)) (prefix +:+ "-" +:+ date_str +:+ "-")
  = true.
Proof.
  intros Hp Hd. rewrite !every_append.
  rewrite (every_impl _ _ date_str digit_not_wildcard Hd).
  revert prefix Hp. apply known_prefix_cases; reflexivity.
Qed.

Lemma like_own_code (prefix date_str seq : string) :
  prefix ∈ known_prefixes ->
  Py.every Py.is_digit date_str = true ->
  Sql.like (like_pattern prefix date_str)
    (prefix +:+ "-" +:+ date_str +:+ "-" +:+ seq) = true.
Proof.
  intros Hp Hd. rewrite like_pattern_literal, code_literal.
  rewrite like_literal by now apply literal_no_wildcard.
  apply iprefix_append.
Qed.

Lemma generate_task_code_eq (d : Database) (c : Clock) (category : string) :
  _generate_task_code d c (Py.VStr category)
  = Done (code_prefix (Py.lower category) +:+ "-"
          +:+ Time.strftime_yymmdd (local_now c) +:+ "-"
          +:+ Py.format_0d 3 (today_count d c (code_prefix (Py.lower category)) + 1)).
Proof. reflexivity. Qed.

Lemma generate_task_code_str (d : Database) (c : Clock) (v : Py.value)
    (task_code : string) :
  _generate_task_code d c v = Done task_code -> exists category, v = Py.VStr category.
Proof. destruct v; cbn; try discriminate. eauto. Qed.

Lemma today_count_insert (d d' : Database) (c : Clock) (prefix : string)
    (row : Task.t) :
  tasks d' = tasks d ++ [row] ->
  today_count d' c prefix
  = today_count d c prefix
    + (if counted_today c
            (like_pattern prefix (Time.strftime_yymmdd (local_now c))) row
       then 1 else 0).
Proof.
  intros Ht. unfold today_count. rewrite Ht, List.filter_app, length_app.
  cbn [List.filter]. now destruct (counted_today _ _ row).
Qed.

Lemma today_count_same_day (d : Database) (c c' : Clock) (prefix : string) :
  same_day c c' -> today_count d c' prefix = today_count d c prefix.
Proof.
  intros [Hl Hu]. unfold today_count, counted_today. now rewrite Hl, Hu.
Qed.

Lemma generate_same_day (d : Database) (c c' : Clock) (v : Py.value) :
  same_day c c' -> _generate_task_code d c' v = _generate_task_code d c v.
Proof.
  intros H. unfold _generate_task_code.
  destruct (lower_method v); [| reflexivity].
  rewrite (today_count_same_day _ _ _ _ H). destruct H as [-> _]. reflexivity.
Qed.

(** A successful creation is counted by the next count under the same clock. *)
Lemma create_task_counted (task_data : gmap string Py.value) (created_by : Z)
    (w : World) (task_code category : string) :
  dict_get task_data "category" Py.VNone = Py.VStr category ->
  (create_task task_data created_by w).1 = Some task_code ->
  today_count (db (create_task task_data created_by w).2) (clock w)
    (code_prefix (Py.lower category))
  = today_count (db w) (clock w) (code_prefix (Py.lower category)) + 1.
Proof.
  intros Hcat Hc.
  destruct (create_task_inv _ _ _ _ Hc) as (p & Hg & _ & Hi & _).
  destruct (insert_task_inv _ _ _ _ _ _ Hi) as (row & Ht & Hcode & _ & Hat & _).
  rewrite (today_count_insert _ _ _ _ _ Ht).
  rewrite Hcat, generate_task_code_eq in Hg.
  assert (Hg' : task_code
                = code_prefix (Py.lower category) +:+ "-"
                  +:+ Time.strftime_yymmdd (local_now (clock w)) +:+ "-"
                  +:+ Py.format_0d 3
                        (today_count (db w) (clock w)
                           (code_prefix (Py.lower category)) + 1))
    by congruence.
  unfold counted_today. rewrite Hcode, Hg', Hat.
  rewrite like_own_code by (apply code_prefix_known || apply strftime_digits).
  now rewrite bool_decide_eq_true_2.
Qed.

(** The code of a successful creation and the code the generator gives
    next, at any reading of the same day. *)
Lemma create_task_next (task_data : gmap string Py.value) (created_by : Z)
    (w : World) (task_code category : string) (c c' : Clock) :
  same_day c (clock w) -> same_day c c' ->
  dict_get task_data "category" Py.VNone = Py.VStr category ->
  (create_task task_data created_by w).1 = Some task_code ->
  task_code
  = code_prefix (Py.lower category) +:+ "-"
    +:+ Time.strftime_yymmdd (local_now c) +:+ "-"
    +:+ Py.format_0d 3 (today_count (db w) c (code_prefix (Py.lower category)) + 1)
  /\ today_count (db (create_task task_data created_by w).2) c'
       (code_prefix (Py.lower category))
     = today_count (db w) c (code_prefix (Py.lower category)) + 1.
Proof.
  intros Hw Hc' Hcat Hc. split.
  - destruct (create_task_inv _ _ _ _ Hc) as (p & Hg & _).
    rewrite Hcat, (generate_same_day _ _ _ _ Hw), generate_task_code_eq in Hg.
    congruence.
  - rewrite (today_count_same_day _ _ _ _ Hc').
    rewrite <- (today_count_same_day _ _ _ _ Hw).
    rewrite <- (today_count_same_day (db w) _ _ _ Hw).
    exact (create_task_counted _ _ _ task_code _ Hcat Hc).
Qed.

Lemma today_count_none (d : Database) (c : Clock) (prefix : string) :
  prefix ∈ known_prefixes ->
  Forall (fun t =>
            Sql.iprefix
              (prefix +:+ "-" +:+ Time.strftime_yymmdd (local_now c) +:+ "-")
              (Task.task_code t) = false
            \/ Time.date (Task.created_at t) <> Time.date (utc_now c))
         (tasks d) ->
  today_count d c prefix = 0.
Proof.
  intros Hp Hall. unfold today_count.
  induction Hall as [|t ts Ht _ IH]; [reflexivity |].
  cbn [List.filter].
  assert (counted_today c
            (like_pattern prefix (Time.strftime_yymmdd (local_now c))) t
          = false) as ->; [| exact IH].
  unfold counted_today.
  rewrite like_pattern_literal,
    like_literal by (apply literal_no_wildcard; [exact Hp | apply strftime_digits]).
  destruct Ht as [Ht|Ht].
  - now rewrite Ht.
  - now rewrite (bool_decide_eq_false_2 _ Ht), andb_false_r.
Qed.

(** The generated code is PREFIX-YYMMDD-seq: the prefix comes from the
    category table (looked up on the lower-cased category, TASK when the
    category is not listed), the date field is the six digits of the local
    date, and the sequence field is the zero-padded decimal of one more
    than the number of stored codes of that prefix and printed date whose
    row was created on today's UTC date: 001 when no stored row is both,
    three digits up to 999, and one higher after each creation, as long as
    the readings of the clock agree on the local and on the UTC date. *)
Lemma generated_code_format (d : Database) (c : Clock) (category : string) :
  let prefix := code_prefix (Py.lower category) in
  let date_str := Time.strftime_yymmdd (local_now c) in
  let seq := today_count d c prefix + 1 in
  _generate_task_code d c (Py.VStr category)
    = Done (prefix +:+ "-" +:+ date_str +:+ "-" +:+ Py.format_0d 3 seq)
  /\ prefix ∈ known_prefixes
  /\ (category_prefixes !! Py.lower category = None -> prefix = "TASK")
  /\ Py.every Py.is_digit date_str = true
  /\ (month (local_now c) < 100 -> day (local_now c) < 100 ->
      String.length date_str = 6)
  /\ Py.every Py.is_digit (Py.format_0d 3 seq) = true
  /\ Py.decimal 0 (Py.format_0d 3 seq) = seq
  /\ (seq < 1000 -> String.length (Py.format_0d 3 seq) = 3)
  /\ (Forall (fun t =>
                Sql.iprefix (prefix +:+ "-" +:+ date_str +:+ "-")
                            (Task.task_code t) = false
                \/ Time.date (Task.created_at t) <> Time.date (utc_now c))
             (tasks d) ->
      Py.format_0d 3 seq = "001")
  /\ (forall task_data created_by w task_code c',
        db w = d -> same_day c (clock w) -> same_day c c' ->
        dict_get task_data "category" Py.VNone = Py.VStr category ->
        (create_task task_data created_by w).1 = Some task_code ->
        task_code = prefix +:+ "-" +:+ date_str +:+ "-" +:+ Py.format_0d 3 seq
        /\ _generate_task_code (db (create_task task_data created_by w).2) c'
             (Py.VStr category)
           = Done (prefix +:+ "-" +:+ date_str +:+ "-" +:+ Py.format_0d 3 (seq + 1))).
Proof.
  cbn zeta.
  split; [reflexivity |].
  split; [apply code_prefix_known |].
  split; [apply code_prefix_unknown |].
  split; [apply strftime_digits |].
  split; [apply strftime_length |].
  split; [apply format_0d_digits |].
  split; [apply format_0d_decimal |].
  split; [apply format_03d_length |].
  split.
  { intros Hall. now rewrite (today_count_none _ _ _ (code_prefix_known _) Hall). }
  intros task_data created_by w task_code c' <- Hw Hc' Hcat Hc.
  destruct (create_task_next _ _ _ _ _ _ _ Hw Hc' Hcat Hc) as [Hcode Hnext].
  split; [exact Hcode |].
  rewrite generate_task_code_eq, Hnext. now destruct Hc' as [-> _].
Qed.

(** C4. The sequence field is not a counter of the printed day.  The date
    field is the local date while the count takes the rows of today's UTC
    date, so on a host one hour ahead of UTC a repair task created at 00:30
    gets REP-251104-001, and at 09:00 of the same local day that row is no
    longer counted: the generator hands out REP-251104-001 again, the INSERT
    breaks the UNIQUE constraint and the second task is not created.  Two
    creations within one UTC day get 001 and 002. *)
Theorem C4_day_counter_restarts_at_utc_midnight :
  let first :=
    create_task Sample.repair_task 1 (at_clock Sample.night Sample.world) in
  let second :=
    create_task Sample.repair_task 1 (at_clock Sample.morning first.2) in
  let noon := create_task Sample.repair_task 1 Sample.world in
  Time.strftime_yymmdd (local_now Sample.night) = "251104"
  /\ Time.strftime_yymmdd (local_now Sample.morning) = "251104"
  /\ first.1 = Some "REP-251104-001"
  /\ Task.task_code <$> tasks (db first.2) = ["REP-251104-001"]
  /\ today_count (db first.2) Sample.morning "REP" = 0
  /\ _generate_task_code (db first.2) Sample.morning (Py.VStr "repair")
     = Done "REP-251104-001"
  /\ second.1 = None
  /\ Task.task_code <$> tasks (db second.2) = ["REP-251104-001"]
  /\ noon.1 = Some "REP-251103-001"
  /\ (create_task Sample.repair_task 1 noon.2).1 = Some "REP-251103-002".
Proof. vm_compute. repeat split. Qed.

Lemma format_0d_wide (w n : nat) :
  w <= String.length (Py.str_nat n) -> Py.format_0d w n = Py.str_nat n.
Proof.
  intros H. unfold Py.format_0d.
  replace (w - String.length (Py.str_nat n)) with 0 by lia. reflexivity.
Qed.

Lemma code_inj (prefix date_str s1 s2 : string) :
  prefix +:+ "-" +:+ date_str +:+ "-" +:+ s1
  = prefix +:+ "-" +:+ date_str +:+ "-" +:+ s2 -> s1 = s2.
Proof.
  rewrite !code_literal. apply String.app_inj.
Qed.

Lemma create_task_none (task_data : gmap string Py.value) (created_by : Z)
    (w : World) :
  (create_task task_data created_by w).1 = None ->
  db (create_task task_data created_by w).2 = db w.
Proof.
  unfold create_task, with_connection.
  destruct (_generate_task_code (db w) (clock w)
              (dict_get task_data "category" Py.VNone)) as [code|e];
    destruct (storage w) as [|[|] rest]; cbn; trivial;
    destruct (insert_statement task_data created_by code (db w) (clock w)).2;
    cbn; trivial; discriminate.
Qed.

Lemma dated_code_inj (prefix date_str : string) (k : nat) :
  Inj eq eq (dated_code prefix date_str k).
Proof.
  intros i j H. unfold dated_code in H. apply code_inj, format_0d_inj in H. lia.
Qed.

Lemma dated_code_shift (prefix date_str : string) (k n : nat) :
  dated_code prefix date_str k <$> seq 2 n
  = dated_code prefix date_str (k + 1) <$> seq 1 n.
Proof.
  rewrite <- (seq_shift n 1), <- list_fmap_compose.
  apply list_fmap_ext. intros _ i _. unfold dated_code, compose.
  replace (k + S i) with (k + 1 + i) by lia. reflexivity.
Qed.

(** A day's run of creations in one category: the codes handed out carry
    the consecutive numbers that follow the count at the start. *)
Lemma create_all_codes (c : Clock) (category : string)
    (reqs : list (Clock * gmap string Py.value * Z)) (w : World) :
  Forall (fun r => same_day c r.1.1
                   /\ dict_get r.1.2 "category" Py.VNone = Py.VStr category) reqs ->
  (create_all reqs w).1
  = dated_code (code_prefix (Py.lower category))
      (Time.strftime_yymmdd (local_now c))
      (today_count (db w) c (code_prefix (Py.lower category)))
    <$> seq 1 (length (create_all reqs w).1)
  /\ today_count (db (create_all reqs w).2) c (code_prefix (Py.lower category))
     = today_count (db w) c (code_prefix (Py.lower category))
       + length (create_all reqs w).1.
Proof.
  intros Hreqs. revert w.
  induction Hreqs as [|[[c1 task_data] created_by] reqs [Hday Hcat] _ IH]; intros w.
  - cbn. split; [reflexivity | lia].
  - cbn [create_all]. cbn [fst snd] in Hday, Hcat.
    set (r := create_task task_data created_by (at_clock c1 w)).
    destruct r.1 as [task_code|] eqn:Er.
    + destruct (create_task_next task_data created_by (at_clock c1 w) task_code
                  category c c Hday (conj eq_refl eq_refl) Hcat Er) as [Hcode Hnext].
      fold r in Hnext. cbn [db at_clock] in Hcode, Hnext.
      destruct (IH r.2) as [IHl IHc]. rewrite Hnext in IHl, IHc.
      cbn [fst snd length]. split.
      * cbn [seq fmap list_fmap]. f_equal.
        -- exact Hcode.
        -- rewrite IHl at 1. symmetry. apply dated_code_shift.
      * rewrite IHc. lia.
    + assert (Hdb : db r.2 = db w) by (apply (create_task_none _ _ _ Er)).
      destruct (IH r.2) as [IHl IHc]. rewrite Hdb in IHl, IHc.
      cbn [fst snd]. now split.
Qed.



(** * The lookup key of the upload selection *)

Lemma prefix_append (a b : string) : String.prefix a (a +:+ b) = true.
Proof.
  induction a as [|x a IH]; [now destruct b |].
  change (String x a +:+ b) with (String x (a +:+ b)). cbn [String.prefix].
  destruct (ascii_dec x x); [exact IH | congruence].
Qed.

Lemma str_not_dated (z : Z) (date_str seq : string) :
  Py.every Py.is_digit date_str = true ->
  1 <= String.length date_str ->
  Py.str z <> date_str +:+ "-" +:+ seq.
Proof.
  intros Hd Hl. unfold Py.str. destruct (z <? 0)%Z.
  - destruct date_str as [|x r]; [cbn [String.length] in Hl; lia |].
    change (String x r +:+ "-" +:+ seq) with (String x (r +:+ "-" +:+ seq)).
    intros [= <- _]. discriminate Hd.
  - intros H. pose proof (str_nat_digits (Z.to_nat z)) as Hs.
    rewrite H, !every_append in Hs.
    rewrite Hd in Hs. discriminate Hs.
Qed.

Lemma strftime_nonempty (t : DateTime) : 1 <= String.length (Time.strftime_yymmdd t).
Proof.
  unfold Time.strftime_yymmdd. rewrite !length_append, !format_0d_length. lia.
Qed.

Lemma generated_not_literal (code : string) (z : Z) :
  generated_code code -> code <> "TASK-" +:+ Py.str z.
Proof.
  intros (prefix & t & n & Hp & ->) H.
  assert (Hpre : String.prefix "TASK-"
                   (prefix +:+ "-" +:+ Time.strftime_yymmdd t +:+ "-"
                      +:+ Py.format_0d 3 n) = true)
    by (rewrite H; apply prefix_append).
  revert prefix Hp H Hpre.
  apply (known_prefix_cases
           (fun prefix =>
              prefix +:+ "-" +:+ Time.strftime_yymmdd t +:+ "-" +:+ Py.format_0d 3 n
              = "TASK-" +:+ Py.str z ->
              String.prefix "TASK-"
                (prefix +:+ "-" +:+ Time.strftime_yymmdd t +:+ "-"
                   +:+ Py.format_0d 3 n) = true -> False));
    try (intros _ Hf; discriminate Hf).
  intros H _.
  change ("TASK-" +:+ (Time.strftime_yymmdd t +:+ "-" +:+ Py.format_0d 3 n)
          = "TASK-" +:+ Py.str z) in H.
  apply String.app_inj in H. symmetry in H. revert H.
  apply str_not_dated; [apply strftime_digits | apply strftime_nonempty].
Qed.

Lemma create_task_generated (task_data : gmap string Py.value) (created_by : Z)
    (w : World) (task_code : string) :
  (create_task task_data created_by w).1 = Some task_code ->
  generated_code task_code.
Proof.
  intros Hc. destruct (create_task_inv _ _ _ _ Hc) as (p & Hg & _).
  destruct (generate_task_code_str _ _ _ _ Hg) as (category & Hcat).
  rewrite Hcat, generate_task_code_eq in Hg.
  exists (code_prefix (Py.lower category)), (local_now (clock w)),
    (today_count (db w) (clock w) (code_prefix (Py.lower category)) + 1).
  split; [apply code_prefix_known | congruence].
Qed.

Lemma find_none_forall {A : Type} (f : A -> bool) (l : list A) :
  Forall (fun x => f x = false) l -> List.find f l = None.
Proof.
  induction 1 as [|x l Hx _ IH]; [reflexivity |]. cbn. now rewrite Hx.
Qed.

Lemma split_aux_skip (sep u t : string) :
  Py.split_aux sep (String.length u) (u +:+ t) = Py.split_aux sep 0 t.
Proof.
  induction u as [|x u IH]; [reflexivity |].
  change (String x u +:+ t) with (String x (u +:+ t)). exact IH.
Qed.

Lemma split_aux_lead (a : ascii) (sep t : string) :
  Py.split_aux (String a sep) 0 (String a sep +:+ t)
  = EmptyString :: Py.split_aux (String a sep) 0 t.
Proof.
  pose proof (prefix_append (String a sep) t) as Hp.
  change (String a sep +:+ t) with (String a (sep +:+ t)) in *.
  cbn [Py.split_aux]. rewrite Hp. f_equal.
  cbn [String.length]. rewrite Nat.sub_1_r. cbn [Nat.pred].
  apply split_aux_skip.
Qed.

Lemma upload_token_number (z : Z) :
  Py.split ("upload_task_" +:+ Py.str z) "upload_task_" !! 1 = Some (Py.str z).
Proof.
  assert (Hs : Py.split_aux "upload_task_" 0 (Py.str z) = [Py.str z]).
  { apply split_aux_absent. unfold Py.str. destruct (z <? 0)%Z.
    - cbn [Py.every]. rewrite andb_true_l.
      eapply every_impl; [| apply str_nat_digits].
      intros c Hc. apply negb_true_iff, Ascii.eqb_neq. intros ->. discriminate Hc.
    - eapply every_impl; [| apply str_nat_digits].
      intros c Hc. apply negb_true_iff, Ascii.eqb_neq. intros ->. discriminate Hc. }
  unfold Py.split. rewrite split_aux_lead, Hs. reflexivity.
Qed.

Lemma get_task_by_code_frame (task_code : string) (w : World) :
  ((get_task_by_code task_code w).1 = None
   \/ (get_task_by_code task_code w).1
      = List.find (fun t => String.eqb (Task.task_code t) task_code) (tasks (db w)))
  /\ db (get_task_by_code task_code w).2 = db w
  /\ active_sessions (get_task_by_code task_code w).2 = active_sessions w
  /\ outbox (get_task_by_code task_code w).2 = outbox w
  /\ exists l, sql_log (get_task_by_code task_code w).2 = sql_log w ++ l
       /\ Forall (fun s => s = SelectTaskByCode task_code) l.
Proof.
  unfold get_task_by_code, with_connection.
  destruct (storage w) as [|[|] rest]; cbn; repeat split; auto.
  - exists [SelectTaskByCode task_code]. split; [reflexivity | repeat constructor].
  - exists [SelectTaskByCode task_code]. split; [reflexivity | repeat constructor].
  - exists []. split; [now rewrite app_nil_r | constructor].
Qed.

(** C10. Selecting task [N] for upload looks for the code TASK-N.  When
    every stored code has the generated PREFIX-YYMMDD-seq shape, the lookup
    finds nothing: the answer is "Task not found", no session is stored
    and nothing else changes. *)
Theorem C10_upload_selection_misses (task_id : Z) (user : User.t)
    (callback : CallbackQuery) (w : World) :
  data callback = Some ("upload_task_" +:+ Py.str task_id) ->
  Forall generated_code (Task.task_code <$> tasks (db w)) ->
  (_handle_upload_task_selection callback user w).1 = Done tt
  /\ outbox (_handle_upload_task_selection callback user w).2
     = outbox w ++ [CallbackAnswer (Some "? Task not found.") true]
  /\ active_sessions (_handle_upload_task_selection callback user w).2
     = active_sessions w
  /\ db (_handle_upload_task_selection callback user w).2 = db w
  /\ exists l,
       sql_log (_handle_upload_task_selection callback user w).2 = sql_log w ++ l
       /\ Forall (fun s => s = SelectTaskByCode ("TASK-" +:+ Py.str task_id)) l.
Proof.
  intros Hdata Hgen.
  assert (Hfind : List.find
                    (fun t => String.eqb (Task.task_code t) ("TASK-" +:+ Py.str task_id))
                    (tasks (db w)) = None).
  { apply find_none_forall. rewrite Forall_fmap in Hgen.
    eapply Forall_impl; [exact Hgen |]. intros t Ht. cbn in Ht.
    apply String.eqb_neq. now apply generated_not_literal. }
  pose proof (get_task_by_code_frame ("TASK-" +:+ Py.str task_id) w)
    as (Hres & Hdb & Hses & Hout & l & Hlog & Hl).
  rewrite Hfind in Hres.
  unfold _handle_upload_task_selection, bind, data_of. rewrite Hdata. cbn [ret fst snd].
  unfold item1. rewrite upload_token_number. cbn [ret fst snd].
  rewrite int_str. unfold bind, call. cbn [fst snd].
  assert (Hnone : (get_task_by_code ("TASK-" +:+ Py.str task_id) w).1 = None)
    by (destruct Hres; assumption).
  rewrite Hnone.
  set (r := get_task_by_code ("TASK-" +:+ Py.str task_id) w) in *.
  cbn. rewrite Hout. repeat split; trivial.
  exists l. now split.
Qed.

Lemma C10_witness :
  outbox (_handle_upload_task_selection (Sample.press "upload_task_1" 100)
            (Sample.user 1 "100" "active" (Some "technician"))
            (create_task Sample.repair_task 1 Sample.world).2).2
  = [CallbackAnswer (Some "? Task not found.") true].
Proof.
  destruct (C10_upload_selection_misses 1
              (Sample.user 1 "100" "active" (Some "technician"))
              (Sample.press "upload_task_1" 100)
              (create_task Sample.repair_task 1 Sample.world).2)
    as (_ & H & _).
  - reflexivity.
  - repeat constructor. exists "REP", Sample.noon, 1.
    split; [unfold known_prefixes; set_solver | reflexivity].
  - exact H.
Defined.

(** * Outbox reasoning *)

Section Outbox.

Context {A B : Type}.
Variable P : Outbound -> Prop.

Lemma emits_ret (a : A) : emits P (ret a).
Proof. intros w. exists []. split; [now rewrite app_nil_r | constructor]. Qed.

Lemma emits_raise (e : exc) : emits P (raise e : Act A).
Proof. intros w. exists []. split; [now rewrite app_nil_r | constructor]. Qed.

Lemma emits_emit (o : Outbound) : P o -> emits P (emit o).
Proof. intros Ho w. exists [o]. split; [reflexivity | now repeat constructor]. Qed.

Lemma emits_store_session (k : Z) (s : gmap string Py.value) :
  emits P (store_session k s).
Proof. intros w. exists []. split; [now rewrite app_nil_r | constructor]. Qed.

Lemma emits_call (failure : A)
    (body : Database -> Clock -> list Stmt * Result (A * Database)) :
  emits P (call (with_connection failure body)).
Proof.
  intros w. exists []. cbn.
  destruct (with_connection_frame failure body w) as (_ & _ & ->).
  split; [now rewrite app_nil_r | constructor].
Qed.

Lemma emits_bind (m : Act A) (k : A -> Act B) :
  emits P m -> (forall a, emits P (k a)) -> emits P (bind m k).
Proof.
  intros Hm Hk w. unfold bind. destruct (Hm w) as (out1 & E1 & F1).
  destruct (m w).1 as [a|e]; cbn.
  - destruct (Hk a (m w).2) as (out2 & E2 & F2).
    exists (out1 ++ out2). rewrite E2, E1, app_assoc. split; [reflexivity |].
    now apply Forall_app.
  - exists out1. now split.
Qed.

End Outbox.

Lemma emits_try_except (P : Outbound -> Prop) (body : Act unit)
    (handler : exc -> Act unit) :
  emits P body -> (forall e, emits P (handler e)) -> emits P (try_except body handler).
Proof.
  intros Hb Hh w. unfold try_except. destruct (Hb w) as (out1 & E1 & F1).
  destruct (body w).1 as [a|e]; cbn.
  - exists out1. now split.
  - destruct (Hh e (body w).2) as (out2 & E2 & F2).
    exists (out1 ++ out2). rewrite E2, E1, app_assoc. split; [reflexivity |].
    now apply Forall_app.
Qed.

Lemma emits_weaken {A : Type} (P Q : Outbound -> Prop) (m : Act A) :
  (forall o, P o -> Q o) -> emits P m -> emits Q m.
Proof.
  intros HPQ Hm w. destruct (Hm w) as (out & E & F). exists out.
  split; [exact E | eapply Forall_impl; eauto].
Qed.

Lemma existsb_app_l {X : Type} (f : X -> bool) (l1 l2 : list X) :
  existsb f l1 = true -> existsb f (l1 ++ l2) = true.
Proof. intros H. rewrite existsb_app, H. reflexivity. Qed.

Lemma existsb_app_r {X : Type} (f : X -> bool) (l1 l2 : list X) :
  existsb f l2 = true -> existsb f (l1 ++ l2) = true.
Proof. intros H. rewrite existsb_app, H. apply orb_true_r. Qed.

Lemma responds_emit (o : Outbound) : is_response o = true -> responds (emit o).
Proof.
  intros Ho w. exists [o]. split; [reflexivity |]. intros _. cbn. now rewrite Ho.
Qed.

Lemma responds_raise {A : Type} (e : exc) : responds (raise e : Act A).
Proof. intros w. exists []. split; [now rewrite app_nil_r | intros []]. Qed.

Lemma responds_bind_r {A B : Type} (m : Act A) (k : A -> Act B) :
  emits (fun _ => True) m -> (forall a, responds (k a)) -> responds (bind m k).
Proof.
  intros Hm Hk w. unfold bind. destruct (Hm w) as (out1 & E1 & _).
  destruct (m w).1 as [a|e]; cbn.
  - destruct (Hk a (m w).2) as (out2 & E2 & R2).
    exists (out1 ++ out2). rewrite E2, E1, app_assoc. split; [reflexivity |].
    intros Hr. apply existsb_app_r. auto.
  - exists out1. split; [exact E1 | intros []].
Qed.

Lemma responds_bind_l {A B : Type} (m : Act A) (k : A -> Act B) :
  responds m -> (forall a, emits (fun _ => True) (k a)) -> responds (bind m k).
Proof.
  intros Hm Hk w. unfold bind. destruct (Hm w) as (out1 & E1 & R1).
  destruct (m w).1 as [a|e]; cbn.
  - destruct (Hk a (m w).2) as (out2 & E2 & _).
    exists (out1 ++ out2). rewrite E2, E1, app_assoc. split; [reflexivity |].
    intros _. apply existsb_app_l. now apply R1.
  - exists out1. split; [exact E1 | intros []].
Qed.

Create HintDb outbox.

#[local] Hint Resolve emits_ret emits_raise emits_store_session emits_call
  emits_bind emits_try_except responds_raise : outbox.
#[local] Hint Extern 1 (emits _ (emit _)) =>
  apply emits_emit; first [exact I | reflexivity] : outbox.
#[local] Hint Extern 1 (responds (emit _)) =>
  apply responds_emit; reflexivity : outbox.
#[local] Hint Extern 2 (emits _ (match ?x with _ => _ end)) => destruct x : outbox.
#[local] Hint Extern 2 (responds (match ?x with _ => _ end)) => destruct x : outbox.
#[local] Hint Extern 3 (responds (bind _ _)) =>
  apply responds_bind_r; [| intros ?] : outbox.
#[local] Hint Unfold get_user_by_telegram_id update_last_login register_user
  create_task get_all_tasks get_task_by_code get_user_activities get_user_stats
  get_global_stats data_of item1 placeholder : outbox.

Ltac outbox := unfold get_user_by_telegram_id, update_last_login, register_user,
  create_task, get_all_tasks, get_task_by_code, get_user_activities,
  get_user_stats, get_global_stats, data_of, item1, placeholder;
  eauto 20 with outbox.

Section Handlers.

Variable P : Outbound -> Prop.
Hypothesis plain : forall o, shown_activities o = [] -> P o.

Lemma emits_plain (o : Outbound) : shown_activities o = [] -> emits P (emit o).
Proof. intros H. apply emits_emit. now apply plain. Qed.

Hint Extern 0 (emits P (emit _)) => apply emits_plain; reflexivity : outbox.

Lemma emits_check_user_access (telegram_id : string) :
  emits P (_check_user_access telegram_id).
Proof. unfold _check_user_access. outbox. Qed.

Lemma emits_require_auth (m : Message) : emits P (_require_auth m).
Proof.
  unfold _require_auth. pose proof emits_check_user_access. outbox.
Qed.

Lemma emits_cmd_register (m : Message) : emits P (cmd_register m).
Proof. unfold cmd_register. outbox. Qed.

Lemma emits_task_filter callback user : emits P (_handle_task_filter callback user).
Proof. unfold _handle_task_filter. outbox. Qed.

Lemma emits_category_selection callback user :
  emits P (_handle_category_selection callback user).
Proof. unfold _handle_category_selection. outbox. Qed.

Lemma emits_activity_selection callback user :
  emits P (_handle_activity_selection callback user).
Proof. unfold _handle_activity_selection. outbox. Qed.

Lemma emits_upload_task_selection callback user :
  emits P (_handle_upload_task_selection callback user).
Proof. unfold _handle_upload_task_selection. outbox. Qed.

Lemma emits_stats_action callback user : emits P (_handle_stats_action callback user).
Proof. unfold _handle_stats_action. outbox. Qed.

End Handlers.

Section Dispatch.

Variable P : Outbound -> Prop.
Hypothesis plain : forall o, shown_activities o = [] -> P o.

Hint Extern 0 (emits P (emit _)) => apply emits_plain; [exact plain | reflexivity] : outbox.
Hint Resolve emits_check_user_access emits_require_auth emits_cmd_register
  emits_task_filter emits_category_selection emits_activity_selection
  emits_upload_task_selection emits_stats_action : outbox.

Lemma emits_dispatch callback user : emits P (dispatch callback user).
Proof.
  unfold dispatch, _handle_city_selection, _handle_company_selection,
    _handle_priority_selection, _handle_upload_search, _handle_schedule_action,
    _handle_settings_action, _handle_help_action, unknown_action.
  apply emits_bind; [outbox |]. intros d.
  repeat match goal with
         | |- emits _ (if ?b then _ else _) => destruct b
         end; outbox.
Qed.

Lemma emits_handle_callback callback : emits P (handle_callback callback).
Proof.
  unfold handle_callback, _show_learn_more, access_denied_alert, error_alert.
  pose proof emits_dispatch.
  apply emits_try_except; [| intros e; outbox].
  repeat match goal with
         | |- emits _ (if ?b then _ else _) => destruct b
         end; outbox.
Qed.

End Dispatch.

Lemma emits_any {A : Type} (P : Outbound -> Prop) (m : Act A) :
  emits P m -> emits (fun _ => True) m.
Proof. apply emits_weaken. trivial. Qed.

Lemma responds_then_answer (h : Act unit) :
  emits (fun _ => True) h ->
  responds (h ;;; emit (CallbackAnswer None false)).
Proof.
  intros Hh. apply responds_bind_r; [exact Hh |]. intros _.
  now apply responds_emit.
Qed.

Lemma responds_dispatch callback user : responds (dispatch callback user).
Proof.
  unfold dispatch, _handle_city_selection, _handle_company_selection,
    _handle_priority_selection, _handle_upload_search, _handle_schedule_action,
    _handle_settings_action, _handle_help_action, unknown_action.
  apply responds_bind_r; [outbox |]. intros d.
  repeat match goal with
         | |- responds (if ?b then _ else _) => destruct b
         end;
    first [ now apply responds_emit
          | apply responds_then_answer ].
  - apply (emits_task_filter (fun _ => True)); trivial.
  - apply (emits_category_selection (fun _ => True)); trivial.
  - outbox.
  - outbox.
  - outbox.
  - apply (emits_activity_selection (fun _ => True)); trivial.
  - apply (emits_upload_task_selection (fun _ => True)); trivial.
  - outbox.
  - apply (emits_stats_action (fun _ => True)); trivial.
  - outbox.
  - outbox.
  - outbox.
  - outbox.
Qed.

Lemma responds_cmd_register (m : Message) : responds (cmd_register m).
Proof.
  unfold cmd_register. apply responds_bind_r; [outbox |]. intros [u|].
  - repeat match goal with
           | |- responds (if ?b then _ else _) => destruct b
           end; now apply responds_emit.
  - apply responds_bind_r; [outbox |]. intros [|]; now apply responds_emit.
Qed.

Lemma responds_callback_body callback :
  responds
    (if data_is callback "start_registration" then
       emit MessageDelete ;;; cmd_register (message callback)
     else if data_is callback "learn_more" then _show_learn_more callback
     else
       user <- _check_user_access (Py.str (tg_id (cb_from_user callback))) ;;
       match user with
       | None => emit access_denied_alert
       | Some u => dispatch callback u
       end).
Proof.
  destruct (data_is callback "start_registration").
  - apply responds_bind_r; [outbox |]. intros _. apply responds_cmd_register.
  - destruct (data_is callback "learn_more").
    + now apply responds_emit.
    + apply responds_bind_r.
      * apply (emits_check_user_access (fun _ => True)); trivial.
      * intros [u|]; [apply responds_dispatch | now apply responds_emit].
Qed.

Lemma try_except_answers (body : Act unit) (o : Outbound) (w : World) :
  responds body -> is_response o = true ->
  (try_except body (fun _ => emit o) w).1 = Done tt
  /\ exists out,
       outbox (try_except body (fun _ => emit o) w).2 = outbox w ++ out
       /\ existsb is_response out = true.
Proof.
  intros Hb Ho. unfold try_except. destruct (Hb w) as (out & E & R).
  destruct (body w).1 as [[]|e] eqn:Eb; cbn.
  - split; [reflexivity |]. exists out. split; [exact E | now apply R].
  - split; [reflexivity |]. exists (out ++ [o]).
    rewrite E, app_assoc. split; [reflexivity |].
    apply existsb_app_r. cbn. now rewrite Ho.
Qed.

(** Whatever the event and the world, the callback handler returns
    normally and has sent a response. *)
Lemma handle_callback_answers (callback : CallbackQuery) (w : World) :
  (handle_callback callback w).1 = Done tt
  /\ exists out,
       outbox (handle_callback callback w).2 = outbox w ++ out
       /\ existsb is_response out = true.
Proof.
  unfold handle_callback. apply try_except_answers;
    [apply responds_callback_body | reflexivity].
Qed.

Lemma emits_nothing {A : Type} (m : Act A) (w : World) :
  emits (fun _ => False) m -> outbox (m w).2 = outbox w.
Proof.
  intros Hm. destruct (Hm w) as ([|o out] & E & F).
  - now rewrite app_nil_r in E.
  - inversion F; contradiction.
Qed.

Lemma check_user_access_outbox (telegram_id : string) (w : World) :
  outbox (_check_user_access telegram_id w).2 = outbox w.
Proof. apply emits_nothing. unfold _check_user_access. outbox. Qed.

Lemma in_catalog_false (d : string) :
  in_catalog d = false ->
  Forall (fun lit => String.eqb d lit = false) catalog_literals
  /\ Forall (fun p => Py.startswith d p = false) catalog_prefixes.
Proof.
  unfold in_catalog. intros [H1 H2]%orb_false_elim. split.
  - apply Forall_forall. intros lit Hlit%list_elem_of_In.
    destruct (String.eqb d lit) eqn:E; [| reflexivity].
    assert (existsb (String.eqb d) catalog_literals = true)
      by (apply existsb_exists; eauto). congruence.
  - apply Forall_forall. intros p Hp%list_elem_of_In.
    destruct (Py.startswith d p) eqn:E; [| reflexivity].
    assert (existsb (Py.startswith d) catalog_prefixes = true)
      by (apply existsb_exists; eauto). congruence.
Qed.

Lemma past_registration (callback : CallbackQuery) (d : string) :
  data callback = Some d -> in_catalog d = false ->
  registration_callback callback = false.
Proof.
  intros Hdata [Hl _]%in_catalog_false.
  unfold catalog_literals in Hl.
  apply Forall_cons in Hl as [H1 Hl]. apply Forall_cons in Hl as [H2 _].
  unfold registration_callback, data_is. now rewrite Hdata, H1, H2.
Qed.

Lemma handle_callback_authenticated (callback : CallbackQuery) :
  registration_callback callback = false ->
  handle_callback callback
  = try_except
      (user <- _check_user_access (Py.str (tg_id (cb_from_user callback))) ;;
       match user with
       | None => emit access_denied_alert
       | Some u => dispatch callback u
       end)
      (fun _ => emit error_alert).
Proof.
  unfold registration_callback. intros [H1 H2]%orb_false_elim.
  unfold handle_callback. now rewrite H1, H2.
Qed.

Lemma dispatch_unknown (callback : CallbackQuery) (user : User.t) (d : string)
    (w : World) :
  data callback = Some d -> in_catalog d = false ->
  dispatch callback user w
  = (Done tt, send (CallbackAnswer None false) (send unknown_action w)).
Proof.
  intros Hdata [Hl Hp]%in_catalog_false.
  unfold catalog_literals in Hl. unfold catalog_prefixes in Hp.
  repeat match goal with
         | H : Forall _ (_ :: _) |- _ => apply Forall_cons in H as [? H]
         end.
  unfold dispatch, bind, data_of. rewrite Hdata. cbn [ret fst snd].
  repeat match goal with
         | H : Py.startswith d _ = false |- _ => rewrite H; clear H
         | H : String.eqb d _ = false |- _ => rewrite H; clear H
         end.
  reflexivity.
Qed.

(** C7, as the code has it.  The callback handler never raises and always
    sends a response.  A token outside the catalog is answered "Unknown
    action" when the caller passes the access check, and "Access denied"
    when the caller's account is not active. *)
Theorem C7_callback_fail_safe (callback : CallbackQuery) (w : World) :
  (handle_callback callback w).1 = Done tt
  /\ (exists out,
        outbox (handle_callback callback w).2 = outbox w ++ out
        /\ existsb is_response out = true)
  /\ (forall d u w1,
        data callback = Some d -> in_catalog d = false ->
        _check_user_access (Py.str (tg_id (cb_from_user callback))) w
          = (Done (Some u), w1) ->
        outbox (handle_callback callback w).2
          = outbox w ++ [unknown_action; CallbackAnswer None false])
  /\ (forall d,
        data callback = Some d -> in_catalog d = false ->
        account_status (db w) (Py.str (tg_id (cb_from_user callback)))
          <> Some UserStatus.ACTIVE ->
        outbox (handle_callback callback w).2 = outbox w ++ [access_denied_alert]).
Proof.
  destruct (handle_callback_answers callback w) as (Hdone & Hout).
  split; [exact Hdone |]. split; [exact Hout |]. split.
  - intros d u w1 Hdata Hcat Hcheck.
    pose proof (check_user_access_outbox (Py.str (tg_id (cb_from_user callback))) w)
      as Hsame.
    rewrite Hcheck in Hsame. cbn [snd] in Hsame.
    rewrite (handle_callback_authenticated callback (past_registration _ _ Hdata Hcat)).
    unfold try_except, bind. rewrite Hcheck. cbn [fst snd].
    rewrite (dispatch_unknown callback u d w1 Hdata Hcat).
    cbn. now rewrite Hsame, <- app_assoc.
  - intros d Hdata Hcat Hst.
    assert (Hauth : authenticated (Callback callback) = true).
    { cbn. now rewrite (past_registration _ _ Hdata Hcat). }
    pose proof (run_denied (Callback callback) w Hauth Hst) as Hrun.
    cbn [run caller denial] in Hrun. rewrite Hrun. cbn.
    now destruct (get_user_by_telegram_id_frame
                    (Py.str (tg_id (cb_from_user callback))) w) as (_ & _ & -> & _).
Qed.

Lemma C7_witness :
  outbox (handle_callback (Sample.press "foo" 100) Sample.world).2
  = [unknown_action; CallbackAnswer None false].
Proof.
  destruct (C7_callback_fail_safe (Sample.press "foo" 100) Sample.world)
    as (_ & _ & H & _).
  exact (H "foo" (Sample.user 1 "100" "active" (Some "technician"))
           (_check_user_access "100" Sample.world).2
           eq_refl eq_refl eq_refl).
Defined.

(** C7, as stated, fails: a pending account that presses a button whose
    token is in no catalog entry is told "Access denied", not "Unknown
    action". *)
Lemma C7_counterexample :
  in_catalog "foo" = false
  /\ outbox (handle_callback (Sample.press "foo" 200) Sample.world).2
     = [access_denied_alert]
  /\ ~ In unknown_action
         (outbox (handle_callback (Sample.press "foo" 200) Sample.world).2).
Proof.
  split; [reflexivity |]. split; [reflexivity |].
  intros [H|[]]. discriminate H.
Qed.

(** * Sessions *)

Lemma split_second (d sep : string) :
  sep <> EmptyString -> Py.startswith d sep = true ->
  exists p, Py.split d sep !! 1 = Some p.
Proof.
  intros Hsep Hpre. destruct (startswith_split d sep Hsep Hpre) as (p & rest & ->).
  now exists p.
Qed.

(** C5, as the code has it.  An activity-type selection always replaces
    the caller's session by the first step of the activity flow.  A
    category selection does so for a manager or a technician and leaves
    the sessions alone for any other role.  An upload selection stores the
    upload session only when the lookup of TASK-N finds a task and leaves
    the sessions alone otherwise.  None of the three touches a table. *)
Theorem C5_flow_start_replaces_session (callback : CallbackQuery) (user : User.t)
    (w : World) (d : string) :
  data callback = Some d ->
  (Py.startswith d "act_" = true ->
     exists activity_type,
       Py.split d "act_" !! 1 = Some activity_type
       /\ (_handle_activity_selection callback user w).1 = Done tt
       /\ active_sessions (_handle_activity_selection callback user w).2
          = <[User.id user := log_activity_session activity_type]> (active_sessions w)
       /\ db (_handle_activity_selection callback user w).2 = db w)
  /\ (Py.startswith d "cat_" = true ->
      _require_role user ["manager"; "technician"] = true ->
      exists category,
        Py.split d "cat_" !! 1 = Some category
        /\ (_handle_category_selection callback user w).1 = Done tt
        /\ active_sessions (_handle_category_selection callback user w).2
           = <[User.id user := create_task_session category]> (active_sessions w)
        /\ db (_handle_category_selection callback user w).2 = db w)
  /\ (_require_role user ["manager"; "technician"] = false ->
      active_sessions (_handle_category_selection callback user w).2
        = active_sessions w
      /\ db (_handle_category_selection callback user w).2 = db w
      /\ outbox (_handle_category_selection callback user w).2
         = outbox w
           ++ [CallbackAnswer (Some "? You don't have permission to create tasks.")
                 true])
  /\ (Py.startswith d "upload_task_" = true ->
      db (_handle_upload_task_selection callback user w).2 = db w
      /\ (active_sessions (_handle_upload_task_selection callback user w).2
            = active_sessions w
          \/ exists number task_id t,
               Py.split d "upload_task_" !! 1 = Some number
               /\ Py.int number = Some task_id
               /\ List.find
                    (fun t => String.eqb (Task.task_code t)
                                ("TASK-" +:+ Py.str task_id))
                    (tasks (db w)) = Some t
               /\ active_sessions (_handle_upload_task_selection callback user w).2
                  = <[User.id user := upload_file_session task_id]>
                      (active_sessions w))).
Proof.
  intros Hdata. split; [| split; [| split]].
  - intros Hpre.
    destruct (split_second d "act_" ltac:(discriminate) Hpre) as (ty & Hty).
    exists ty. split; [exact Hty |].
    unfold _handle_activity_selection, bind, data_of, item1.
    rewrite Hdata. cbn [ret fst snd]. rewrite Hty. cbn. auto.
  - intros Hpre Hrole.
    destruct (split_second d "cat_" ltac:(discriminate) Hpre) as (c & Hc).
    exists c. split; [exact Hc |].
    unfold _handle_category_selection. rewrite Hrole. cbn [negb].
    unfold bind, data_of, item1.
    rewrite Hdata. cbn [ret fst snd]. rewrite Hc. cbn. auto.
  - intros Hrole. unfold _handle_category_selection. rewrite Hrole. cbn. auto.
  - intros Hpre.
    destruct (split_second d "upload_task_" ltac:(discriminate) Hpre) as (num & Hnum).
    unfold _handle_upload_task_selection, bind, data_of, item1.
    rewrite Hdata. cbn [ret fst snd]. rewrite Hnum. cbn [ret fst snd].
    destruct (Py.int num) as [task_id|] eqn:Hint; [| cbn; auto].
    pose proof (get_task_by_code_frame ("TASK-" +:+ Py.str task_id) w)
      as (Hres & Hdb & Hses & _).
    unfold call. cbn [fst snd].
    set (r := get_task_by_code ("TASK-" +:+ Py.str task_id) w) in *.
    destruct r.1 as [t|] eqn:Et; cbn.
    + split; [exact Hdb |]. right. exists num, task_id, t.
      rewrite Hses. repeat split; trivial.
      destruct Hres as [Hres|Hres]; [discriminate Hres | symmetry; exact Hres].
    + split; [exact Hdb | left; exact Hses].
Qed.

Lemma C5_witness :
  active_sessions
    (_handle_activity_selection (Sample.press "act_repair" 100)
       (Sample.user 1 "100" "active" (Some "technician")) Sample.mid_flow).2
    !! 1%Z
  = Some (log_activity_session "repair").
Proof.
  destruct (C5_flow_start_replaces_session (Sample.press "act_repair" 100)
              (Sample.user 1 "100" "active" (Some "technician"))
              Sample.mid_flow "act_repair" eq_refl) as (H & _).
  destruct (H eq_refl) as (ty & Hty & _ & Hs & _).
  rewrite Hs. injection Hty as <-. apply lookup_insert_eq.
Defined.

(** C5, as stated, fails: account 3 (role commercial) is in the middle of
    logging an activity and selects a task category; the session is still
    the activity one afterwards. *)
Lemma C5_counterexample :
  active_sessions (handle_callback (Sample.press "cat_repair" 300) Sample.mid_flow).2
    !! 3%Z
  = Some (log_activity_session "documentation")
  /\ log_activity_session "documentation" <> create_task_session "repair".
Proof.
  split; [vm_compute; reflexivity |].
  intros H. apply (f_equal (fun s => s !! "action")) in H.
  vm_compute in H. discriminate H.
Qed.

(** * Two connections *)

Lemma create_task_as_statements (task_data : gmap string Py.value)
    (created_by : Z) (w : World) :
  head (storage w) <> Some false ->
  let s1 := advance (clock w) task_data created_by Started (db w) in
  let s2 := advance (clock w) task_data created_by s1.1 s1.2 in
  s2.1 = Finished (create_task task_data created_by w).1
  /\ s2.2 = db (create_task task_data created_by w).2.
Proof.
  intros Hok. unfold advance, create_task, with_connection.
  destruct (_generate_task_code (db w) (clock w)
              (dict_get task_data "category" Py.VNone)) as [code|e];
    destruct (storage w) as [|[|] rest]; cbn in *; try congruence; auto;
    destruct (insert_statement task_data created_by code (db w) (clock w)).2;
    cbn; auto.
Qed.

(** C3.  Two requests for a repair task, each between its count and its
    INSERT when the other counts: both are handed REP-251103-001; the
    first INSERT goes through, the second violates UNIQUE(task_code) and
    that request ends with no task.  Run one after the other, the same
    two requests get 001 and 002. *)
Theorem C3_interleaved_creations_collide :
  let req1 := (Sample.repair_task, 1%Z) in
  let req2 := (Sample.repair_task, 3%Z) in
  let counted :=
    interleave Sample.clk req1 req2 [First; Second] Sample.database in
  let final :=
    interleave Sample.clk req1 req2 [First; Second; First; Second] Sample.database in
  let serial :=
    interleave Sample.clk req1 req2 [First; First; Second; Second] Sample.database in
  phase1 counted = Counted "REP-251103-001"
  /\ phase2 counted = Counted "REP-251103-001"
  /\ phase1 final = Finished (Some "REP-251103-001")
  /\ phase2 final = Finished None
  /\ Task.task_code <$> tasks (shared final) = ["REP-251103-001"]
  /\ phase1 serial = Finished (Some "REP-251103-001")
  /\ phase2 serial = Finished (Some "REP-251103-002").
Proof. vm_compute. repeat split. Qed.

(** * Activity records *)

Lemma insert_by_elem {X : Type} (before : X -> X -> bool) (x y : X) (l : list X) :
  y ∈ insert_by before x l <-> y = x \/ y ∈ l.
Proof.
  induction l as [|z l IH]; cbn.
  - rewrite list_elem_of_singleton, elem_of_nil. tauto.
  - destruct (before x z).
    + now rewrite elem_of_cons.
    + rewrite !elem_of_cons, IH. tauto.
Qed.

Lemma order_by_elem {X : Type} (before : X -> X -> bool) (y : X) (l : list X) :
  y ∈ order_by before l <-> y ∈ l.
Proof.
  unfold order_by. induction l as [|x l IH]; cbn; [reflexivity |].
  now rewrite insert_by_elem, elem_of_cons, IH.
Qed.

Lemma limit_rows_elem {X : Type} (n : Z) (y : X) (l : list X) :
  y ∈ limit_rows n l -> y ∈ l.
Proof.
  unfold limit_rows. destruct (n <? 0)%Z; [trivial |]. apply subseteq_take.
Qed.

Lemma filter_elem {X : Type} (f : X -> bool) (y : X) (l : list X) :
  y ∈ List.filter f l <-> y ∈ l /\ f y = true.
Proof. now rewrite !list_elem_of_In, filter_In. Qed.

Lemma get_user_activities_own (user_id limit : Z) (w : World) (a : ActivityLog.t) :
  a ∈ (get_user_activities user_id limit w).1 ->
  ActivityLog.user_id a = user_id /\ a ∈ activity_logs (db w).
Proof.
  unfold get_user_activities, with_connection.
  destruct (storage w) as [|[|] rest]; cbn; try (intros H; now apply elem_of_nil in H);
    intros H%limit_rows_elem%order_by_elem%filter_elem;
    destruct H as [Hin Hown]; (split; [| exact Hin]);
    unfold owned_by in Hown; now apply Z.eqb_eq in Hown.
Qed.

Lemma get_user_activities_frame (user_id limit : Z) (w : World) :
  outbox (get_user_activities user_id limit w).2 = outbox w.
Proof. unfold get_user_activities. apply with_connection_frame. Qed.

Lemma get_all_tasks_frame (status_filter : option string) (w : World) :
  outbox (get_all_tasks status_filter w).2 = outbox w
  /\ activity_logs (db (get_all_tasks status_filter w).2) = activity_logs (db w).
Proof.
  unfold get_all_tasks, with_connection.
  destruct (storage w) as [|[|] rest]; cbn; auto.
Qed.

Lemma update_last_login_frame (user_id : Z) (w : World) :
  activity_logs (db (update_last_login user_id w).2) = activity_logs (db w).
Proof.
  unfold update_last_login, with_connection.
  destruct (storage w) as [|[|] rest]; cbn; auto.
Qed.

Lemma check_user_access_some (telegram_id : string) (w : World) (u : User.t) :
  (_check_user_access telegram_id w).1 = Done (Some u) ->
  List.find (fun x => String.eqb (User.telegram_id x) telegram_id) (users (db w))
  = Some u
  /\ activity_logs (db (_check_user_access telegram_id w).2) = activity_logs (db w).
Proof.
  unfold _check_user_access, bind, call. cbn [fst snd].
  pose proof (get_user_by_telegram_id_frame telegram_id w) as (Hdb & _).
  destruct (get_user_by_telegram_id_result telegram_id w) as [E|E]; rewrite E.
  - discriminate.
  - destruct (List.find _ (users (db w))) as [x|]; [| discriminate].
    destruct (negb (String.eqb (User.status x) UserStatus.ACTIVE)); [discriminate |].
    cbn. intros [= ->]. split; [reflexivity |].
    now rewrite update_last_login_frame, Hdb.
Qed.

Lemma require_auth_cases (m : Message) (w : World) :
  _require_auth m w
  = match _check_user_access (Py.str (tg_id (from_user m))) w with
    | (Done (Some u), w1) => (Done (Some u), w1)
    | (Done None, w1) => (Done None, send (MessageAnswer AccessDeniedScreen) w1)
    | (Raised e, w1) => (Raised e, w1)
    end.
Proof.
  unfold _require_auth, bind.
  destruct (_check_user_access (Py.str (tg_id (from_user m))) w) as [[[u|]|e] w1];
    reflexivity.
Qed.

(** The schedule lists activities of the caller's own account only. *)
Lemma schedule_shows_own (m : Message) (w : World) :
  exists out,
    outbox (handle_schedule m w).2 = outbox w ++ out
    /\ forall o a, o ∈ out -> a ∈ shown_activities o ->
         exists u,
           List.find (fun x => String.eqb (User.telegram_id x)
                                 (Py.str (tg_id (from_user m)))) (users (db w))
           = Some u
           /\ ActivityLog.user_id a = User.id u.
Proof.
  unfold handle_schedule. unfold bind at 1. rewrite require_auth_cases.
  pose proof (check_user_access_outbox (Py.str (tg_id (from_user m))) w) as Hout.
  pose proof (check_user_access_some (Py.str (tg_id (from_user m))) w) as Hsome.
  destruct (_check_user_access (Py.str (tg_id (from_user m))) w) as [[[u|]|e] w1];
    cbn [fst snd] in *.
  - destruct (Hsome u eq_refl) as (Hfind & _).
    unfold bind, call. cbn [fst snd].
    set (w2 := (get_all_tasks None w1).2).
    assert (Hout2 : outbox w2 = outbox w)
      by (unfold w2; now rewrite (proj1 (get_all_tasks_frame None w1))).
    assert (Hout3 : outbox (get_user_activities (User.id u) 5 w2).2 = outbox w)
      by (rewrite get_user_activities_frame; exact Hout2).
    eexists. split.
    + unfold emit. cbn [fst snd]. unfold send. cbn [outbox].
      rewrite Hout3. reflexivity.
    + intros o a Ho Ha. apply list_elem_of_singleton in Ho as ->.
      cbn in Ha. unfold _format_recent_activities in Ha.
      apply subseteq_take in Ha. apply get_user_activities_own in Ha as [Ha _].
      exists u. now split.
  - exists [MessageAnswer AccessDeniedScreen]. cbn. rewrite Hout. split; [reflexivity |].
    intros o a Ho Ha. apply list_elem_of_singleton in Ho as ->.
    now apply elem_of_nil in Ha.
  - exists []. cbn. rewrite Hout, app_nil_r. split; [reflexivity |].
    intros o a Ho. now apply elem_of_nil in Ho.
Qed.

Lemma classic_schedule (op : Operation) :
  (exists m, op = Schedule m) \/ (forall m, op <> Schedule m).
Proof. destruct op; try (right; discriminate). left. eauto. Qed.

(** Apart from the schedule, no entry point sends activity rows. *)
Lemma emits_run_plain (op : Operation) :
  (forall m, op <> Schedule m) ->
  emits (fun o => shown_activities o = []) (run op).
Proof.
  pose proof (emits_require_auth (fun o => shown_activities o = []) (fun o H => H)).
  pose proof (emits_handle_callback (fun o => shown_activities o = []) (fun o H => H)).
  intros Hop. destruct op as [m|m|m|m|m|m|m|m|callback]; cbn [run];
    try (now destruct (Hop m));
    unfold handle_my_tasks, handle_new_task, handle_log_activity, handle_my_stats,
      handle_upload_file, handle_settings, handle_file_upload; outbox.
Qed.



(** * Listings: order, content and bounds *)

Lemma insert_by_perm {X : Type} (before : X -> X -> bool) (x : X) (l : list X) :
  insert_by before x l ≡ₚ x :: l.
Proof.
  induction l as [|y l IH]; cbn [insert_by]; [reflexivity|].
  destruct (before x y); [reflexivity|].
  rewrite IH. apply Permutation_swap.
Qed.

Lemma order_by_perm {X : Type} (before : X -> X -> bool) (l : list X) :
  order_by before l ≡ₚ l.
Proof.
  unfold order_by. induction l as [|y l IH]; cbn [foldr]; [reflexivity|].
  rewrite insert_by_perm, IH. reflexivity.
Qed.

Lemma insert_by_hd {X : Type} (before : X -> X -> bool) (R : X -> X -> Prop)
    (x y : X) (l : list X) :
  R y x -> HdRel R y l -> HdRel R y (insert_by before x l).
Proof.
  intros Hyx Hl. destruct l as [|z l]; cbn [insert_by]; [by constructor|].
  destruct (before x z); constructor; [done|].
  by inversion Hl.
Qed.

Lemma insert_by_sorted {X : Type} (before : X -> X -> bool) (x : X) (l : list X) :
  (forall a b, before a b = true \/ before b a = true) ->
  Sorted (fun a b => before a b = true) l ->
  Sorted (fun a b => before a b = true) (insert_by before x l).
Proof.
  intros total. induction 1 as [|y l Hl IH Hy]; cbn [insert_by].
  - repeat constructor.
  - destruct (before x y) eqn:E.
    + constructor; [by constructor|by constructor].
    + constructor; [exact IH|].
      apply insert_by_hd; [|exact Hy].
      destruct (total x y) as [H|H]; [congruence|exact H].
Qed.

Lemma order_by_sorted {X : Type} (before : X -> X -> bool) (l : list X) :
  (forall a b, before a b = true \/ before b a = true) ->
  Sorted (fun a b => before a b = true) (order_by before l).
Proof.
  intros total. unfold order_by.
  induction l as [|y l IH]; cbn [foldr]; [constructor|].
  by apply insert_by_sorted.
Qed.

Lemma lex_leb_total (a b : list nat) :
  length a = length b ->
  Time.lex_leb a b = true \/ Time.lex_leb b a = true.
Proof.
  revert b. induction a as [|x a IH]; intros [|y b] Hlen; try discriminate.
  - by left.
  - cbn [Time.lex_leb]. injection Hlen as Hlen.
    destruct (IH b Hlen) as [H|H]; rewrite H.
    + destruct (Nat.ltb_spec x y); [by left|].
      destruct (Nat.ltb_spec y x); [by right|].
      left. replace (x =? y) with true; [done|].
      symmetry. apply Nat.eqb_eq. lia.
    + destruct (Nat.ltb_spec x y); [by left|].
      destruct (Nat.ltb_spec y x); [by right|].
      right. replace (y =? x) with true; [done|].
      symmetry. apply Nat.eqb_eq. lia.
Qed.

Lemma time_leb_total (a b : DateTime) : Time.leb a b = true \/ Time.leb b a = true.
Proof. apply lex_leb_total. reflexivity. Qed.

Lemma with_connection_ok {A : Type} (failure : A)
    (body : Database -> Clock -> list Stmt * Result (A * Database)) (w : World)
    (a : A) (d : Database) :
  head (storage w) <> Some false ->
  (body (db w) (clock w)).2 = Done (a, d) ->
  (with_connection failure body w).1 = a
  /\ db (with_connection failure body w).2 = d
  /\ storage (with_connection failure body w).2 = tail (storage w)
  /\ sql_log (with_connection failure body w).2
     = sql_log w ++ (body (db w) (clock w)).1.
Proof.
  intros Hs Hb. unfold with_connection.
  destruct (storage w) as [|[] rest] eqn:E; cbn in Hs; try congruence;
    rewrite Hb; cbn; done.
Qed.

Lemma with_connection_down {A : Type} (failure : A)
    (body : Database -> Clock -> list Stmt * Result (A * Database)) (w : World) :
  head (storage w) = Some false ->
  (with_connection failure body w).1 = failure
  /\ db (with_connection failure body w).2 = db w
  /\ sql_log (with_connection failure body w).2 = sql_log w.
Proof.
  intros Hs. unfold with_connection.
  destruct (storage w) as [|[] rest] eqn:E; cbn in Hs; try congruence.
  cbn. done.
Qed.

(** Runs the manager call of the goal whose connection opens. *)
Ltac connected Hs :=
  match goal with
  | |- context [with_connection ?f ?b ?w] =>
      let H := fresh "H" in
      let H1 := fresh "H" in
      let H2 := fresh "H" in
      eassert (H : _);
      [eapply (with_connection_ok f b w _ _ Hs); reflexivity|];
      cbn beta in H; destruct H as (H1 & H2 & _);
      rewrite ?H1, ?H2; clear H1 H2
  end.

(** X1. With the storage available, [get_all_tasks] returns each stored
    task whose status is the filter exactly once (every task when the filter
    is absent or empty), newest first by creation time, and leaves the
    tables as they are. *)
Theorem X1_get_all_tasks_newest_first (status_filter : option string) (w : World) :
  head (storage w) <> Some false ->
  (get_all_tasks status_filter w).1
    ≡ₚ List.filter
         (fun t => bool_decide
                     (status_filter ∈ [None; Some EmptyString; Some (Task.status t)]))
         (tasks (db w))
  /\ Sorted (fun a b => Time.leb (Task.created_at b) (Task.created_at a) = true)
            (get_all_tasks status_filter w).1
  /\ db (get_all_tasks status_filter w).2 = db w.
Proof.
  intros Hs. unfold get_all_tasks.
  connected Hs.
  cbn [fst snd]. split; [|split; [|reflexivity]].
  - destruct status_filter as [[|c s]|]; rewrite order_by_perm.
    + rewrite (List.filter_ext _ (fun _ => true)).
      * clear. induction (tasks (db w)) as [|t l IH]; cbn; [done|by rewrite <- IH].
      * intros t. apply bool_decide_eq_true. set_solver.
    + erewrite List.filter_ext; [reflexivity|].
      intros t. cbn beta.
      destruct (String.eqb_spec (Task.status t) (String c s)) as [E|E];
        symmetry; [apply bool_decide_eq_true|apply bool_decide_eq_false].
      * rewrite E. set_solver.
      * rewrite !elem_of_cons, elem_of_nil. intros [H|[H|[H|[]]]]; congruence.
    + rewrite (List.filter_ext _ (fun _ => true)).
      * clear. induction (tasks (db w)) as [|t l IH]; cbn; [done|by rewrite <- IH].
      * intros t. apply bool_decide_eq_true. set_solver.
  - destruct status_filter as [[|c s]|];
      apply (order_by_sorted
               (fun a b => Time.leb (Task.created_at b) (Task.created_at a)));
      intros a b; apply time_leb_total.
Qed.

Lemma X1_witness :
  head (storage Sample.world) <> Some false
  /\ db (get_all_tasks (Some "to_do") Sample.world).2 = db Sample.world.
Proof.
  split; [discriminate|].
  apply (X1_get_all_tasks_newest_first (Some "to_do") Sample.world). discriminate.
Defined.

(** X2. With the storage available, the unbounded listing of
    [get_user_activities] holds each activity of the user exactly once, latest
    start first; a bound of [limit >= 0] keeps the first [limit] rows of that
    listing, and a negative bound keeps them all. *)
Theorem X2_get_user_activities_latest_first (user_id limit : Z) (w : World) :
  head (storage w) <> Some false ->
  (get_user_activities user_id (-1) w).1
    ≡ₚ List.filter (owned_by user_id) (activity_logs (db w))
  /\ Sorted (fun a b => String.leb (ActivityLog.start_time b)
                                   (ActivityLog.start_time a) = true)
            (get_user_activities user_id (-1) w).1
  /\ ((0 <= limit)%Z ->
      (get_user_activities user_id limit w).1
      = take (Z.to_nat limit) (get_user_activities user_id (-1) w).1)
  /\ ((limit < 0)%Z ->
      (get_user_activities user_id limit w).1
      = (get_user_activities user_id (-1) w).1)
  /\ db (get_user_activities user_id limit w).2 = db w.
Proof.
  intros Hs. unfold get_user_activities.
  repeat connected Hs.
  cbn [fst snd]. unfold limit_rows.
  change (-1 <? 0)%Z with true. cbn iota.
  split; [apply order_by_perm|].
  split.
  { apply (order_by_sorted
             (fun a b => String.leb (ActivityLog.start_time b)
                                    (ActivityLog.start_time a))).
    intros a b. apply String.leb_total. }
  split; [|split; [|reflexivity]]; intros Hl.
  - destruct (Z.ltb_spec limit 0); [lia|reflexivity].
  - destruct (Z.ltb_spec limit 0); [reflexivity|lia].
Qed.

Lemma X2_witness :
  head (storage Sample.world) <> Some false
  /\ (get_user_activities 1 5 Sample.world).1
     = take (Z.to_nat 5) (get_user_activities 1 (-1) Sample.world).1.
Proof.
  split; [discriminate|].
  destruct (X2_get_user_activities_latest_first 1 5 Sample.world)
    as (_ & _ & H & _); [discriminate|].
  apply H. discriminate.
Defined.

(** * Accounts and tasks: what a write changes *)

Lemma forget_touch_login (user_id : Z) (now : DateTime) (u : User.t) :
  forget_login (touch_login user_id now u) = forget_login u.
Proof. unfold touch_login. by destruct (User.id u =? user_id)%Z. Qed.

Lemma touch_login_id (user_id : Z) (now : DateTime) (u : User.t) :
  User.id (touch_login user_id now u) = User.id u
  /\ User.telegram_id (touch_login user_id now u) = User.telegram_id u
  /\ User.status (touch_login user_id now u) = User.status u
  /\ User.role (touch_login user_id now u) = User.role u.
Proof. unfold touch_login. by destruct (User.id u =? user_id)%Z. Qed.

(** X3. With the storage available, [update_last_login] answers [True]
    whether or not an account has the given id; it stamps the accounts with
    that id with the current UTC time and changes no other column, row or
    table. *)
Theorem X3_update_last_login_stamps_only (user_id : Z) (w : World) :
  head (storage w) <> Some false ->
  (update_last_login user_id w).1 = true
  /\ forget_login <$> users (db (update_last_login user_id w).2)
     = forget_login <$> users (db w)
  /\ Forall2 (fun u u' =>
                User.last_login u'
                = if (User.id u =? user_id)%Z then Some (utc_now (clock w))
                  else User.last_login u)
             (users (db w)) (users (db (update_last_login user_id w).2))
  /\ tasks (db (update_last_login user_id w).2) = tasks (db w)
  /\ activity_logs (db (update_last_login user_id w).2) = activity_logs (db w)
  /\ files (db (update_last_login user_id w).2) = files (db w).
Proof.
  intros Hs. unfold update_last_login. connected Hs. cbn [users tasks activity_logs files].
  split; [reflexivity|]. split; [|split; [|done]].
  - rewrite <- list_fmap_compose. apply list_fmap_ext.
    intros _ u _. apply forget_touch_login.
  - apply Forall2_fmap_r, Forall_Forall2_diag, Forall_forall.
    intros u _. unfold compose, touch_login.
    by destruct (User.id u =? user_id)%Z.
Qed.

Lemma X3_witness :
  head (storage Sample.world) <> Some false
  /\ (update_last_login 77 Sample.world).1 = true.
Proof.
  split; [discriminate|].
  apply (X3_update_last_login_stamps_only 77 Sample.world). discriminate.
Defined.

Lemma insert_task_done (d : Database) (c : Clock) (task_code : string)
    (p : TaskParams) (created_by : Z) (d' : Database) :
  insert_task d c task_code p created_by = Done d' ->
  exists row,
    tasks d' = tasks d ++ [row]
    /\ users d' = users d
    /\ users_seq d' = users_seq d
    /\ tasks_seq d' = Task.id row
    /\ Task.id row = next_id (tasks_seq d) (Task.id <$> tasks d)
    /\ Task.task_code row = task_code
    /\ Sql.text (p_task_type p) = Some (Task.task_type row)
    /\ Sql.text (p_category p) = Some (Task.category row)
    /\ Sql.text (p_description p) = Some (Task.description row)
    /\ Task.company_type row = Sql.text (p_company_type p)
    /\ Task.priority row = Sql.text (p_priority p)
    /\ Task.created_by row = Some created_by
    /\ Task.completion_date row = None
    /\ Task.task_type row ∈ ["technical_task"; "support_ticket"]
    /\ Sql.check_in ["SARL"; "ZF"] (Task.company_type row) = true
    /\ Sql.check_in ["normal"; "high"; "critical"] (Task.priority row) = true
    /\ created_by ∈ User.id <$> users d.
Proof.
  unfold insert_task.
  destruct (Sql.text (p_task_type p)) as [ty|]; [|discriminate].
  destruct (Sql.text (p_category p)) as [cat|]; [|discriminate].
  destruct (Sql.text (p_description p)) as [descr|]; [|discriminate].
  match goal with |- context [if ?b then _ else _] => destruct b eqn:E end;
    [|discriminate].
  intros [= <-].
  apply andb_true_iff in E as [E E5]. apply andb_true_iff in E as [E E4].
  apply andb_true_iff in E as [E E3]. apply andb_true_iff in E as [_ E2].
  eexists. cbn [tasks users users_seq tasks_seq].
  split; [reflexivity|].
  cbn [Task.id Task.task_code Task.task_type Task.category Task.description
       Task.company_type Task.priority Task.created_by Task.completion_date].
  repeat (split; [first [reflexivity | assumption]|]).
  split.
  { unfold Sql.check_in in E2. by apply bool_decide_eq_true in E2. }
  split; [assumption|]. split; [assumption|].
  apply existsb_exists in E5 as (u & Hu & Hid).
  apply list_elem_of_fmap. exists u. split; [symmetry; by apply Z.eqb_eq|].
  by apply list_elem_of_In.
Qed.

Lemma generate_task_code_category (d : Database) (c : Clock) (v : Py.value)
    (task_code : string) :
  _generate_task_code d c v = Done task_code -> exists category, v = Py.VStr category.
Proof. unfold _generate_task_code, lower_method. destruct v; try discriminate. eauto. Qed.

Lemma task_params_inv (task_data : gmap string Py.value) (p : TaskParams) :
  task_params task_data = Done p ->
  task_data !! "category" = Some (p_category p)
  /\ task_data !! "description" = Some (p_description p)
  /\ p_task_type p = dict_get task_data "task_type" (Py.VStr "technical_task")
  /\ p_company_type p = dict_get task_data "company_type" Py.VNone
  /\ p_priority p = dict_get task_data "priority" (Py.VStr TaskPriority.NORMAL)
  /\ exists city, dict_get task_data "customer_city" (Py.VStr "") = Py.VStr city.
Proof.
  unfold task_params, subscript.
  destruct (task_data !! "category") as [cat|]; [|discriminate].
  destruct (task_data !! "description") as [descr|]; [|discriminate].
  unfold lower_method.
  destruct (dict_get task_data "customer_city" (Py.VStr "")) as [| | |city];
    try discriminate.
  intros [= <-]. cbn. eauto 10.
Qed.

Lemma find_app_last {X : Type} (f : X -> bool) (l : list X) (x : X) :
  forallb (fun y => negb (f y)) l = true -> f x = true ->
  List.find f (l ++ [x]) = Some x.
Proof.
  intros Hl Hx. induction l as [|y l IH]; cbn in *.
  - by rewrite Hx.
  - apply andb_true_iff in Hl as [Hy Hl]. apply negb_true_iff in Hy.
    rewrite Hy. by apply IH.
Qed.

(** X4. A task that [create_task] reports as created is read back by the
    next lookup of its code and is part of the full listing: it has the
    returned code, the category as given (not lower-cased), status [to_do],
    the creator and the UTC time of the creation, and no completion date. *)
Theorem X4_created_task_is_read_back (task_data : gmap string Py.value)
    (created_by : Z) (w : World) (task_code : string) :
  (create_task task_data created_by w).1 = Some task_code ->
  head (storage (create_task task_data created_by w).2) <> Some false ->
  exists row category,
    (get_task_by_code task_code (create_task task_data created_by w).2).1 = Some row
    /\ row ∈ (get_all_tasks None (create_task task_data created_by w).2).1
    /\ Task.task_code row = task_code
    /\ task_data !! "category" = Some (Py.VStr category)
    /\ Task.category row = category
    /\ Task.status row = TaskStatus.TO_DO
    /\ Task.created_by row = Some created_by
    /\ Task.created_at row = utc_now (clock w)
    /\ Task.completion_date row = None.
Proof.
  intros Hc Hs.
  destruct (create_task_inv _ _ _ _ Hc) as (p & Hg & Hp & Hi & _).
  destruct (insert_task_inv _ _ _ _ _ _ Hi)
    as (row & Ht & Hcode & _ & Hat & Hst & _ & _ & _ & _ & Hfresh).
  destruct (insert_task_done _ _ _ _ _ _ Hi)
    as (row' & Ht' & _ & _ & _ & _ & _ & _ & Hcat & _ & _ & _ & Hby & Hdone & _).
  assert (row' = row) as -> by (rewrite Ht in Ht'; by simplify_list_eq).
  destruct (generate_task_code_category _ _ _ _ Hg) as (category & Hv).
  destruct (task_params_inv _ _ Hp) as (Hk & _).
  unfold dict_get in Hv. rewrite Hk in Hv. cbn in Hv.
  rewrite Hv in Hcat, Hk. cbn in Hcat.
  exists row, category.
  split.
  { unfold get_task_by_code. connected Hs. rewrite Ht.
    apply (find_app_last (fun t => String.eqb (Task.task_code t) task_code));
      [exact Hfresh|]. rewrite Hcode. apply String.eqb_refl. }
  split.
  { unfold get_all_tasks. connected Hs. apply order_by_elem. rewrite Ht.
    apply elem_of_app. right. by apply list_elem_of_singleton. }
  repeat split; try assumption. congruence.
Qed.

Lemma X4_witness :
  exists row category,
    (get_task_by_code "REP-251103-001"
       (create_task Sample.repair_task 1 Sample.world).2).1 = Some row
    /\ row ∈ (get_all_tasks None (create_task Sample.repair_task 1 Sample.world).2).1
    /\ Task.task_code row = "REP-251103-001"
    /\ Sample.repair_task !! "category" = Some (Py.VStr category)
    /\ Task.category row = category
    /\ Task.status row = TaskStatus.TO_DO
    /\ Task.created_by row = Some 1%Z
    /\ Task.created_at row = utc_now (clock Sample.world)
    /\ Task.completion_date row = None.
Proof.
  apply (X4_created_task_is_read_back Sample.repair_task 1 Sample.world);
    [vm_compute; reflexivity | vm_compute; discriminate].
Defined.

(** X5. [create_task] reports a task only if the request carries a text
    category and a description that is not [None], a city that is absent or
    text, a task type, company and priority the CHECK constraints allow, and
    a creator that is the id of an account; the code it returns was not
    stored before.  When it reports none, the tables are unchanged. *)
Theorem X5_create_task_requirements (task_data : gmap string Py.value)
    (created_by : Z) (w : World) :
  (forall task_code,
     (create_task task_data created_by w).1 = Some task_code ->
     (exists category, task_data !! "category" = Some (Py.VStr category))
     /\ (exists v, task_data !! "description" = Some v /\ v <> Py.VNone)
     /\ (task_data !! "customer_city" = None
         \/ exists city, task_data !! "customer_city" = Some (Py.VStr city))
     /\ Sql.text (dict_get task_data "task_type" (Py.VStr "technical_task"))
          ∈ [Some "technical_task"; Some "support_ticket"]
     /\ Sql.text (dict_get task_data "company_type" Py.VNone)
          ∈ [None; Some "SARL"; Some "ZF"]
     /\ Sql.text (dict_get task_data "priority" (Py.VStr "normal"))
          ∈ [None; Some "normal"; Some "high"; Some "critical"]
     /\ created_by ∈ User.id <$> users (db w)
     /\ task_code ∉ Task.task_code <$> tasks (db w))
  /\ ((create_task task_data created_by w).1 = None ->
      db (create_task task_data created_by w).2 = db w).
Proof.
  split; [|apply create_task_none].
  intros task_code Hc.
  destruct (create_task_inv _ _ _ _ Hc) as (p & Hg & Hp & Hi & _).
  destruct (insert_task_inv _ _ _ _ _ _ Hi)
    as (row0 & Ht0 & _ & _ & _ & _ & _ & _ & _ & _ & Hfresh).
  destruct (insert_task_done _ _ _ _ _ _ Hi)
    as (row & Ht & _ & _ & _ & _ & _ & Hty & _ & Hdescr & Hco & Hpr & _ & _
        & Hty' & Hco' & Hpr' & Hby).
  destruct (generate_task_code_category _ _ _ _ Hg) as (category & Hv).
  destruct (task_params_inv _ _ Hp) as (Hk & Hd & Pty & Pco & Ppr & city & Hcity).
  unfold dict_get in Hv. rewrite Hk in Hv. cbn in Hv.
  split; [exists category; congruence|].
  split.
  { exists (p_description p). split; [exact Hd|]. intros E. by rewrite E in Hdescr. }
  split.
  { unfold dict_get in Hcity.
    destruct (task_data !! "customer_city") as [v|]; [right|by left].
    cbn in Hcity. exists city. congruence. }
  split.
  { rewrite <- Pty, Hty. exact (list_elem_of_fmap_2 Some _ _ Hty'). }
  split.
  { rewrite <- Pco, <- Hco. unfold Sql.check_in in Hco'.
    destruct (Task.company_type row) as [s|]; [|by left].
    apply bool_decide_eq_true in Hco'. right.
    exact (list_elem_of_fmap_2 Some _ _ Hco'). }
  split.
  { change "normal" with TaskPriority.NORMAL at 1.
    rewrite <- Ppr, <- Hpr. unfold Sql.check_in in Hpr'.
    destruct (Task.priority row) as [s|]; [|by left].
    apply bool_decide_eq_true in Hpr'. right.
    exact (list_elem_of_fmap_2 Some _ _ Hpr'). }
  split; [exact Hby|].
  intros Hin. apply list_elem_of_fmap in Hin as (t & Et & Hin).
  apply list_elem_of_In in Hin.
  rewrite forallb_forall in Hfresh. specialize (Hfresh t Hin).
  apply negb_true_iff in Hfresh. rewrite <- Et, String.eqb_refl in Hfresh.
  discriminate.
Qed.

Lemma X5_witness :
  (create_task Sample.repair_task 1 Sample.world).1 = Some "REP-251103-001"
  /\ (1%Z ∈ User.id <$> users (db Sample.world))
  /\ (create_task Sample.repair_task 77 Sample.world).1 = None
  /\ db (create_task Sample.repair_task 77 Sample.world).2 = db Sample.world.
Proof.
  split; [vm_compute; reflexivity|].
  split.
  { apply (proj1 (X5_create_task_requirements Sample.repair_task 1 Sample.world)
             "REP-251103-001"). vm_compute. reflexivity. }
  split; [vm_compute; reflexivity|].
  apply (proj2 (X5_create_task_requirements Sample.repair_task 77 Sample.world)).
  vm_compute. reflexivity.
Defined.

(** * Statistics *)

Lemma with_connection_inv {A : Type} (failure : A)
    (body : Database -> Clock -> list Stmt * Result (A * Database)) (w : World) :
  ((with_connection failure body w).1 = failure
   /\ db (with_connection failure body w).2 = db w)
  \/ exists a d,
       (body (db w) (clock w)).2 = Done (a, d)
       /\ (with_connection failure body w).1 = a
       /\ db (with_connection failure body w).2 = d.
Proof.
  unfold with_connection.
  destruct (storage w) as [|[] rest]; cbn [fst snd db];
    try (left; done);
    destruct (body (db w) (clock w)).2 as [[a d]|e] eqn:E; cbn [fst snd db];
    try (left; done); right; exists a, d; done.
Qed.

Lemma sum_list_fmap_add {X : Type} (f g : X -> nat) (l : list X) :
  sum_list ((fun k => f k + g k) <$> l) = sum_list (f <$> l) + sum_list (g <$> l).
Proof. induction l as [|x l IH]; cbn; [done|]. rewrite IH. lia. Qed.

Lemma sum_list_indicator (x : string) (ks : list string) :
  NoDup ks ->
  sum_list ((fun k => if String.eqb k x then 1 else 0) <$> ks)
  = if bool_decide (x ∈ ks) then 1 else 0.
Proof.
  induction 1 as [|k ks Hk Hnd IH]; [done|].
  cbn [fmap list_fmap sum_list]. fold (@fmap list _ string nat). rewrite IH.
  destruct (String.eqb_spec k x) as [->|Hne].
  - rewrite (bool_decide_eq_false_2 _ Hk).
    rewrite bool_decide_eq_true_2; [done|by left].
  - destruct (decide (x ∈ ks)) as [Hin|Hin].
    + rewrite !bool_decide_eq_true_2; [done|by right|done].
    + rewrite !bool_decide_eq_false_2; [done| |done].
      rewrite elem_of_cons. intros [E|E]; congruence.
Qed.

Lemma count_sum (keys ks : list string) :
  NoDup ks -> (forall k, k ∈ keys -> k ∈ ks) ->
  sum_list ((fun k => length (List.filter (String.eqb k) keys)) <$> ks)
  = length keys.
Proof.
  intros Hnd. induction keys as [|x keys IH]; intros Hin.
  - clear. induction ks as [|k ks IHk]; [done|exact IHk].
  - rewrite (list_fmap_ext _
               (fun k => (if String.eqb k x then 1 else 0)
                         + length (List.filter (String.eqb k) keys))).
    + rewrite sum_list_fmap_add, IH, sum_list_indicator by
        (try done; intros k Hk; apply Hin; by right).
      rewrite bool_decide_eq_true_2; [done|]. apply Hin. by left.
    + intros _ k _. cbn [List.filter]. by destruct (String.eqb k x).
Qed.

Lemma group_count_sum (keys : list string) :
  sum_list (snd <$> group_count keys) = length keys.
Proof.
  unfold group_count. rewrite <- list_fmap_compose.
  apply (count_sum keys (remove_dups keys)); [apply NoDup_remove_dups|].
  intros k. by rewrite elem_of_remove_dups.
Qed.

Lemma group_count_keys (keys : list string) :
  fst <$> group_count keys = remove_dups keys.
Proof.
  unfold group_count. rewrite <- list_fmap_compose. apply list_fmap_id.
Qed.

Lemma group_count_elem (keys : list string) (k : string) (n : nat) :
  (k, n) ∈ group_count keys ->
  k ∈ keys /\ n = length (List.filter (String.eqb k) keys) /\ 1 <= n.
Proof.
  unfold group_count. intros H.
  apply list_elem_of_fmap in H as (k' & [= -> ->] & Hk).
  rewrite elem_of_remove_dups in Hk. split; [exact Hk|]. split; [reflexivity|].
  induction keys as [|x keys IH]; [by apply elem_of_nil in Hk|].
  cbn [List.filter]. destruct (String.eqb_spec k' x) as [E|E]; [cbn; lia|].
  apply IH. apply elem_of_cons in Hk as [Hk|Hk]; congruence.
Qed.

Lemma count_status_keys (s : string) (ts : list Task.t) :
  length (List.filter (String.eqb s) (Task.status <$> ts)) = count_status s ts.
Proof.
  unfold count_status. induction ts as [|t ts IH]; [done|].
  cbn [fmap list_fmap List.filter]. fold (@fmap list _ Task.t string).
  rewrite (String.eqb_sym s). destruct (String.eqb (Task.status t) s); cbn; lia.
Qed.

Lemma filter_length_le {X : Type} (f : X -> bool) (l : list X) :
  length (List.filter f l) <= length l.
Proof. induction l as [|x l IH]; cbn; [lia|]. destruct (f x); cbn; lia. Qed.

Lemma filter_disjoint_length {X : Type} (f g : X -> bool) (l : list X) :
  (forall x, f x = true -> g x = false) ->
  length (List.filter f l) + length (List.filter g l) <= length l.
Proof.
  intros Hfg. induction l as [|x l IH]; cbn; [lia|].
  destruct (f x) eqn:Ef; [rewrite (Hfg x Ef); cbn; lia|].
  destruct (g x); cbn; lia.
Qed.

Lemma sum_list_take (n : nat) (l : list nat) : sum_list (take n l) <= sum_list l.
Proof.
  revert n. induction l as [|x l IH]; intros [|n]; cbn; try lia.
  specialize (IH n). lia.
Qed.

Lemma Sorted_take_prefix {X : Type} (R : X -> X -> Prop) (n : nat) (l : list X) :
  Sorted R l -> Sorted R (take n l).
Proof.
  intros H. revert n. induction H as [|x l Hl IH Hx]; intros [|n]; cbn;
    try constructor.
  - apply IH.
  - destruct Hx as [|y l Hxy]; destruct n; cbn; by constructor.
Qed.

(** X6. When [get_global_stats] returns figures, they are counts over the
    stored rows: the per-status distribution lists each stored status once
    with a count of at least one, its counts add up to the total number of
    tasks, its entries for [completed] and [in_progress] are the two
    dedicated counters, and these two together never exceed the total. *)
Theorem X6_global_stats_add_up (w : World) (g : GlobalStats) :
  (get_global_stats w).1 = Some g ->
  total_tasks g = length (tasks (db w))
  /\ sum_list (snd <$> task_distribution g) = total_tasks g
  /\ NoDup (fst <$> task_distribution g)
  /\ (forall s n, (s, n) ∈ task_distribution g ->
        1 <= n /\ s ∈ Task.status <$> tasks (db w))
  /\ (forall n, (TaskStatus.COMPLETED, n) ∈ task_distribution g ->
        n = completed_tasks g)
  /\ (forall n, (TaskStatus.IN_PROGRESS, n) ∈ task_distribution g ->
        n = active_tasks g)
  /\ completed_tasks g + active_tasks g <= total_tasks g
  /\ active_users g <= length (users (db w))
  /\ total_files g = length (files (db w))
  /\ db (get_global_stats w).2 = db w.
Proof.
  unfold get_global_stats. intros Hg.
  match goal with
  | |- context [with_connection ?f ?b w] =>
      destruct (with_connection_inv f b w) as [[E _]|(a & d & Eb & E1 & E2)]
  end; [rewrite E in Hg; discriminate|].
  rewrite E1 in Hg. subst a. rewrite E2. cbn [snd] in Eb.
  injection Eb as <- <-.
  cbn [total_tasks task_distribution completed_tasks active_tasks active_users
       total_files].
  split; [done|]. split; [by rewrite group_count_sum, length_fmap|].
  split; [rewrite group_count_keys; apply NoDup_remove_dups|].
  split; [intros s n H; by destruct (group_count_elem _ _ _ H) as (? & _ & ?)|].
  split.
  { intros n H. destruct (group_count_elem _ _ _ H) as (_ & -> & _).
    apply count_status_keys. }
  split.
  { intros n H. destruct (group_count_elem _ _ _ H) as (_ & -> & _).
    apply count_status_keys. }
  split.
  { unfold count_status. apply filter_disjoint_length.
    intros t Ht. apply String.eqb_eq in Ht. by rewrite Ht. }
  split; [apply filter_length_le|done].
Qed.

Lemma X6_witness :
  exists g,
    (get_global_stats Sample.world).1 = Some g
    /\ sum_list (snd <$> task_distribution g) = total_tasks g.
Proof.
  eexists. split; [vm_compute; reflexivity|].
  eapply (X6_global_stats_add_up Sample.world). vm_compute. reflexivity.
Defined.

(** X7. When [get_user_stats] returns figures, the weekly count never
    exceeds the total, and the top list has at most five activity types of
    the user, each once with the number of the user's activities of that
    type, largest count first; the listed counts never exceed the total. *)
Theorem X7_user_stats_bounds (user_id : Z) (w : World) (s : UserStats) :
  (get_user_stats user_id w).1 = Some s ->
  total_activities s
    = length (List.filter (owned_by user_id) (activity_logs (db w)))
  /\ week_activities s <= total_activities s
  /\ length (top_activities s) <= 5
  /\ NoDup (fst <$> top_activities s)
  /\ Sorted (fun x y => y.2 <= x.2) (top_activities s)
  /\ (forall k n, (k, n) ∈ top_activities s ->
        1 <= n
        /\ n = length (List.filter
                         (fun a => owned_by user_id a
                                   && String.eqb k (ActivityLog.activity_type a))
                         (activity_logs (db w))))
  /\ sum_list (snd <$> top_activities s) <= total_activities s
  /\ db (get_user_stats user_id w).2 = db w.
Proof.
  unfold get_user_stats. intros Hg.
  match goal with
  | |- context [with_connection ?f ?b w] =>
      destruct (with_connection_inv f b w) as [[E _]|(a & d & Eb & E1 & E2)]
  end; [rewrite E in Hg; discriminate|].
  rewrite E1 in Hg. subst a. rewrite E2. cbn [snd] in Eb.
  injection Eb as <- <-.
  cbn [total_activities week_activities top_activities].
  set (own := List.filter (owned_by user_id) (activity_logs (db w))).
  set (groups := group_count (ActivityLog.activity_type <$> own)).
  split; [done|]. split; [apply filter_length_le|].
  split; [rewrite length_take; lia|].
  split.
  { rewrite fmap_take. eapply sublist_NoDup; [|apply sublist_take].
    rewrite (order_by_perm _ groups). unfold groups.
    rewrite group_count_keys. apply NoDup_remove_dups. }
  split.
  { apply Sorted_take_prefix.
    eapply Sorted_ind with (P := fun l => Sorted (fun x y => y.2 <= x.2) l);
      [constructor| |apply (order_by_sorted (fun x y => y.2 <=? x.2))].
    - intros x l _ IH Hx. constructor; [exact IH|].
      destruct Hx; constructor. by apply Nat.leb_le.
    - intros x y. destruct (Nat.leb_spec y.2 x.2); [by left|right].
      apply Nat.leb_le. lia. }
  split.
  { intros k n H. apply elem_of_take in H as (i & H & _).
    apply list_elem_of_lookup_2 in H. apply order_by_elem in H.
    destruct (group_count_elem _ _ _ H) as (_ & -> & Hn). split; [exact Hn|].
    unfold own. clear. induction (activity_logs (db w)) as [|a l IH]; [done|].
    cbn [List.filter]. destruct (owned_by user_id a); cbn [andb]; [|exact IH].
    cbn [fmap list_fmap List.filter]. fold (@fmap list _ ActivityLog.t string).
    destruct (String.eqb k (ActivityLog.activity_type a)); cbn; by rewrite IH. }
  split; [|done].
  rewrite fmap_take.
  etransitivity; [apply sum_list_take|].
  rewrite (order_by_perm _ groups). unfold groups.
  by rewrite group_count_sum, length_fmap.
Qed.

Lemma X7_witness :
  exists s,
    (get_user_stats 1 Sample.world).1 = Some s
    /\ week_activities s <= total_activities s
    /\ length (top_activities s) <= 5.
Proof.
  destruct (get_user_stats 1 Sample.world).1 as [s|] eqn:E;
    [|vm_compute in E; discriminate].
  exists s. split; [reflexivity|].
  destruct (X7_user_stats_bounds 1 Sample.world s E) as (_ & H1 & H2 & _).
  split; assumption.
Defined.

(** * The tables under the entry points *)

Section Changes.

Variable R : Database -> Database -> Prop.
Hypothesis R_refl : forall d, R d d.
Hypothesis R_trans : forall d1 d2 d3, R d1 d2 -> R d2 d3 -> R d1 d3.
Hypothesis R_login :
  forall w user_id, R (db w) (db (update_last_login user_id w).2).
Hypothesis R_register :
  forall w telegram_id full_name username,
    R (db w) (db (register_user telegram_id full_name username w).2).

Lemma changes_ret {A : Type} (a : A) : changes R (ret a).
Proof. intros w. apply R_refl. Qed.

Lemma changes_raise {A : Type} (e : exc) : changes R (raise e : Act A).
Proof. intros w. apply R_refl. Qed.

Lemma changes_emit (o : Outbound) : changes R (emit o).
Proof. intros w. apply R_refl. Qed.

Lemma changes_store_session (k : Z) (s : gmap string Py.value) :
  changes R (store_session k s).
Proof. intros w. apply R_refl. Qed.

Lemma changes_bind {A B : Type} (m : Act A) (k : A -> Act B) :
  changes R m -> (forall a, changes R (k a)) -> changes R (bind m k).
Proof.
  intros Hm Hk w. unfold bind. specialize (Hm w).
  destruct (m w).1 as [a|e]; cbn; [|exact Hm].
  eapply R_trans; [exact Hm|apply Hk].
Qed.

Lemma changes_try_except (body : Act unit) (handler : exc -> Act unit) :
  changes R body -> (forall e, changes R (handler e)) ->
  changes R (try_except body handler).
Proof.
  intros Hb Hh w. unfold try_except. specialize (Hb w).
  destruct (body w).1 as [a|e]; cbn; [exact Hb|].
  eapply R_trans; [exact Hb|apply Hh].
Qed.

Lemma changes_read {A : Type} (failure : A)
    (body : Database -> Clock -> list Stmt * A) :
  changes R (call (with_connection failure
                     (fun d c => ((body d c).1, Done ((body d c).2, d))))).
Proof.
  intros w. unfold call. cbn [snd].
  match goal with
  | |- context [with_connection ?f ?b w] =>
      destruct (with_connection_inv f b w) as [[_ ->]|(a & d & Eb & _ & ->)]
  end; [apply R_refl|].
  cbn in Eb. injection Eb as _ <-. apply R_refl.
Qed.

Lemma changes_get_user (telegram_id : string) :
  changes R (call (get_user_by_telegram_id telegram_id)).
Proof.
  apply (changes_read None
           (fun d _ =>
              ([SelectUserByTelegramId telegram_id],
               List.find (fun u => String.eqb (User.telegram_id u) telegram_id)
                         (users d)))).
Qed.

Lemma changes_get_all_tasks (status_filter : option string) :
  changes R (call (get_all_tasks status_filter)).
Proof.
  intros w. unfold call, get_all_tasks. cbn [snd].
  match goal with
  | |- context [with_connection ?f ?b w] =>
      destruct (with_connection_inv f b w) as [[_ ->]|(a & d & Eb & _ & ->)]
  end; [apply R_refl|].
  cbn in Eb. injection Eb as _ <-. apply R_refl.
Qed.

Lemma changes_get_task (task_code : string) :
  changes R (call (get_task_by_code task_code)).
Proof.
  apply (changes_read None
           (fun d _ =>
              ([SelectTaskByCode task_code],
               List.find (fun t => String.eqb (Task.task_code t) task_code)
                         (tasks d)))).
Qed.

Lemma changes_get_activities (user_id limit : Z) :
  changes R (call (get_user_activities user_id limit)).
Proof.
  intros w. unfold call, get_user_activities. cbn [snd].
  match goal with
  | |- context [with_connection ?f ?b w] =>
      destruct (with_connection_inv f b w) as [[_ ->]|(a & d & Eb & _ & ->)]
  end; [apply R_refl|].
  cbn in Eb. injection Eb as _ <-. apply R_refl.
Qed.

Lemma changes_get_user_stats (user_id : Z) :
  changes R (call (get_user_stats user_id)).
Proof.
  intros w. unfold call, get_user_stats. cbn [snd].
  match goal with
  | |- context [with_connection ?f ?b w] =>
      destruct (with_connection_inv f b w) as [[_ ->]|(a & d & Eb & _ & ->)]
  end; [apply R_refl|].
  cbn in Eb. injection Eb as _ <-. apply R_refl.
Qed.

Lemma changes_get_global_stats : changes R (call get_global_stats).
Proof.
  intros w. unfold call, get_global_stats. cbn [snd].
  match goal with
  | |- context [with_connection ?f ?b w] =>
      destruct (with_connection_inv f b w) as [[_ ->]|(a & d & Eb & _ & ->)]
  end; [apply R_refl|].
  cbn in Eb. injection Eb as _ <-. apply R_refl.
Qed.

Lemma changes_update_last_login (user_id : Z) :
  changes R (call (update_last_login user_id)).
Proof. intros w. apply R_login. Qed.

Lemma changes_register_user (telegram_id full_name : string)
    (username : option string) :
  changes R (call (register_user telegram_id full_name username)).
Proof. intros w. apply R_register. Qed.

Create HintDb tables.

Hint Resolve changes_ret changes_raise changes_emit changes_store_session
  changes_bind changes_try_except changes_get_user changes_get_all_tasks
  changes_get_task changes_get_activities changes_get_user_stats
  changes_get_global_stats changes_update_last_login changes_register_user
  : tables.
Hint Extern 2 (changes _ (match ?x with _ => _ end)) => destruct x : tables.
Hint Unfold data_of item1 placeholder : tables.

Ltac tables := unfold data_of, item1, placeholder; eauto 20 with tables.

Lemma changes_check_user_access (telegram_id : string) :
  changes R (_check_user_access telegram_id).
Proof. unfold _check_user_access. tables. Qed.

Lemma changes_require_auth (m : Message) : changes R (_require_auth m).
Proof. unfold _require_auth. pose proof changes_check_user_access. tables. Qed.

Lemma changes_cmd_register (m : Message) : changes R (cmd_register m).
Proof. unfold cmd_register. tables. Qed.

Lemma changes_dispatch (callback : CallbackQuery) (user : User.t) :
  changes R (dispatch callback user).
Proof.
  unfold dispatch, _handle_city_selection, _handle_company_selection,
    _handle_priority_selection, _handle_upload_search, _handle_schedule_action,
    _handle_settings_action, _handle_help_action, unknown_action,
    _handle_task_filter, _handle_category_selection, _handle_activity_selection,
    _handle_upload_task_selection, _handle_stats_action.
  apply changes_bind; [tables|]. intros d.
  repeat match goal with
         | |- changes _ (if ?b then _ else _) => destruct b
         end; tables.
Qed.

Lemma changes_handle_callback (callback : CallbackQuery) :
  changes R (handle_callback callback).
Proof.
  unfold handle_callback, _show_learn_more, access_denied_alert, error_alert.
  pose proof changes_dispatch. pose proof changes_cmd_register.
  pose proof changes_check_user_access.
  apply changes_try_except; [|intros e; tables].
  repeat match goal with
         | |- changes _ (if ?b then _ else _) => destruct b
         end; tables.
Qed.

Lemma changes_run (op : Operation) : changes R (run op).
Proof.
  pose proof changes_require_auth.
  destruct op; cbn [run];
    [unfold handle_my_tasks | unfold handle_new_task | unfold handle_log_activity
    | unfold handle_my_stats | unfold handle_upload_file | unfold handle_schedule
    | unfold handle_settings | unfold handle_file_upload
    | apply changes_handle_callback];
    tables.
Qed.

Lemma changes_steps (ops : list Operation) (w : World) :
  R (db w) (db (steps ops w)).
Proof.
  revert w. induction ops as [|op ops IH]; intros w; cbn [steps]; [apply R_refl|].
  eapply R_trans; [apply changes_run|apply IH].
Qed.

End Changes.

(** * Accounts over time *)

Lemma forget_login_facts (u : User.t) :
  User.telegram_id (forget_login u) = User.telegram_id u
  /\ User.status (forget_login u) = User.status u
  /\ User.role (forget_login u) = User.role u
  /\ User.id (forget_login u) = User.id u.
Proof. done. Qed.

Lemma forget_login_handles (us : list User.t) :
  User.telegram_id <$> (forget_login <$> us) = User.telegram_id <$> us.
Proof. rewrite <- list_fmap_compose. by apply list_fmap_ext. Qed.

Lemma forget_login_idemp (u : User.t) : forget_login (forget_login u) = forget_login u.
Proof. done. Qed.

Lemma evolves_refl (d : Database) : evolves d d.
Proof.
  repeat split. exists []. split; [by rewrite app_nil_r|constructor].
Qed.

Lemma evolves_trans (d1 d2 d3 : Database) :
  evolves d1 d2 -> evolves d2 d3 -> evolves d1 d3.
Proof.
  intros (T1 & A1 & F1 & a1 & U1 & P1) (T2 & A2 & F2 & a2 & U2 & P2).
  split; [congruence|]. split; [congruence|]. split; [congruence|].
  exists (a1 ++ a2). split; [by rewrite U2, U1, app_assoc|].
  apply Forall_app. split; [exact P1|].
  eapply Forall_impl; [exact P2|]. intros u (Hs & Hr & Hn).
  split; [exact Hs|]. split; [exact Hr|]. intros Hin. apply Hn.
  rewrite <- (forget_login_handles (users d2)), U1, fmap_app, forget_login_handles.
  apply elem_of_app. by left.
Qed.

Lemma evolves_login (w : World) (user_id : Z) :
  evolves (db w) (db (update_last_login user_id w).2).
Proof.
  unfold update_last_login.
  match goal with
  | |- context [with_connection ?f ?b w] =>
      destruct (with_connection_inv f b w) as [[_ ->]|(a & d & Eb & _ & ->)]
  end; [apply evolves_refl|].
  cbn in Eb. injection Eb as _ <-.
  repeat split. exists []. split; [|constructor]. cbn [users].
  rewrite app_nil_r, <- list_fmap_compose. apply list_fmap_ext.
  intros _ u _. apply forget_touch_login.
Qed.

Lemma register_user_cases (telegram_id full_name : string)
    (username : option string) (w : World) :
  db (register_user telegram_id full_name username w).2 = db w
  \/ existsb (fun u => String.eqb (User.telegram_id u) telegram_id) (users (db w))
     = false
     /\ exists row,
          db (register_user telegram_id full_name username w).2
          = {| users := users (db w) ++ [row]; tasks := tasks (db w);
               activity_logs := activity_logs (db w); files := files (db w);
               users_seq := User.id row; tasks_seq := tasks_seq (db w) |}
          /\ User.id row = next_id (users_seq (db w)) (User.id <$> users (db w))
          /\ User.telegram_id row = telegram_id
          /\ User.status row = UserStatus.PENDING
          /\ User.role row = None
          /\ User.last_login row = None
          /\ User.username row = username
          /\ User.full_name row = Some full_name.
Proof.
  unfold register_user.
  match goal with
  | |- context [with_connection ?f ?b w] =>
      destruct (with_connection_inv f b w) as [[_ ->]|(a & d & Eb & _ & ->)]
  end; [by left|].
  cbn beta in Eb.
  destruct (existsb _ (users (db w))) eqn:E; cbn in Eb; injection Eb as _ <-;
    [by left|right].
  split; [reflexivity|].
  exists {| User.id := next_id (users_seq (db w)) (User.id <$> users (db w));
            User.telegram_id := telegram_id; User.username := username;
            User.full_name := Some full_name; User.status := UserStatus.PENDING;
            User.role := None; User.created_at := utc_now (clock w);
            User.last_login := None |}.
  done.
Qed.

Lemma evolves_register (w : World) (telegram_id full_name : string)
    (username : option string) :
  evolves (db w) (db (register_user telegram_id full_name username w).2).
Proof.
  destruct (register_user_cases telegram_id full_name username w)
    as [->|(E & row & -> & _ & Ht & Hs & Hr & _)]; [apply evolves_refl|].
  repeat split. exists [forget_login row]. cbn [users].
  split; [by rewrite fmap_app|].
  constructor; [|constructor].
  split; [exact Hs|]. split; [exact Hr|].
  cbn. rewrite Ht. intros Hin.
  apply list_elem_of_fmap in Hin as (u & Eu & Hin).
  apply list_elem_of_In in Hin.
  assert (existsb (fun u => String.eqb (User.telegram_id u) telegram_id)
            (users (db w)) = true); [|congruence].
  apply existsb_exists. exists u. split; [exact Hin|].
  rewrite Eu. apply String.eqb_refl.
Qed.

Lemma find_fmap {X Y : Type} (f : Y -> bool) (g : X -> Y) (l : list X) :
  List.find f (g <$> l) = g <$> List.find (fun x => f (g x)) l.
Proof.
  induction l as [|x l IH]; [done|]. cbn [fmap list_fmap List.find].
  fold (@fmap list _ X Y). destruct (f (g x)); [done|exact IH].
Qed.

Lemma find_app {X : Type} (f : X -> bool) (l1 l2 : list X) :
  List.find f (l1 ++ l2)
  = match List.find f l1 with
    | Some x => Some x
    | None => List.find f l2
    end.
Proof.
  induction l1 as [|x l IH]; [done|]. cbn. destruct (f x); [done|exact IH].
Qed.

Lemma account_status_forget (d : Database) (telegram_id : string) :
  account_status d telegram_id
  = User.status <$>
      List.find (fun u => String.eqb (User.telegram_id u) telegram_id)
                (forget_login <$> users d).
Proof.
  unfold account_status. rewrite find_fmap.
  by destruct (List.find _ (users d)).
Qed.

Lemma evolves_status (d d' : Database) (telegram_id : string) :
  evolves d d' ->
  account_status d' telegram_id = account_status d telegram_id
  \/ account_status d telegram_id = None
     /\ account_status d' telegram_id = Some UserStatus.PENDING.
Proof.
  intros (_ & _ & _ & added & U & P).
  rewrite (account_status_forget d'), (account_status_forget d), U, find_app.
  destruct (List.find _ (forget_login <$> users d)) as [u|]; [by left|].
  destruct (List.find _ added) as [u|] eqn:E; [right|by left].
  split; [done|]. apply find_some in E as [Hin _].
  rewrite Forall_forall in P. apply list_elem_of_In in Hin.
  destruct (P u Hin) as (Hp & _). cbn. by rewrite Hp.
Qed.

(** X8. Whatever updates the entry points handle, in whatever order and
    from whatever callers, the tasks, activity logs and files stay as they
    were and every account keeps its place, id, handle, name, status and
    role; accounts can only be added, at the end, pending and without a
    role, under handles that were unknown.  The status stored for a handle
    therefore never changes once the handle is known. *)
Theorem X8_entry_points_only_add_pending_accounts (ops : list Operation)
    (w : World) :
  evolves (db w) (db (steps ops w))
  /\ forall telegram_id status,
       account_status (db w) telegram_id = Some status ->
       account_status (db (steps ops w)) telegram_id = Some status.
Proof.
  assert (evolves (db w) (db (steps ops w))) as H.
  { apply (changes_steps evolves evolves_refl evolves_trans evolves_login).
    intros. apply evolves_register. }
  split; [exact H|]. intros telegram_id status Hs.
  destruct (evolves_status _ _ telegram_id H) as [E|[E _]]; congruence.
Qed.

Lemma X8_witness :
  account_status (db Sample.world) "200" = Some UserStatus.PENDING
  /\ account_status
       (db (steps [Callback (Sample.press "start_registration" 200);
                   MyTasks {| from_user := Sample.sender 100 |}]
              Sample.world)) "200"
     = Some UserStatus.PENDING.
Proof.
  split; [reflexivity|].
  apply (X8_entry_points_only_add_pending_accounts
           [Callback (Sample.press "start_registration" 200);
            MyTasks {| from_user := Sample.sender 100 |}] Sample.world).
  reflexivity.
Defined.

(** X10. A caller whose account is not active stays locked out: after any
    sequence of updates handled by the entry points, every menu handler and
    every callback past the registration pair still answers that caller with
    the access-denied response. *)
Theorem X10_no_update_grants_access (ops : list Operation) (op : Operation)
    (w : World) :
  authenticated op = true ->
  account_status (db w) (Py.str (tg_id (caller op))) <> Some UserStatus.ACTIVE ->
  (run op (steps ops w)).1 = Done tt
  /\ outbox (run op (steps ops w)).2 = outbox (steps ops w) ++ [denial op]
  /\ db (run op (steps ops w)).2 = db (steps ops w)
  /\ active_sessions (run op (steps ops w)).2 = active_sessions (steps ops w).
Proof.
  intros Hauth Hst.
  assert (account_status (db (steps ops w)) (Py.str (tg_id (caller op)))
          <> Some UserStatus.ACTIVE) as Hst'.
  { assert (evolves (db w) (db (steps ops w))) as H.
    { apply (changes_steps evolves evolves_refl evolves_trans evolves_login).
      intros. apply evolves_register. }
    destruct (evolves_status _ _ (Py.str (tg_id (caller op))) H) as [E|[_ E]];
      rewrite E; [exact Hst|discriminate]. }
  rewrite (run_denied op _ Hauth Hst').
  destruct (get_user_by_telegram_id_frame (Py.str (tg_id (caller op)))
              (steps ops w)) as (Hd & Hs & Ho & _).
  cbn [fst snd]. unfold send. cbn [outbox db active_sessions].
  rewrite Ho. done.
Qed.

Lemma X10_witness :
  authenticated (Schedule {| from_user := Sample.sender 400 |}) = true
  /\ outbox (run (Schedule {| from_user := Sample.sender 400 |})
               (steps [Callback (Sample.press "start_registration" 400);
                       Callback (Sample.press "learn_more" 400)]
                  Sample.world)).2
     = outbox (steps [Callback (Sample.press "start_registration" 400);
                      Callback (Sample.press "learn_more" 400)]
                 Sample.world)
       ++ [denial (Schedule {| from_user := Sample.sender 400 |})].
Proof.
  split; [reflexivity|].
  apply (X10_no_update_grants_access
           [Callback (Sample.press "start_registration" 400);
            Callback (Sample.press "learn_more" 400)]
           (Schedule {| from_user := Sample.sender 400 |}) Sample.world);
    [reflexivity|vm_compute; discriminate].
Defined.

(** * Unique keys *)

Lemma next_id_fresh (seq : Z) (ids : list Z) : next_id seq ids ∉ ids.
Proof.
  assert (forall x, x ∈ ids -> (x <= foldr Z.max 0 ids)%Z) as Hmax.
  { induction ids as [|y ids IH]; intros x Hx; [by apply elem_of_nil in Hx|].
    cbn [foldr]. apply elem_of_cons in Hx as [->|Hx]; [lia|].
    specialize (IH x Hx). lia. }
  intros Hin. specialize (Hmax _ Hin). unfold next_id in Hmax. lia.
Qed.

Lemma NoDup_snoc {X : Type} (l : list X) (x : X) :
  NoDup l -> x ∉ l -> NoDup (l ++ [x]).
Proof.
  intros Hl Hx. apply NoDup_app. split; [exact Hl|].
  split; [|apply NoDup_singleton].
  intros y Hy Hy'. apply list_elem_of_singleton in Hy'. congruence.
Qed.

Lemma consistent_login (w : World) (user_id : Z) :
  consistent (db w) -> consistent (db (update_last_login user_id w).2).
Proof.
  unfold update_last_login.
  match goal with
  | |- context [with_connection ?f ?b w] =>
      destruct (with_connection_inv f b w) as [[_ ->]|(a & d & Eb & _ & ->)]
  end; [done|].
  cbn in Eb. injection Eb as _ <-.
  assert (forall g : User.t -> Z,
            (forall u, g (touch_login user_id (utc_now (clock w)) u) = g u) ->
            g <$> (touch_login user_id (utc_now (clock w)) <$> users (db w))
            = g <$> users (db w)) as Hg.
  { intros g Hg. rewrite <- list_fmap_compose. apply list_fmap_ext.
    intros _ u _. apply Hg. }
  assert (User.telegram_id
            <$> (touch_login user_id (utc_now (clock w)) <$> users (db w))
          = User.telegram_id <$> users (db w)) as Ht.
  { rewrite <- list_fmap_compose. apply list_fmap_ext.
    intros _ u _. apply touch_login_id. }
  intros (H1 & H2 & H3 & H4 & H5). unfold consistent. cbn [users tasks].
  rewrite Ht, (Hg User.id) by (intros u; apply touch_login_id). done.
Qed.

Lemma consistent_register (w : World) (telegram_id full_name : string)
    (username : option string) :
  consistent (db w) ->
  consistent (db (register_user telegram_id full_name username w).2).
Proof.
  destruct (register_user_cases telegram_id full_name username w)
    as [->|(E & row & -> & Hid & Ht & _)]; [done|].
  intros (H1 & H2 & H3 & H4 & H5). unfold consistent. cbn [users tasks].
  rewrite !fmap_app. cbn [fmap list_fmap].
  split.
  { apply NoDup_snoc; [exact H1|]. rewrite Ht. intros Hin.
    apply list_elem_of_fmap in Hin as (u & Eu & Hin).
    apply list_elem_of_In in Hin.
    assert (existsb (fun u => String.eqb (User.telegram_id u) telegram_id)
              (users (db w)) = true); [|congruence].
    apply existsb_exists. exists u. split; [exact Hin|].
    rewrite Eu. apply String.eqb_refl. }
  split; [apply NoDup_snoc; [exact H2|]; rewrite Hid; apply next_id_fresh|].
  split; [exact H3|]. split; [exact H4|].
  eapply Forall_impl; [exact H5|]. intros t Hc. cbn beta in Hc.
  destruct (Task.created_by t); [|done].
  apply elem_of_app. left. exact Hc.
Qed.

Lemma consistent_create_task (w : World) (task_data : gmap string Py.value)
    (created_by : Z) :
  consistent (db w) -> consistent (db (create_task task_data created_by w).2).
Proof.
  intros H.
  destruct (create_task task_data created_by w).1 as [task_code|] eqn:Ec;
    [|by rewrite (create_task_none _ _ _ Ec)].
  destruct (create_task_inv _ _ _ _ Ec) as (p & _ & _ & Hi & _).
  destruct (insert_task_inv _ _ _ _ _ _ Hi)
    as (row0 & Ht0 & _ & _ & _ & _ & _ & _ & _ & _ & Hfresh).
  destruct (insert_task_done _ _ _ _ _ _ Hi)
    as (row & Ht & Hu & _ & _ & Hid & Hcode & _ & _ & _ & _ & _ & Hby & _ & _
        & _ & _ & Hin).
  destruct H as (H1 & H2 & H3 & H4 & H5). unfold consistent.
  rewrite Hu, Ht, !fmap_app. cbn [fmap list_fmap].
  split; [exact H1|]. split; [exact H2|].
  split.
  { apply NoDup_snoc; [exact H3|]. rewrite Hcode. intros Hc.
    apply list_elem_of_fmap in Hc as (t & Et & Hc).
    apply list_elem_of_In in Hc.
    rewrite forallb_forall in Hfresh. specialize (Hfresh t Hc).
    apply negb_true_iff in Hfresh. rewrite <- Et, String.eqb_refl in Hfresh.
    discriminate. }
  split; [apply NoDup_snoc; [exact H4|]; rewrite Hid; apply next_id_fresh|].
  apply Forall_app. split; [exact H5|].
  constructor; [|constructor]. by rewrite Hby.
Qed.

(** X9. If the handles and ids of the accounts and the codes and ids of
    the tasks are unique and every task's creator is an account, this stays
    so under [register_user], [update_last_login] and [create_task], and
    under any sequence of updates the entry points handle. *)
Theorem X9_keys_stay_unique (w : World) :
  consistent (db w) ->
  (forall telegram_id full_name username,
     consistent (db (register_user telegram_id full_name username w).2))
  /\ (forall user_id, consistent (db (update_last_login user_id w).2))
  /\ (forall task_data created_by,
        consistent (db (create_task task_data created_by w).2))
  /\ (forall ops, consistent (db (steps ops w))).
Proof.
  intros H.
  split; [intros; by apply consistent_register|].
  split; [intros; by apply consistent_login|].
  split; [intros; by apply consistent_create_task|].
  intros ops.
  apply (changes_steps (fun d d' => consistent d -> consistent d')); try done.
  - intros d1 d2 d3 H12 H23 H1. auto.
  - intros w' user_id. apply consistent_login.
  - intros w' telegram_id full_name username. apply consistent_register.
Qed.

Lemma X9_witness :
  consistent (db Sample.world)
  /\ consistent (db (create_task Sample.repair_task 1 Sample.world).2).
Proof.
  assert (consistent (db Sample.world)) as H.
  { unfold consistent.
    repeat split;
      first [apply (bool_decide_unpack _); vm_compute; exact I | constructor]. }
  split; [exact H|].
  apply (X9_keys_stay_unique Sample.world H).
Defined.

(** * Sessions under the entry points *)

Section Writes.

Variable key : option Z.

Lemma writes_ret {A : Type} (a : A) : writes key (ret a).
Proof. intros w. by left. Qed.

Lemma writes_raise {A : Type} (e : exc) : writes key (raise e : Act A).
Proof. intros w. by left. Qed.

Lemma writes_emit (o : Outbound) : writes key (emit o).
Proof. intros w. by left. Qed.

Lemma writes_call {A : Type} (failure : A)
    (body : Database -> Clock -> list Stmt * Result (A * Database)) :
  writes key (call (with_connection failure body)).
Proof.
  intros w. left. cbn.
  by destruct (with_connection_frame failure body w) as (-> & _).
Qed.

Lemma writes_bind {A B : Type} (m : Act A) (k : A -> Act B) :
  writes key m -> (forall a, writes key (k a)) -> writes key (bind m k).
Proof.
  intros Hm Hk w. unfold bind. specialize (Hm w).
  destruct (m w).1 as [a|e]; cbn; [|exact Hm].
  destruct (Hk a (m w).2) as [E2|(k2 & s2 & K2 & E2)];
    destruct Hm as [E1|(k1 & s1 & K1 & E1)]; rewrite E2, E1.
  - by left.
  - right. by exists k1, s1.
  - right. by exists k2, s2.
  - right. exists k2, s2. split; [exact K2|].
    assert (k1 = k2) as -> by congruence. apply insert_insert_eq.
Qed.

Lemma writes_try_except (body : Act unit) (handler : exc -> Act unit) :
  writes key body -> (forall e, writes key (handler e)) ->
  writes key (try_except body handler).
Proof.
  intros Hb Hh w. unfold try_except. specialize (Hb w).
  destruct (body w).1 as [a|e]; cbn; [exact Hb|].
  destruct (Hh e (body w).2) as [E2|(k2 & s2 & K2 & E2)];
    destruct Hb as [E1|(k1 & s1 & K1 & E1)]; rewrite E2, E1.
  - by left.
  - right. by exists k1, s1.
  - right. by exists k2, s2.
  - right. exists k2, s2. split; [exact K2|].
    assert (k1 = k2) as -> by congruence. apply insert_insert_eq.
Qed.

End Writes.

Lemma writes_store_session (k : Z) (s : gmap string Py.value) :
  writes (Some k) (store_session k s).
Proof. intros w. right. by exists k, s. Qed.

Create HintDb sessions.

#[local] Hint Resolve writes_ret writes_raise writes_emit writes_call writes_bind
  writes_try_except writes_store_session : sessions.
#[local] Hint Extern 2 (writes _ (match ?x with _ => _ end)) =>
  destruct x : sessions.

Ltac sessions := unfold get_user_by_telegram_id, update_last_login, register_user,
  get_all_tasks, get_task_by_code, get_user_activities, get_user_stats,
  get_global_stats, data_of, item1, placeholder;
  eauto 20 with sessions.

Lemma writes_check_user_access (key : option Z) (telegram_id : string) :
  writes key (_check_user_access telegram_id).
Proof. unfold _check_user_access. sessions. Qed.

Lemma writes_require_auth (key : option Z) (m : Message) :
  writes key (_require_auth m).
Proof.
  unfold _require_auth. pose proof (writes_check_user_access key). sessions.
Qed.

Lemma writes_cmd_register (key : option Z) (m : Message) :
  writes key (cmd_register m).
Proof. unfold cmd_register. sessions. Qed.

Lemma writes_dispatch (callback : CallbackQuery) (user : User.t) :
  writes (Some (User.id user)) (dispatch callback user).
Proof.
  unfold dispatch, _handle_city_selection, _handle_company_selection,
    _handle_priority_selection, _handle_upload_search, _handle_schedule_action,
    _handle_settings_action, _handle_help_action, unknown_action,
    _handle_task_filter, _handle_category_selection, _handle_activity_selection,
    _handle_upload_task_selection, _handle_stats_action.
  apply writes_bind; [sessions|]. intros d.
  repeat match goal with
         | |- writes _ (if ?b then _ else _) => destruct b
         end; sessions.
Qed.

Lemma writes_message_handlers (op : Operation) :
  (forall callback, op <> Callback callback) -> writes None (run op).
Proof.
  pose proof (writes_require_auth None).
  intros Hop. destruct op; cbn [run];
    [unfold handle_my_tasks | unfold handle_new_task | unfold handle_log_activity
    | unfold handle_my_stats | unfold handle_upload_file | unfold handle_schedule
    | unfold handle_settings | unfold handle_file_upload
    | by destruct (Hop callback)];
    sessions.
Qed.

Lemma writes_none {A : Type} (m : Act A) (w : World) :
  writes None m -> active_sessions (m w).2 = active_sessions w.
Proof. intros H. by destruct (H w) as [E|(k & s & K & _)]. Qed.

Lemma check_user_access_active (telegram_id : string) (w : World) (u : User.t) :
  (_check_user_access telegram_id w).1 = Done (Some u) ->
  User.status u = UserStatus.ACTIVE.
Proof.
  intros H. destruct (check_user_access_some _ _ _ H) as [Hf _].
  destruct (String.eqb_spec (User.status u) UserStatus.ACTIVE) as [E|E]; [exact E|].
  rewrite check_user_access_denied in H; [discriminate|].
  unfold account_status. rewrite Hf. cbn. congruence.
Qed.

Lemma session_write_cases (op : Operation) (w : World) :
  active_sessions (run op w).2 = active_sessions w
  \/ exists callback u s,
       op = Callback callback
       /\ List.find
            (fun x => String.eqb (User.telegram_id x)
                        (Py.str (tg_id (cb_from_user callback))))
            (users (db w)) = Some u
       /\ User.status u = UserStatus.ACTIVE
       /\ active_sessions (run op w).2 = <[User.id u := s]> (active_sessions w).
Proof.
  destruct op as [m|m|m|m|m|m|m|m|callback];
    try (left; apply writes_none, writes_message_handlers; discriminate).
  cbn [run]. unfold handle_callback, try_except.
  set (telegram_id := Py.str (tg_id (cb_from_user callback))).
  destruct (data_is callback "start_registration").
  { left. unfold error_alert.
    match goal with
    | |- context [(?b w).1] =>
        assert (writes None b) as Hb
          by (apply writes_bind; [sessions|intros; apply writes_cmd_register]);
        assert (active_sessions (b w).2 = active_sessions w) as E
          by (by apply writes_none);
        destruct (b w).1; cbn; exact E
    end. }
  destruct (data_is callback "learn_more").
  { left. by unfold _show_learn_more. }
  unfold bind.
  pose proof (writes_none _ w (writes_check_user_access None telegram_id)) as E1.
  pose proof (check_user_access_some telegram_id w) as Hsome.
  pose proof (check_user_access_active telegram_id w) as Hact.
  destruct (_check_user_access telegram_id w) as [[[u|]|e] w1]; cbn [fst snd] in *.
  - destruct (Hsome u eq_refl) as [Hf _]. specialize (Hact u eq_refl).
    destruct (writes_dispatch callback u w1) as [E2|(k & s & [= <-] & E2)].
    + left. destruct (dispatch callback u w1).1; cbn; congruence.
    + right. exists callback, u, s. rewrite <- E1.
      split; [done|]. split; [done|]. split; [done|].
      destruct (dispatch callback u w1).1; cbn; exact E2.
  - left. exact E1.
  - left. exact E1.
Qed.

(** X11. An update writes at most one session entry, and only a callback
    from a caller whose stored account is active can write one: the entry
    is keyed by the id of the account stored under the caller's own handle.
    The menu handlers, the two registration callbacks and every update from
    a caller whose account is not active leave all sessions as they are. *)
Theorem X11_session_written_under_own_account (op : Operation) (w : World) :
  (active_sessions (run op w).2 = active_sessions w
   \/ exists callback u s,
        op = Callback callback
        /\ List.find
             (fun x => String.eqb (User.telegram_id x)
                         (Py.str (tg_id (cb_from_user callback))))
             (users (db w)) = Some u
        /\ User.status u = UserStatus.ACTIVE
        /\ active_sessions (run op w).2 = <[User.id u := s]> (active_sessions w))
  /\ ((forall callback, op <> Callback callback) ->
      active_sessions (run op w).2 = active_sessions w)
  /\ (authenticated op = false ->
      active_sessions (run op w).2 = active_sessions w)
  /\ (account_status (db w) (Py.str (tg_id (caller op))) <> Some UserStatus.ACTIVE ->
      active_sessions (run op w).2 = active_sessions w).
Proof.
  split; [apply session_write_cases|].
  split; [intros Hop; by apply writes_none, writes_message_handlers|].
  split.
  - destruct op as [m|m|m|m|m|m|m|m|callback]; try discriminate.
    cbn [authenticated run]. intros Hreg. apply negb_false_iff in Hreg.
    unfold registration_callback in Hreg.
    unfold handle_callback, try_except.
    destruct (data_is callback "start_registration").
    + unfold error_alert.
      match goal with
      | |- context [(?b w).1] =>
          assert (writes None b) as Hb
            by (apply writes_bind; [sessions|intros; apply writes_cmd_register]);
          assert (active_sessions (b w).2 = active_sessions w) as E
            by (by apply writes_none);
          destruct (b w).1; cbn; exact E
      end.
    + cbn [orb] in Hreg. rewrite Hreg. by unfold _show_learn_more.
  - intros Hst.
    destruct (session_write_cases op w) as [E|(callback & u & s & -> & Hf & Ha & _)];
      [exact E|].
    destruct Hst. cbn [caller]. unfold account_status. by rewrite Hf, <- Ha.
Qed.

Lemma X11_witness :
  account_status (db Sample.mid_flow) (Py.str (tg_id (Sample.sender 200)))
  <> Some UserStatus.ACTIVE
  /\ active_sessions (run (Callback (Sample.press "act_repair" 200))
                        Sample.mid_flow).2
     = active_sessions Sample.mid_flow.
Proof.
  assert (account_status (db Sample.mid_flow) (Py.str (tg_id (Sample.sender 200)))
          <> Some UserStatus.ACTIVE) as H by (vm_compute; discriminate).
  split; [exact H|].
  apply (X11_session_written_under_own_account
           (Callback (Sample.press "act_repair" 200)) Sample.mid_flow).
  exact H.
Defined.

(** * The access check when the storage fails *)

Lemma check_user_access_none (telegram_id : string) (w : World) :
  (get_user_by_telegram_id telegram_id w).1 = None ->
  _check_user_access telegram_id w
  = (Done None, (get_user_by_telegram_id telegram_id w).2).
Proof. intros H. unfold _check_user_access, bind, call. cbn. by rewrite H. Qed.

Lemma run_lookup_none (op : Operation) (w : World) :
  authenticated op = true ->
  (get_user_by_telegram_id (Py.str (tg_id (caller op))) w).1 = None ->
  run op w =
  (Done tt,
   send (denial op) (get_user_by_telegram_id (Py.str (tg_id (caller op))) w).2).
Proof.
  intros Hauth Hn.
  destruct op as [m|m|m|m|m|m|m|m|callback]; cbn [run caller denial] in *;
    try (unfold handle_my_tasks, handle_new_task, handle_log_activity,
           handle_my_stats, handle_upload_file, handle_schedule,
           handle_settings, handle_file_upload, _require_auth, bind;
         rewrite (check_user_access_none _ w Hn); reflexivity).
  cbn [authenticated] in Hauth. unfold registration_callback in Hauth.
  apply negb_true_iff, orb_false_elim in Hauth as [H1 H2].
  unfold handle_callback, try_except. rewrite H1, H2. unfold bind.
  rewrite (check_user_access_none _ w Hn). reflexivity.
Qed.

(** X12. When the storage fails at the lookup of the caller, every menu
    handler and every callback past the registration pair answers with the
    access-denied response, whatever the caller's account: no statement
    runs, and the tables and the sessions stay as they were. *)
Theorem X12_lookup_failure_denies (op : Operation) (w : World) :
  authenticated op = true ->
  head (storage w) = Some false ->
  (run op w).1 = Done tt
  /\ outbox (run op w).2 = outbox w ++ [denial op]
  /\ db (run op w).2 = db w
  /\ active_sessions (run op w).2 = active_sessions w
  /\ sql_log (run op w).2 = sql_log w
  /\ storage (run op w).2 = tail (storage w).
Proof.
  intros Hauth Hs.
  assert (get_user_by_telegram_id (Py.str (tg_id (caller op))) w
          = (None,
             {| db := db w; active_sessions := active_sessions w; clock := clock w;
                storage := tail (storage w); sql_log := sql_log w;
                outbox := outbox w |})) as E.
  { unfold get_user_by_telegram_id, with_connection.
    destruct (storage w) as [|[] rest]; cbn in Hs; try congruence. reflexivity. }
  rewrite (run_lookup_none op w Hauth) by (by rewrite E).
  rewrite E. done.
Qed.

Lemma X12_witness :
  account_status (db Sample.world) "100" = Some UserStatus.ACTIVE
  /\ outbox (run (MyTasks {| from_user := Sample.sender 100 |})
               {| db := db Sample.world; active_sessions := ∅;
                  clock := Sample.clk; storage := [false]; sql_log := [];
                  outbox := [] |}).2
     = [MessageAnswer AccessDeniedScreen].
Proof.
  split; [reflexivity|].
  apply (X12_lookup_failure_denies (MyTasks {| from_user := Sample.sender 100 |})
           {| db := db Sample.world; active_sessions := ∅;
              clock := Sample.clk; storage := [false]; sql_log := [];
              outbox := [] |}); reflexivity.
Defined.

(** X13. With the storage available at the lookup, the access check
    admits exactly the caller whose stored account is active, and returns the
    row as it was read, before the login stamp.  The stamp is then written
    for that account only; if the storage fails at the stamp the caller is
    admitted all the same and the tables stay as they were. *)
Theorem X13_access_granted_to_active_account (telegram_id : string) (w : World)
    (u : User.t) :
  head (storage w) <> Some false ->
  List.find (fun x => String.eqb (User.telegram_id x) telegram_id) (users (db w))
  = Some u ->
  User.status u = UserStatus.ACTIVE ->
  (_check_user_access telegram_id w).1 = Done (Some u)
  /\ (head (tail (storage w)) <> Some false ->
      users (db (_check_user_access telegram_id w).2)
      = touch_login (User.id u) (utc_now (clock w)) <$> users (db w)
      /\ sql_log (_check_user_access telegram_id w).2
         = sql_log w ++ [SelectUserByTelegramId telegram_id;
                         UpdateLastLogin (User.id u)])
  /\ (head (tail (storage w)) = Some false ->
      db (_check_user_access telegram_id w).2 = db w
      /\ sql_log (_check_user_access telegram_id w).2
         = sql_log w ++ [SelectUserByTelegramId telegram_id]).
Proof.
  intros Hs Hf Ha.
  unfold _check_user_access, bind, call. cbn [fst snd].
  assert (get_user_by_telegram_id telegram_id w
          = (Some u,
             {| db := db w; active_sessions := active_sessions w; clock := clock w;
                storage := tail (storage w);
                sql_log := sql_log w ++ [SelectUserByTelegramId telegram_id];
                outbox := outbox w |})) as E.
  { unfold get_user_by_telegram_id, with_connection.
    destruct (storage w) as [|[] rest]; cbn in Hs; try congruence;
      cbn; by rewrite Hf. }
  rewrite E. cbn [fst snd]. rewrite Ha. cbn [String.eqb negb].
  change (negb (String.eqb UserStatus.ACTIVE UserStatus.ACTIVE)) with false.
  cbn iota. cbn [fst snd].
  split; [reflexivity|].
  unfold update_last_login, with_connection. cbn [storage db clock sql_log].
  split; intros Hs2.
  - destruct (tail (storage w)) as [|[] rest]; cbn in Hs2; try congruence;
      cbn; by rewrite <- app_assoc.
  - destruct (tail (storage w)) as [|[] rest]; cbn in Hs2; try congruence.
    done.
Qed.

Lemma X13_witness :
  (_check_user_access "100" Sample.world).1
  = Done (Some (Sample.user 1 "100" "active" (Some "technician"))).
Proof.
  apply (X13_access_granted_to_active_account "100" Sample.world
           (Sample.user 1 "100" "active" (Some "technician")));
    [discriminate|reflexivity|reflexivity].
Defined.

Lemma register_user_new (telegram_id full_name : string)
    (username : option string) (w : World) :
  account_status (db w) telegram_id = None ->
  head (storage w) <> Some false ->
  (register_user telegram_id full_name username w).1 = true
  /\ exists row,
       users (db (register_user telegram_id full_name username w).2)
       = users (db w) ++ [row].
Proof.
  intros Hn Hs. apply account_status_known in Hn.
  unfold register_user, with_connection.
  destruct (storage w) as [|[] rest]; cbn in Hs; try congruence;
    rewrite Hn; cbn; eauto.
Qed.

Lemma cmd_register_tables (m : Message) (w : World) :
  let telegram_id := Py.str (tg_id (from_user m)) in
  let full_name :=
    match tg_full_name (from_user m) with
    | EmptyString => "User_" +:+ telegram_id
    | name => name
    end in
  db (cmd_register m w).2 = db w
  \/ (get_user_by_telegram_id telegram_id w).1 = None
     /\ db (cmd_register m w).2
        = db (register_user telegram_id full_name (tg_username (from_user m))
                (get_user_by_telegram_id telegram_id w).2).2.
Proof.
  intros telegram_id full_name. unfold cmd_register, bind, call.
  fold telegram_id. cbn [fst snd].
  destruct (get_user_by_telegram_id_frame telegram_id w) as (Hdb & _).
  destruct (get_user_by_telegram_id telegram_id w).1 as [u|].
  - left.
    destruct (String.eqb (User.status u) UserStatus.ACTIVE);
      [|destruct (String.eqb (User.status u) UserStatus.PENDING)];
      exact Hdb.
  - right. split; [reflexivity|]. fold full_name.
    by destruct (register_user telegram_id full_name _ _).1.
Qed.

Lemma handle_callback_registration (callback : CallbackQuery) (w : World) :
  data callback = Some "start_registration" ->
  handle_callback callback w
  = try_except (emit MessageDelete ;;; cmd_register (message callback))
      (fun _ => emit error_alert) w
  /\ db (handle_callback callback w).2
     = db (cmd_register (message callback) (send MessageDelete w)).2.
Proof.
  intros Hd.
  assert (handle_callback callback w
          = try_except (emit MessageDelete ;;; cmd_register (message callback))
              (fun _ => emit error_alert) w) as E.
  { unfold handle_callback, data_is. by rewrite Hd. }
  split; [exact E|]. rewrite E. unfold try_except, bind. cbn [emit fst snd].
  by destruct (cmd_register (message callback) (send MessageDelete w)).1.
Qed.

Lemma snoc_longer {X : Type} (l : list X) (x : X) : l <> l ++ [x].
Proof.
  intros E. apply (f_equal length) in E. rewrite length_app in E. cbn in E. lia.
Qed.

(** X14. The registration button registers the author of the message that
    carries the button, not the user who pressed it: the outcome does not
    depend on the presser, and a new account gets the handle and the name of
    the message's author. *)
Theorem X14_registration_button_registers_message_author
    (callback : CallbackQuery) (w : World) :
  data callback = Some "start_registration" ->
  (forall presser,
     handle_callback {| data := data callback; cb_from_user := presser;
                        message := message callback |} w
     = handle_callback callback w)
  /\ (forall row,
        users (db (handle_callback callback w).2) = users (db w) ++ [row] ->
        User.telegram_id row = Py.str (tg_id (from_user (message callback)))
        /\ User.username row = tg_username (from_user (message callback))
        /\ User.status row = UserStatus.PENDING)
  /\ (account_status (db w) (Py.str (tg_id (from_user (message callback)))) = None ->
      head (storage w) <> Some false ->
      head (tail (storage w)) <> Some false ->
      exists row,
        users (db (handle_callback callback w).2) = users (db w) ++ [row]).
Proof.
  intros Hd.
  split.
  { intros presser.
    destruct (handle_callback_registration callback w Hd) as [-> _].
    by destruct (handle_callback_registration
                   {| data := data callback; cb_from_user := presser;
                      message := message callback |} w Hd) as [-> _]. }
  destruct (handle_callback_registration callback w Hd) as [_ ->].
  set (w0 := send MessageDelete w).
  set (telegram_id := Py.str (tg_id (from_user (message callback)))).
  assert (db w0 = db w /\ storage w0 = storage w) as [Hdb Hst] by done.
  destruct (get_user_by_telegram_id_frame telegram_id w0) as (Hdb1 & _).
  split.
  - intros row Hrow.
    destruct (cmd_register_tables (message callback) w0) as [E|[_ E]];
      rewrite E in Hrow; clear E; cbn zeta in Hrow; fold telegram_id in Hrow.
    + rewrite Hdb in Hrow. by destruct (snoc_longer _ _ Hrow).
    + match type of Hrow with
      | context [register_user ?t ?f ?u ?w1] =>
          destruct (register_user_cases t f u w1)
            as [E|(_ & row' & E & _ & Ht & Hs & _ & _ & Hu & _)];
          rewrite E in Hrow; clear E
      end.
      * rewrite Hdb1, Hdb in Hrow. by destruct (snoc_longer _ _ Hrow).
      * cbn [users] in Hrow. rewrite Hdb1, Hdb in Hrow.
        apply app_inj_tail in Hrow as [_ <-]. done.
  - intros Hunknown Hs1 Hs2.
    assert (get_user_by_telegram_id telegram_id w0
            = (None,
               {| db := db w; active_sessions := active_sessions w0;
                  clock := clock w0; storage := tail (storage w);
                  sql_log := sql_log w0 ++ [SelectUserByTelegramId telegram_id];
                  outbox := outbox w0 |})) as E.
    { unfold account_status in Hunknown.
      unfold get_user_by_telegram_id, with_connection. rewrite Hst, Hdb.
      destruct (List.find _ (users (db w))); [discriminate|].
      destruct (storage w) as [|[] rest]; cbn in Hs1; try congruence; done. }
    assert (head (storage (get_user_by_telegram_id telegram_id w0).2)
            <> Some false) as Hs3 by (by rewrite E).
    assert (account_status (db (get_user_by_telegram_id telegram_id w0).2)
              telegram_id = None) as Hn3 by (by rewrite E).
    unfold cmd_register, bind, call. fold telegram_id. cbn [fst snd].
    assert ((get_user_by_telegram_id telegram_id w0).1 = None) as E1
      by (by rewrite E).
    rewrite E1.
    match goal with
    | |- context [register_user ?t ?f ?u ?w1] =>
        destruct (register_user_new t f u w1 Hn3 Hs3) as (-> & row & Hrow)
    end.
    exists row. cbn [fst snd emit send db]. rewrite Hrow, E. done.
Qed.

Lemma X14_witness :
  data (Sample.press "start_registration" 400) = Some "start_registration"
  /\ exists row,
       users (db (handle_callback (Sample.press "start_registration" 400)
                    Sample.world).2)
       = users (db Sample.world) ++ [row]
       /\ User.telegram_id row = "999".
Proof.
  split; [reflexivity|].
  pose proof (X14_registration_button_registers_message_author
                (Sample.press "start_registration" 400) Sample.world eq_refl)
    as (_ & H & _).
  eexists. split; [vm_compute; reflexivity|].
  refine (proj1 (H _ _)). vm_compute. reflexivity.
Defined.

(** * Keyboards *)

Lemma inline_rows_concat (columns : Z) (options current_row : list Button) :
  concat (inline_rows columns options current_row) = current_row ++ options.
Proof.
  revert current_row. induction options as [|b rest IH]; intros cur.
  - cbn [inline_rows]. destruct cur; cbn; by rewrite ?app_nil_r.
  - cbn [inline_rows]. cbn zeta.
    destruct (columns <=? Z.of_nat (length (cur ++ [b])))%Z.
    + cbn [concat]. rewrite IH. by rewrite <- app_assoc.
    + rewrite IH. by rewrite <- app_assoc.
Qed.

Lemma inline_rows_nonempty (columns : Z) (options current_row : list Button) :
  Forall (fun row => row <> []) (inline_rows columns options current_row).
Proof.
  revert current_row. induction options as [|b rest IH]; intros cur.
  - cbn [inline_rows]. destruct cur; repeat constructor. discriminate.
  - cbn [inline_rows]. cbn zeta.
    destruct (columns <=? Z.of_nat (length (cur ++ [b])))%Z; [|apply IH].
    constructor; [|apply IH]. by destruct cur.
Qed.

Lemma inline_rows_width (columns : Z) (options current_row : list Button) :
  (Z.of_nat (length current_row) < columns)%Z ->
  Forall (fun row => (Z.of_nat (length row) <= columns)%Z)
         (inline_rows columns options current_row)
  /\ forall i row,
       inline_rows columns options current_row !! i = Some row ->
       S i < length (inline_rows columns options current_row) ->
       Z.of_nat (length row) = columns.
Proof.
  revert current_row. induction options as [|b rest IH]; intros cur Hcur.
  - cbn [inline_rows]. destruct cur as [|c cur].
    + split; [constructor|]. intros i row H. by rewrite lookup_nil in H.
    + split; [repeat constructor; lia|]. intros i row _ Hi. cbn in Hi. lia.
  - cbn [inline_rows]. cbn zeta.
    assert (Z.of_nat (length (cur ++ [b])) = Z.of_nat (length cur) + 1)%Z as Hlen
      by (rewrite length_app; cbn; lia).
    destruct (Z.leb_spec columns (Z.of_nat (length (cur ++ [b])))) as [Hfull|Hroom].
    + destruct (IH [] ltac:(cbn; lia)) as [Hw Hx].
      split; [constructor; [lia|exact Hw]|].
      intros [|i] row Hrow Hi; cbn in Hrow, Hi.
      * injection Hrow as <-. lia.
      * apply (Hx i row Hrow). lia.
    + apply IH. lia.
Qed.

Lemma inline_rows_single (columns : Z) (options : list Button) :
  (columns <= 1)%Z ->
  inline_rows columns options [] = (fun b => [b]) <$> options.
Proof.
  intros Hc. induction options as [|b rest IH]; [done|].
  cbn [inline_rows]. cbn zeta. cbn [app length].
  destruct (Z.leb_spec columns (Z.of_nat 1)); [|lia].
  by rewrite IH.
Qed.

(** X15. [create_inline_menu] lays the options out in order and loses
    none: the rows, read one after the other, are the options, and no row is
    empty.  With [columns >= 1] every row but the last has exactly [columns]
    buttons and the last has at most that many; with [columns <= 1], which
    includes zero and negative values, every button gets a row of its own. *)
Theorem X15_inline_menu_layout (options : list Button) (columns : Z) :
  concat (create_inline_menu options columns) = options
  /\ Forall (fun row => row <> []) (create_inline_menu options columns)
  /\ ((1 <= columns)%Z ->
      Forall (fun row => (Z.of_nat (length row) <= columns)%Z)
             (create_inline_menu options columns)
      /\ forall i row,
           create_inline_menu options columns !! i = Some row ->
           S i < length (create_inline_menu options columns) ->
           Z.of_nat (length row) = columns)
  /\ ((columns <= 1)%Z ->
      create_inline_menu options columns = (fun b => [b]) <$> options).
Proof.
  unfold create_inline_menu.
  split; [apply inline_rows_concat|].
  split; [apply inline_rows_nonempty|].
  split; [intros Hc; apply inline_rows_width; cbn; lia|].
  apply inline_rows_single.
Qed.

Lemma X15_witness :
  Forall (fun row => (Z.of_nat (length row) <= 3)%Z) create_task_categories_keyboard
  /\ create_inline_menu task_categories 0 = (fun b => [b]) <$> task_categories.
Proof.
  split.
  - apply (X15_inline_menu_layout task_categories 3). lia.
  - apply (X15_inline_menu_layout task_categories 0). lia.
Defined.

Lemma startswith_cons (c : ascii) (s : string) (a : ascii) (p : string) :
  Py.startswith (String c s) (String a p)
  = if Ascii.eqb a c then Py.startswith s p else false.
Proof.
  unfold Py.startswith. cbn [String.prefix].
  destruct (Ascii.eqb_spec a c) as [->|Hne].
  - destruct (ascii_dec c c); [done|congruence].
  - destruct (ascii_dec a c); [congruence|done].
Qed.

Lemma prefix_append_absent (a : ascii) (p s t : string) :
  Py.every (fun c => negb (Ascii.eqb c a)) p = true ->
  String.prefix p s = false ->
  String.prefix (p +:+ String a EmptyString) (s +:+ String a t) = false.
Proof.
  revert s. induction p as [|c p IH]; intros s Hp Hs.
  - by destruct s.
  - cbn [Py.every] in Hp. apply andb_true_iff in Hp as [Hc Hp].
    apply negb_true_iff, Ascii.eqb_neq in Hc.
    destruct s as [|d s]; cbn [String.append String.prefix] in *.
    + by destruct (ascii_dec c a).
    + destruct (ascii_dec c d); [by apply IH|done].
Qed.

Lemma task_page_unhandled (filter_type page : string) :
  Py.startswith filter_type "filter" = false ->
  in_catalog ("tasks_" +:+ filter_type +:+ "_page_" +:+ page) = false.
Proof.
  intros Hf. unfold in_catalog, catalog_literals, catalog_prefixes.
  cbn [existsb String.append]. rewrite !startswith_cons.
  cbn [Ascii.eqb Bool.eqb String.eqb orb andb].
  rewrite orb_false_r. unfold Py.startswith in *.
  exact (prefix_append_absent "_" "filter" filter_type ("page_" +:+ page)
           eq_refl Hf).
Qed.

(** X16. The task list [_handle_task_filter] shows carries a Back button
    and, when there is more than one page, a Next button for page 2, but the
    callback chain has no branch for either: for a filter type that does not
    start with [filter], pressing one of them is answered with "Unknown
    action".  The list is always opened on page 1, so it never carries a
    Previous button. *)
Theorem X16_task_list_back_and_next_unhandled (filter_type : string)
    (total_pages : nat) :
  Py.startswith filter_type "filter" = false ->
  (exists label,
     (label, "tasks_back") ∈ concat (task_list_keyboard filter_type total_pages))
  /\ (1 < total_pages ->
      exists label,
        (label, "tasks_" +:+ filter_type +:+ "_page_2")
          ∈ concat (task_list_keyboard filter_type total_pages))
  /\ (forall b,
        b ∈ concat (task_list_keyboard filter_type total_pages) ->
        b.2 ∈ ["tasks_filter_" +:+ filter_type; "tasks_back"; "noop";
               "tasks_" +:+ filter_type +:+ "_page_2"])
  /\ (forall callback user w,
        data callback = Some "tasks_back"
        \/ data callback = Some ("tasks_" +:+ filter_type +:+ "_page_2") ->
        dispatch callback user w
        = (Done tt, send (CallbackAnswer None false) (send unknown_action w))).
Proof.
  intros Hf.
  assert (Py.str (1 + 1) = "2") as E2 by (vm_compute; reflexivity).
  assert (concat (task_list_keyboard filter_type total_pages)
          = (if 1 <? total_pages
             then [(Py.str 1 +:+ "/" +:+ Py.str (Z.of_nat total_pages), "noop");
                   ("Next ▶️", "tasks_" +:+ filter_type +:+ "_page_2")]
             else [])
            ++ [("?? Refresh", "tasks_filter_" +:+ filter_type);
                ("?? Back", "tasks_back")]) as E.
  { unfold task_list_keyboard, create_pagination_keyboard.
    destruct (Nat.ltb_spec 1 total_pages) as [H|H]; [|reflexivity].
    change (1 <? 1)%Z with false. cbn iota.
    destruct (Z.ltb_spec 1 (Z.of_nat total_pages)); [|lia].
    rewrite E2. cbn [concat app]. rewrite ?append_assoc. reflexivity. }
  rewrite E. clear E.
  split.
  { exists "?? Back". apply elem_of_app. right. set_solver. }
  split.
  { intros H. destruct (Nat.ltb_spec 1 total_pages); [|lia].
    exists "Next ▶️". apply elem_of_app. left. set_solver. }
  split.
  { intros b Hb. apply elem_of_app in Hb as [Hb|Hb].
    - destruct (1 <? total_pages); [|by apply elem_of_nil in Hb].
      apply elem_of_cons in Hb as [->|Hb]; [set_solver|].
      apply list_elem_of_singleton in Hb as ->. set_solver.
    - apply elem_of_cons in Hb as [->|Hb]; [set_solver|].
      apply list_elem_of_singleton in Hb as ->. set_solver. }
  intros callback user w [Hd|Hd]; apply (dispatch_unknown _ _ _ _ Hd).
  - reflexivity.
  - apply (task_page_unhandled filter_type "2" Hf).
Qed.

Lemma X16_witness :
  Py.startswith "to_do" "filter" = false
  /\ exists label,
       (label, "tasks_back") ∈ concat (task_list_keyboard "to_do" 3).
Proof.
  split; [reflexivity|].
  apply (X16_task_list_back_and_next_unhandled "to_do" 3). reflexivity.
Defined.

(** X17. The category keyboard and the prefix table of the task codes
    name the same categories: a category has a button exactly when it has a
    prefix of its own, and the category a button's data carries after [cat_]
    is the one [_handle_category_selection] splits off. *)
Theorem X17_category_buttons_match_prefix_table (category : string) :
  ((exists label,
      (label, "cat_" +:+ category) ∈ concat create_task_categories_keyboard)
   <-> is_Some (category_prefixes !! category))
  /\ forall b,
       b ∈ concat create_task_categories_keyboard ->
       exists c,
         b.2 = "cat_" +:+ c
         /\ Py.split b.2 "cat_" !! 1 = Some c
         /\ code_prefix (Py.lower c) <> "TASK".
Proof.
  assert (concat create_task_categories_keyboard = task_categories) as ->
    by apply inline_rows_concat.
  split; [split|].
  - intros (label & H). unfold task_categories in H.
    repeat (apply elem_of_cons in H as [E|H];
            [injection E as _ ->; vm_compute; eauto|]).
    by apply elem_of_nil in H.
  - intros (v & H). unfold category_prefixes in H.
    apply elem_of_list_to_map_2 in H.
    repeat (apply elem_of_cons in H as [[= -> _]|H];
            [eexists; unfold task_categories;
             apply list_elem_of_In; cbn; tauto|]).
    by apply elem_of_nil in H.
  - intros b H. unfold task_categories in H.
    repeat (apply elem_of_cons in H as [->|H];
            [eexists; split; [reflexivity|]; split;
             [vm_compute; reflexivity|vm_compute; discriminate]|]).
    by apply elem_of_nil in H.
Qed.

Lemma X17_witness :
  (exists label,
     (label, "cat_" +:+ "repair") ∈ concat create_task_categories_keyboard)
  /\ ~ (exists label,
          (label, "cat_" +:+ "cleaning") ∈ concat create_task_categories_keyboard).
Proof.
  split.
  - apply (proj1 (X17_category_buttons_match_prefix_table "repair")).
    vm_compute. eauto.
  - intros H.
    apply (proj1 (X17_category_buttons_match_prefix_table "cleaning")) in H.
    vm_compute in H. by destruct H.
Defined.

(** * Menu handlers for an admitted caller *)

Lemma with_connection_storage {A : Type} (failure : A)
    (body : Database -> Clock -> list Stmt * Result (A * Database)) (w : World) :
  storage (with_connection failure body w).2 = tail (storage w).
Proof.
  unfold with_connection.
  destruct (storage w) as [|[] rest]; cbn [storage snd tail];
    destruct (body (db w) (clock w)).2 as [[a d]|e]; reflexivity.
Qed.

Lemma check_user_access_ok (telegram_id : string) (w : World) (u : User.t) :
  head (storage w) <> Some false ->
  List.find (fun x => String.eqb (User.telegram_id x) telegram_id) (users (db w))
  = Some u ->
  User.status u = UserStatus.ACTIVE ->
  (_check_user_access telegram_id w).1 = Done (Some u)
  /\ outbox (_check_user_access telegram_id w).2 = outbox w
  /\ active_sessions (_check_user_access telegram_id w).2 = active_sessions w
  /\ tasks (db (_check_user_access telegram_id w).2) = tasks (db w)
  /\ storage (_check_user_access telegram_id w).2 = tail (tail (storage w)).
Proof.
  intros Hs Hf Ha.
  split; [|split; [apply check_user_access_outbox|split; [|split]]].
  - unfold _check_user_access, bind, call. cbn [fst snd].
    assert ((get_user_by_telegram_id telegram_id w).1 = Some u) as ->.
    { unfold get_user_by_telegram_id. connected Hs. exact Hf. }
    rewrite Ha. reflexivity.
  - apply writes_none, writes_check_user_access.
  - apply (changes_check_user_access evolves evolves_refl evolves_trans
             evolves_login).
  - unfold _check_user_access, bind, call. cbn [fst snd].
    assert ((get_user_by_telegram_id telegram_id w).1 = Some u) as ->.
    { unfold get_user_by_telegram_id. connected Hs. exact Hf. }
    rewrite Ha.
    change (negb (String.eqb UserStatus.ACTIVE UserStatus.ACTIVE)) with false.
    cbn [fst snd ret]. unfold update_last_login, get_user_by_telegram_id.
    by rewrite !with_connection_storage.
Qed.

Lemma require_auth_ok (m : Message) (w : World) (u : User.t) :
  head (storage w) <> Some false ->
  List.find (fun x => String.eqb (User.telegram_id x)
                        (Py.str (tg_id (from_user m)))) (users (db w))
  = Some u ->
  User.status u = UserStatus.ACTIVE ->
  exists w1,
    _require_auth m w = (Done (Some u), w1)
    /\ outbox w1 = outbox w
    /\ active_sessions w1 = active_sessions w
    /\ tasks (db w1) = tasks (db w)
    /\ storage w1 = tail (tail (storage w)).
Proof.
  intros Hs Hf Ha.
  destruct (check_user_access_ok _ w u Hs Hf Ha) as (H1 & H2 & H3 & H4 & H5).
  rewrite require_auth_cases.
  destruct (_check_user_access (Py.str (tg_id (from_user m))) w) as [r w1].
  cbn [fst snd] in *. subst r. by exists w1.
Qed.

Lemma get_all_tasks_same (status_filter : option string) (w w1 : World) :
  tasks (db w1) = tasks (db w) ->
  head (storage w1) <> Some false ->
  head (storage w) <> Some false ->
  (get_all_tasks status_filter w1).1 = (get_all_tasks status_filter w).1
  /\ outbox (get_all_tasks status_filter w1).2 = outbox w1.
Proof.
  intros Ht Hs1 Hs. split; [|apply get_all_tasks_frame].
  unfold get_all_tasks. connected Hs1. connected Hs. by rewrite Ht.
Qed.

Lemma upload_button_number (t : Task.t) :
  exists number,
    Py.split (upload_button t).2 "upload_task_" !! 1 = Some number
    /\ Py.int number = Some (Task.id t).
Proof.
  exists (Py.str (Task.id t)). split; [apply upload_token_number|apply int_str].
Qed.

(** X18. For an admitted caller and an available storage,
    [handle_upload_file] answers "no tasks" when no task is stored, and
    otherwise lists the ten newest tasks, one button each, followed by the
    search button: at most eleven buttons.  The number a task button carries
    after [upload_task_] is read back by [int] as that task's id. *)
Theorem X18_upload_list_buttons (m : Message) (w : World) (u : User.t) :
  storage w = [] ->
  List.find (fun x => String.eqb (User.telegram_id x)
                        (Py.str (tg_id (from_user m)))) (users (db w))
  = Some u ->
  User.status u = UserStatus.ACTIVE ->
  (handle_upload_file m w).1 = Done tt
  /\ (tasks (db w) = [] ->
      outbox (handle_upload_file m w).2
      = outbox w
        ++ [MessageAnswer (InfoMessage "No tasks available for file upload.")])
  /\ (tasks (db w) <> [] ->
      exists buttons,
        outbox (handle_upload_file m w).2
        = outbox w ++ [MessageAnswer (UploadTaskListScreen buttons)]
        /\ buttons
           = (upload_button <$> take 10 (get_all_tasks None w).1)
             ++ [("?? Search Tasks", "upload_search")]
        /\ length buttons = S (min 10 (length (tasks (db w)))))
  /\ (forall t,
        t ∈ (get_all_tasks None w).1 ->
        t ∈ tasks (db w)
        /\ exists number,
             Py.split (upload_button t).2 "upload_task_" !! 1 = Some number
             /\ Py.int number = Some (Task.id t)).
Proof.
  intros Hst Hf Ha.
  assert (head (storage w) <> Some false) as Hs by (by rewrite Hst).
  destruct (require_auth_ok m w u Hs Hf Ha) as (w1 & E & Ho & _ & Ht & Hs1).
  rewrite Hst in Hs1. cbn in Hs1.
  assert (head (storage w1) <> Some false) as Hs1' by (by rewrite Hs1).
  destruct (get_all_tasks_same None w w1 Ht Hs1' Hs) as [El Eo].
  assert ((get_all_tasks None w).1 ≡ₚ tasks (db w)) as Hperm.
  { unfold get_all_tasks. connected Hs. apply order_by_perm. }
  unfold handle_upload_file, bind. rewrite E. cbn [fst snd]. unfold call.
  cbn [fst snd]. rewrite El.
  split; [by destruct (get_all_tasks None w).1|].
  split; [|split].
  - intros Hn. rewrite Hn in Hperm. apply Permutation_nil_r in Hperm.
    rewrite Hperm. cbn. by rewrite Eo, Ho.
  - intros Hn.
    destruct (get_all_tasks None w).1 as [|t l] eqn:El'.
    { symmetry in Hperm. apply Permutation_nil_r in Hperm. congruence. }
    eexists. split; [|split; [reflexivity|]].
    + cbn [fst snd emit send outbox]. by rewrite Eo, Ho.
    + rewrite length_app, length_fmap, length_take, <- (Permutation_length Hperm).
      cbn [length]. lia.
  - intros t Hin. split; [by rewrite <- Hperm|apply upload_button_number].
Qed.

Lemma X18_witness :
  (handle_upload_file {| from_user := Sample.sender 100 |} Sample.world).1 = Done tt
  /\ outbox (handle_upload_file {| from_user := Sample.sender 100 |}
               Sample.world).2
     = [MessageAnswer (InfoMessage "No tasks available for file upload.")].
Proof.
  destruct (X18_upload_list_buttons {| from_user := Sample.sender 100 |}
              Sample.world (Sample.user 1 "100" "active" (Some "technician"))
              eq_refl eq_refl eq_refl) as (H1 & H2 & _).
  split; [exact H1|]. apply (H2 eq_refl).
Defined.

Lemma div_up_bounds (n : nat) :
  1 <= n ->
  1 <= (n + 5 - 1) / 5
  /\ 5 * ((n + 5 - 1) / 5 - 1) < n
  /\ n <= 5 * ((n + 5 - 1) / 5).
Proof.
  intros Hn.
  pose proof (Nat.div_mod_eq (n + 5 - 1) 5) as E.
  pose proof (Nat.mod_upper_bound (n + 5 - 1) 5 ltac:(lia)) as B.
  set (q := (n + 5 - 1) / 5) in *. set (r := (n + 5 - 1) mod 5) in *. lia.
Qed.

(** X19. [_handle_task_filter] always opens the first page: with the rows
    the listing returns for the chosen filter ([all] meaning no filter), it
    shows none-found when there are none, and otherwise the first five, the
    number found, and the number of pages that holds them five by five.  A
    storage failure at the listing is shown as none-found.  Tables and
    sessions stay as they were. *)
Theorem X19_task_filter_first_page (callback : CallbackQuery) (user : User.t)
    (w : World) (d filter_type : string) :
  data callback = Some d ->
  Py.split d "tasks_filter_" !! 1 = Some filter_type ->
  let found :=
    (get_all_tasks (if String.eqb filter_type "all" then None
                    else Some filter_type) w).1 in
  (_handle_task_filter callback user w).1 = Done tt
  /\ (found = [] ->
      outbox (_handle_task_filter callback user w).2
      = outbox w ++ [MessageEdit (NoTasksScreen filter_type)])
  /\ (found <> [] ->
      exists total_pages,
        outbox (_handle_task_filter callback user w).2
        = outbox w
          ++ [MessageEdit (TasksScreen filter_type (length found) (take 5 found)
                             total_pages)]
        /\ 1 <= total_pages
        /\ 5 * (total_pages - 1) < length found <= 5 * total_pages)
  /\ (head (storage w) = Some false -> found = [])
  /\ db (_handle_task_filter callback user w).2 = db w
  /\ active_sessions (_handle_task_filter callback user w).2 = active_sessions w.
Proof.
  intros Hd Hsplit found.
  unfold _handle_task_filter, bind, data_of, item1, call.
  rewrite Hd. cbn [ret fst snd]. rewrite Hsplit. cbn [ret fst snd].
  fold found.
  set (status_filter := if String.eqb filter_type "all" then None
                        else Some filter_type) in *.
  pose proof (proj1 (get_all_tasks_frame status_filter w)) as Ho.
  assert (db (get_all_tasks status_filter w).2 = db w) as Hdb.
  { apply (changes_get_all_tasks (fun d d' => d' = d) (fun d => eq_refl)
             status_filter w). }
  assert (active_sessions (get_all_tasks status_filter w).2 = active_sessions w)
    as Hse.
  { unfold get_all_tasks. apply with_connection_frame. }
  split; [by destruct found|].
  split; [|split; [|split; [|split]]].
  - intros ->. cbn [fst snd emit send outbox]. by rewrite Ho.
  - intros Hn. destruct found as [|t l] eqn:E; [done|].
    eexists. split; [cbn [fst snd emit send outbox]; by rewrite Ho|].
    destruct (div_up_bounds (length (t :: l))) as (B1 & B2 & B3);
      [cbn; lia|]. repeat split; assumption.
  - intros Hs. unfold found, get_all_tasks. by apply with_connection_down.
  - by destruct found.
  - by destruct found.
Qed.

Lemma X19_witness :
  outbox (_handle_task_filter (Sample.press "tasks_filter_blocked" 100)
            (Sample.user 1 "100" "active" (Some "technician"))
            (create_task Sample.repair_task 1 Sample.world).2).2
  = [MessageEdit (NoTasksScreen "blocked")].
Proof.
  destruct (X19_task_filter_first_page (Sample.press "tasks_filter_blocked" 100)
              (Sample.user 1 "100" "active" (Some "technician"))
              (create_task Sample.repair_task 1 Sample.world).2
              "tasks_filter_blocked" "blocked" eq_refl eq_refl) as (_ & H & _).
  apply H. vm_compute. reflexivity.
Defined.

(** X20. For an admitted caller, [handle_new_task] shows the category
    keyboard only to a manager or a technician and answers everyone else,
    an account without a role included, that the permission is missing. *)
Theorem X20_new_task_needs_role (m : Message) (w : World) (u : User.t) :
  head (storage w) <> Some false ->
  List.find (fun x => String.eqb (User.telegram_id x)
                        (Py.str (tg_id (from_user m)))) (users (db w))
  = Some u ->
  User.status u = UserStatus.ACTIVE ->
  (handle_new_task m w).1 = Done tt
  /\ (User.role u ∈ [Some "manager"; Some "technician"] ->
      outbox (handle_new_task m w).2
      = outbox w ++ [MessageAnswer TaskCategoriesScreen])
  /\ (User.role u ∉ [Some "manager"; Some "technician"] ->
      outbox (handle_new_task m w).2
      = outbox w
        ++ [MessageAnswer
              (ErrorMessage "You don't have permission to create tasks.")])
  /\ active_sessions (handle_new_task m w).2 = active_sessions w.
Proof.
  intros Hs Hf Ha.
  destruct (require_auth_ok m w u Hs Hf Ha) as (w1 & E & Ho & Hse & _).
  unfold handle_new_task, bind. rewrite E. cbn [fst snd].
  assert (_require_role u ["manager"; "technician"] = true
          <-> User.role u ∈ [Some "manager"; Some "technician"]) as Hrole.
  { unfold _require_role. destruct (User.role u) as [r|].
    - rewrite bool_decide_eq_true, !elem_of_cons, !elem_of_nil.
      split; (intros [H|[H|[]]]; [left|right; left]; congruence).
    - rewrite !elem_of_cons, elem_of_nil.
      split; [discriminate|]. intros [H|[H|[]]]; discriminate. }
  destruct (_require_role u ["manager"; "technician"]) eqn:Er;
    cbn [negb fst snd emit send outbox active_sessions].
  - split; [done|]. split; [by rewrite Ho|]. split; [|exact Hse].
    intros Hn. destruct Hn. by apply Hrole.
  - split; [done|]. split; [|split; [by rewrite Ho|exact Hse]].
    intros Hr. apply Hrole in Hr. discriminate.
Qed.

Lemma X20_witness :
  outbox (handle_new_task {| from_user := Sample.sender 300 |} Sample.world).2
  = [MessageAnswer (ErrorMessage "You don't have permission to create tasks.")].
Proof.
  destruct (X20_new_task_needs_role {| from_user := Sample.sender 300 |}
              Sample.world (Sample.user 3 "300" "active" (Some "commercial")))
    as (_ & _ & H & _); [discriminate|reflexivity|reflexivity|].
  apply H. intros Hin.
  apply elem_of_cons in Hin as [Hin|Hin]; [discriminate|].
  apply elem_of_cons in Hin as [Hin|Hin]; [discriminate|].
  by apply elem_of_nil in Hin.
Defined.

(** X23. Registering twice does no harm: after [cmd_register] has created
    the account of an unknown sender, the stored status is [pending], and a
    second [cmd_register] from the same sender adds no row and answers that
    the registration is pending approval. *)
Theorem X23_second_registration_is_pending (m : Message) (w : World) :
  account_status (db w) (Py.str (tg_id (from_user m))) = None ->
  storage w = [] ->
  account_status (db (cmd_register m w).2) (Py.str (tg_id (from_user m)))
  = Some UserStatus.PENDING
  /\ length (users (db (cmd_register m w).2)) = S (length (users (db w)))
  /\ (cmd_register m (cmd_register m w).2).1 = Done tt
  /\ db (cmd_register m (cmd_register m w).2).2 = db (cmd_register m w).2
  /\ outbox (cmd_register m (cmd_register m w).2).2
     = outbox (cmd_register m w).2
       ++ [MessageAnswer (InfoMessage "Your registration is pending approval.")].
Proof.
  intros Hn Hst.
  set (telegram_id := Py.str (tg_id (from_user m))) in *.
  assert (forall w0 : World, storage w0 = [] -> head (storage w0) <> Some false)
    as Hok by (by intros w0 ->).
  (* the first registration *)
  assert (exists row,
            users (db (cmd_register m w).2) = users (db w) ++ [row]
            /\ User.telegram_id row = telegram_id
            /\ User.status row = UserStatus.PENDING
            /\ storage (cmd_register m w).2 = []) as (row & Hu & Ht & Hp & Hs1).
  { destruct (get_user_by_telegram_id_frame telegram_id w) as (Hdb & _).
    assert ((get_user_by_telegram_id telegram_id w).1 = None) as E1.
    { unfold get_user_by_telegram_id. connected (Hok w Hst).
      unfold account_status in Hn. by destruct (List.find _ (users (db w))). }
    assert (storage (get_user_by_telegram_id telegram_id w).2 = []) as Hs0.
    { unfold get_user_by_telegram_id. by rewrite with_connection_storage, Hst. }
    unfold cmd_register, bind, call. fold telegram_id. cbn [fst snd].
    rewrite E1.
    match goal with
    | |- context [register_user ?t ?f ?u ?w1] =>
        set (r := register_user t f u w1);
        assert (storage r.2 = []) as Hsr
          by (unfold r, register_user; by rewrite with_connection_storage, Hs0);
        destruct (register_user_new t f u w1) as (Hr & row & Hrow);
          [by rewrite Hdb|by apply Hok|];
        destruct (register_user_cases t f u w1)
          as [E|(_ & row' & E & _ & Ht & Hp & _)]
    end.
    - fold r in E, Hrow. rewrite E in Hrow. by destruct (snoc_longer _ _ Hrow).
    - fold r in E, Hr. rewrite Hr. cbn [fst snd emit send db storage].
      exists row'. rewrite E. cbn [users]. by rewrite Hdb. }
  set (w1 := (cmd_register m w).2) in *.
  assert (List.find (fun u => String.eqb (User.telegram_id u) telegram_id)
                    (users (db w1)) = Some row) as Hfind.
  { rewrite Hu. apply find_app_last; [|rewrite Ht; apply String.eqb_refl].
    apply account_status_known in Hn.
    clear -Hn. induction (users (db w)) as [|u us IH]; [done|].
    cbn in *. apply orb_false_elim in Hn as [-> Hn]. by apply IH. }
  split; [unfold account_status; by rewrite Hfind, <- Hp|].
  split; [rewrite Hu, length_app; cbn; lia|].
  destruct (get_user_by_telegram_id_frame telegram_id w1) as (Hdb & _ & Ho & _).
  assert ((get_user_by_telegram_id telegram_id w1).1 = Some row) as E1.
  { unfold get_user_by_telegram_id. connected (Hok w1 Hs1). exact Hfind. }
  unfold cmd_register, bind, call. fold telegram_id. cbn [fst snd].
  rewrite E1, Hp.
  change (String.eqb UserStatus.PENDING UserStatus.ACTIVE) with false.
  change (String.eqb UserStatus.PENDING UserStatus.PENDING) with true.
  cbn [fst snd emit send db outbox]. by rewrite Hdb, Ho.
Qed.

Lemma X23_witness :
  account_status (db Sample.world) "400" = None
  /\ account_status
       (db (cmd_register {| from_user := Sample.sender 400 |} Sample.world).2)
       "400"
     = Some UserStatus.PENDING.
Proof.
  split; [reflexivity|].
  apply (X23_second_registration_is_pending {| from_user := Sample.sender 400 |}
           Sample.world); reflexivity.
Defined.

(** * The administrator list *)

Lemma split_aux_piece (a : ascii) (p rest : string) :
  Py.every (fun c => negb (Ascii.eqb c a)) p = true ->
  Py.split_aux (String a EmptyString) 0 (p +:+ String a rest)
  = p :: Py.split_aux (String a EmptyString) 0 rest.
Proof.
  induction p as [|c p IH]; intros Hp.
  - cbn [String.append]. apply (split_aux_lead a EmptyString rest).
  - cbn [Py.every] in Hp. apply andb_true_iff in Hp as [Hc Hp].
    apply negb_true_iff, Ascii.eqb_neq in Hc.
    cbn [String.append Py.split_aux String.prefix].
    destruct (ascii_dec a c); [congruence|].
    by rewrite (IH Hp).
Qed.

Lemma split_join (a : ascii) (parts : list string) :
  parts <> [] ->
  Forall (fun p => Py.every (fun c => negb (Ascii.eqb c a)) p = true) parts ->
  Py.split (join (String a EmptyString) parts) (String a EmptyString) = parts.
Proof.
  unfold Py.split. intros Hne Hall.
  induction Hall as [|p parts Hp Hall IH]; [done|].
  destruct parts as [|q parts].
  - cbn [join]. by apply split_aux_absent.
  - change (join (String a "") (p :: q :: parts))
      with (p +:+ String a "" +:+ join (String a "") (q :: parts)).
    cbn [String.append]. rewrite (split_aux_piece a p _ Hp).
    by rewrite IH.
Qed.

Lemma lstrip_blanks (l s : string) :
  blanks l = true -> Py.lstrip (l +:+ s) = Py.lstrip s.
Proof.
  unfold blanks. induction l as [|c l IH]; [done|].
  cbn [Py.every]. intros [Hc Hl]%andb_true_iff.
  cbn [String.append Py.lstrip]. rewrite Hc. by apply IH.
Qed.

Lemma rstrip_blanks (r : string) : blanks r = true -> Py.rstrip r = EmptyString.
Proof.
  unfold blanks. induction r as [|c r IH]; [done|].
  cbn [Py.every]. intros [Hc Hr]%andb_true_iff.
  cbn [Py.rstrip]. by rewrite (IH Hr), Hc.
Qed.

Lemma rstrip_append_blanks (s r : string) :
  blanks r = true -> Py.rstrip (s +:+ r) = Py.rstrip s.
Proof.
  intros Hr. induction s as [|c s IH]; cbn [String.append Py.rstrip].
  - by apply rstrip_blanks.
  - by rewrite IH.
Qed.

Lemma strip_blanks (s : string) : blanks s = true -> Py.strip s = EmptyString.
Proof.
  intros H. unfold Py.strip.
  rewrite <- (append_nil_r s), (lstrip_blanks s EmptyString H). reflexivity.
Qed.

Lemma strip_padded (l s r : string) :
  blanks l = true -> blanks r = true ->
  Py.every (fun c => negb (Py.is_space c)) s = true ->
  Py.strip (l +:+ s +:+ r) = s.
Proof.
  intros Hl Hr Hs. unfold Py.strip. rewrite (lstrip_blanks l _ Hl).
  destruct s as [|c s].
  - cbn [String.append]. fold (Py.strip r). by apply strip_blanks.
  - pose proof Hs as Hs'. cbn [Py.every] in Hs'.
    apply andb_true_iff in Hs' as [Hc _]. apply negb_true_iff in Hc.
    cbn [String.append Py.lstrip]. rewrite Hc.
    change (String c (s +:+ r)) with (String c s +:+ r).
    rewrite (rstrip_append_blanks _ r Hr).
    pose proof (strip_id _ Hs) as E. unfold Py.strip in E.
    cbn [Py.lstrip] in E. by rewrite Hc in E.
Qed.

Lemma str_every (P : ascii -> bool) (z : Z) :
  P "-"%char = true ->
  (forall c, Py.is_digit c = true -> P c = true) ->
  Py.every P (Py.str z) = true.
Proof.
  intros Hm Hd. unfold Py.str.
  destruct (z <? 0)%Z; cbn [Py.every]; rewrite ?Hm;
    apply (every_impl Py.is_digit P _ Hd), str_nat_digits.
Qed.

Lemma str_nonempty (z : Z) : Py.str z <> EmptyString.
Proof.
  unfold Py.str. destruct (z <? 0)%Z; [discriminate|].
  pose proof (str_nat_nonempty (Z.to_nat z)) as H.
  destruct (Py.str_nat (Z.to_nat z)); [cbn in H; lia|discriminate].
Qed.

Lemma str_no_space (z : Z) :
  Py.every (fun c => negb (Py.is_space c)) (Py.str z) = true.
Proof. apply str_every; [reflexivity|apply digit_not_space]. Qed.

Lemma digit_not_comma (c : ascii) :
  Py.is_digit c = true -> negb (Ascii.eqb c ","%char) = true.
Proof.
  intros H. destruct (Ascii.eqb_spec c ","%char) as [->|_]; [|reflexivity].
  vm_compute in H. discriminate.
Qed.

Lemma space_not_comma (c : ascii) :
  Py.is_space c = true -> negb (Ascii.eqb c ","%char) = true.
Proof.
  intros H. destruct (Ascii.eqb_spec c ","%char) as [->|_]; [|reflexivity].
  vm_compute in H. discriminate.
Qed.

Lemma admin_entry_no_comma (item : string * option Z * string) :
  blanks item.1.1 = true -> blanks item.2 = true ->
  Py.every (fun c => negb (Ascii.eqb c ","%char)) (admin_entry item) = true.
Proof.
  destruct item as [[l id] r]. cbn [fst snd]. unfold blanks, admin_entry.
  intros Hl Hr. cbn [fst snd]. rewrite !every_append.
  rewrite (every_impl _ _ l space_not_comma Hl),
    (every_impl _ _ r space_not_comma Hr), andb_true_r. cbn [andb].
  destruct id as [z|]; [|reflexivity]. cbn [from_option].
  apply str_every; [reflexivity|apply digit_not_comma].
Qed.

Lemma admin_entry_strip (item : string * option Z * string) :
  blanks item.1.1 = true -> blanks item.2 = true ->
  Py.strip (admin_entry item) = from_option Py.str EmptyString item.1.2.
Proof.
  destruct item as [[l id] r]. cbn [fst snd]. unfold admin_entry.
  intros Hl Hr. cbn [fst snd]. apply (strip_padded l _ r Hl Hr).
  destruct id as [z|]; [apply str_no_space|reflexivity].
Qed.

Lemma parse_admin_ids_eq (s : string) :
  _parse_admin_ids (Some s)
  = default []
      (mapM (fun id_str => int_within_limit (Py.strip id_str))
            (List.filter nonblank (Py.split s ","))).
Proof. destruct s; reflexivity. Qed.

Lemma int_within_limit_str (z : Z) :
  printable z -> int_within_limit (Py.str z) = Some z.
Proof.
  unfold printable, int_within_limit. intros H.
  destruct (Z.ltb_spec int_max_str_digits (Z.of_nat (digit_count (Py.str z))));
    [lia | apply int_str].
Qed.

Lemma admin_entries_parse (items : list (string * option Z * string)) :
  Forall (fun item => blanks item.1.1 = true /\ blanks item.2 = true
                      /\ from_option printable True item.1.2) items ->
  mapM (fun id_str => int_within_limit (Py.strip id_str))
       (List.filter nonblank (admin_entry <$> items))
  = Some (omap (fun item => item.1.2) items).
Proof.
  induction 1 as [|item items (Hl & Hr & Hz) _ IH]; [reflexivity|].
  pose proof (admin_entry_strip item Hl Hr) as Es.
  destruct item as [[l id] r]. cbn [fst snd] in *.
  change (admin_entry <$> (l, id, r) :: items)
    with (admin_entry (l, id, r) :: (admin_entry <$> items)).
  change (omap (fun item : string * option Z * string => item.1.2)
            ((l, id, r) :: items))
    with (match id with
          | Some z => z :: omap (fun item : string * option Z * string => item.1.2)
                             items
          | None => omap (fun item : string * option Z * string => item.1.2) items
          end).
  cbn [List.filter].
  destruct id as [z|]; cbn [from_option] in Es, Hz.
  - assert (nonblank (admin_entry (l, Some z, r)) = true) as ->.
    { unfold nonblank. rewrite Es. pose proof (str_nonempty z).
      by destruct (Py.str z). }
    cbn [mapM]. rewrite Es, (int_within_limit_str z Hz), IH. reflexivity.
  - assert (nonblank (admin_entry (l, None, r)) = false) as ->.
    { unfold nonblank. by rewrite Es. }
    exact IH.
Qed.

(** The text built from printed ids, blanks and commas is ASCII. *)
Lemma space_ascii (c : ascii) :
  Py.is_space c = true -> (nat_of_ascii c <? 128) = true.
Proof.
  unfold Py.is_space. set (n := nat_of_ascii c). intros H.
  apply Nat.ltb_lt.
  apply orb_true_iff in H as [H|H].
  - apply orb_true_iff in H as [H|H].
    + apply Nat.eqb_eq in H. lia.
    + apply andb_true_iff in H as [_ H]. apply Nat.leb_le in H. lia.
  - apply andb_true_iff in H as [_ H]. apply Nat.leb_le in H. lia.
Qed.

Lemma digit_ascii (c : ascii) :
  Py.is_digit c = true -> (nat_of_ascii c <? 128) = true.
Proof.
  unfold Py.is_digit. set (n := nat_of_ascii c). intros H.
  apply andb_true_iff in H as [_ H]. apply Nat.leb_le in H.
  apply Nat.ltb_lt. lia.
Qed.

Lemma every_join (P : ascii -> bool) (sep : string) (parts : list string) :
  Py.every P sep = true ->
  Forall (fun p => Py.every P p = true) parts ->
  Py.every P (join sep parts) = true.
Proof.
  intros Hsep. induction 1 as [|p parts Hp Hall IH]; [reflexivity|].
  destruct parts as [|q parts]; [exact Hp|].
  change (join sep (p :: q :: parts)) with (p +:+ sep +:+ join sep (q :: parts)).
  by rewrite !every_append, Hp, Hsep, IH.
Qed.

Lemma admin_entry_ascii (item : string * option Z * string) :
  blanks item.1.1 = true -> blanks item.2 = true ->
  ascii_text (admin_entry item) = true.
Proof.
  destruct item as [[l id] r]. cbn [fst snd]. unfold blanks, admin_entry, ascii_text.
  intros Hl Hr. cbn [fst snd]. rewrite !every_append.
  rewrite (every_impl _ _ l space_ascii Hl), (every_impl _ _ r space_ascii Hr),
    andb_true_r. cbn [andb].
  destruct id as [z|]; [|reflexivity]. cbn [from_option].
  apply str_every; [reflexivity|apply digit_ascii].
Qed.

(** Blanks carry no digit. *)
Lemma digit_count_lstrip (s : string) : digit_count (Py.lstrip s) = digit_count s.
Proof.
  induction s as [|c s IH]; [reflexivity|].
  cbn [Py.lstrip]. destruct (Py.is_space c) eqn:Hc; [|reflexivity].
  cbn [digit_count]. rewrite IH.
  destruct (Py.is_digit c) eqn:Hd; [|reflexivity].
  apply digit_not_space, negb_true_iff in Hd. congruence.
Qed.

Lemma digit_count_rstrip (s : string) : digit_count (Py.rstrip s) = digit_count s.
Proof.
  induction s as [|c s IH]; [reflexivity|].
  cbn [Py.rstrip digit_count]. rewrite <- IH.
  destruct (Py.rstrip s) as [|c' r]; [|reflexivity].
  destruct (Py.is_space c) eqn:Hc; [|reflexivity].
  destruct (Py.is_digit c) eqn:Hd; [|reflexivity].
  apply digit_not_space, negb_true_iff in Hd. congruence.
Qed.

Lemma digit_count_strip (s : string) : digit_count (Py.strip s) = digit_count s.
Proof. unfold Py.strip. by rewrite digit_count_rstrip, digit_count_lstrip. Qed.

Lemma too_long_rejected (e : string) :
  (int_max_str_digits < Z.of_nat (digit_count e))%Z ->
  nonblank e = true /\ int_within_limit (Py.strip e) = None.
Proof.
  intros H. split.
  - unfold nonblank. pose proof (digit_count_strip e) as E.
    destruct (Py.strip e); [|reflexivity].
    cbn [digit_count] in E. rewrite <- E in H. unfold int_max_str_digits in H.
    lia.
  - unfold int_within_limit. rewrite digit_count_strip.
    by destruct (Z.ltb_spec int_max_str_digits (Z.of_nat (digit_count e))); [|lia].
Qed.

(** X21. [_parse_admin_ids] reads back a list of ids written with commas:
    for ids whose decimal form stays within CPython's bound of 4300 digits,
    printing the ids, joining them with commas and parsing the result gives
    the same ids in the same order.  ASCII blanks around an id are ignored
    and an entry made of blanks only is skipped; an unset or empty variable
    gives the empty list.  The text so built is ASCII. *)
Theorem X21_admin_ids_round_trip (ids : list Z)
    (items : list (string * option Z * string)) :
  (Forall printable ids ->
   ascii_text (join "," (Py.str <$> ids)) = true
   /\ _parse_admin_ids (Some (join "," (Py.str <$> ids))) = ids)
  /\ (Forall (fun item => blanks item.1.1 = true /\ blanks item.2 = true
                          /\ from_option printable True item.1.2) items ->
      ascii_text (join "," (admin_entry <$> items)) = true
      /\ _parse_admin_ids (Some (join "," (admin_entry <$> items)))
         = omap (fun item => item.1.2) items)
  /\ _parse_admin_ids None = []
  /\ _parse_admin_ids (Some EmptyString) = [].
Proof.
  assert (forall items : list (string * option Z * string),
            Forall (fun item => blanks item.1.1 = true /\ blanks item.2 = true
                                /\ from_option printable True item.1.2) items ->
            ascii_text (join "," (admin_entry <$> items)) = true
            /\ _parse_admin_ids (Some (join "," (admin_entry <$> items)))
               = omap (fun item => item.1.2) items) as Hitems.
  { clear. intros items Hall. split.
    - apply every_join; [reflexivity|].
      apply Forall_fmap. eapply Forall_impl; [exact Hall|].
      intros it (Hl & Hr & _). by apply admin_entry_ascii.
    - rewrite parse_admin_ids_eq.
      destruct items as [|item items]; [reflexivity|].
      rewrite (split_join ","%char).
      + by rewrite (admin_entries_parse _ Hall).
      + discriminate.
      + apply Forall_fmap. eapply Forall_impl; [exact Hall|].
        intros it (Hl & Hr & _). by apply admin_entry_no_comma. }
  split; [|split; [apply Hitems|split; reflexivity]].
  intros Hids.
  specialize (Hitems ((fun z => (EmptyString, Some z, EmptyString)) <$> ids)).
  rewrite <- list_fmap_compose in Hitems.
  rewrite (list_fmap_ext _ Py.str ids) in Hitems.
  - replace (omap (fun item : string * option Z * string => item.1.2)
               ((fun z => (EmptyString, Some z, EmptyString)) <$> ids))
      with ids in Hitems.
    + apply Hitems. apply Forall_fmap. eapply Forall_impl; [exact Hids|].
      intros z Hz. done.
    + clear. induction ids as [|z ids IH]; [reflexivity|].
      cbn. f_equal. exact IH.
  - intros _ z _. unfold admin_entry, compose. cbn [fst snd from_option].
    cbn [String.append]. apply append_nil_r.
Qed.

Lemma X21_witness :
  Forall (fun item : string * option Z * string =>
            blanks item.1.1 = true /\ blanks item.2 = true
            /\ from_option printable True item.1.2)
         [(" ", Some 7%Z, ""); ("  ", None, ""); ("", Some (-12)%Z, " ")]
  /\ ascii_text " 7,  ,-12 " = true
  /\ _parse_admin_ids (Some " 7,  ,-12 ") = [7%Z; (-12)%Z].
Proof.
  assert (Forall (fun item : string * option Z * string =>
                    blanks item.1.1 = true /\ blanks item.2 = true
                    /\ from_option printable True item.1.2)
                 [(" ", Some 7%Z, ""); ("  ", None, ""); ("", Some (-12)%Z, " ")])
    as H.
  { repeat constructor; vm_compute; discriminate. }
  split; [exact H|].
  exact (proj1 (proj2 (X21_admin_ids_round_trip []
                         [(" ", Some 7%Z, ""); ("  ", None, "");
                          ("", Some (-12)%Z, " ")])) H).
Defined.

(** X22. On ASCII text one malformed entry discards the whole list: if
    some entry that is not blank is rejected by [int], or has more digits
    than CPython converts, [_parse_admin_ids] returns the empty list; and
    whenever it returns ids, it returns one for each entry that is not
    blank, each the value [int] gives for that entry. *)
Theorem X22_admin_ids_all_or_nothing (s : string) :
  ascii_text s = true ->
  (Exists (fun e => nonblank e = true /\ int_within_limit (Py.strip e) = None)
          (Py.split s ",") ->
   _parse_admin_ids (Some s) = [])
  /\ (Exists (fun e => (int_max_str_digits < Z.of_nat (digit_count e))%Z)
             (Py.split s ",") ->
      _parse_admin_ids (Some s) = [])
  /\ (_parse_admin_ids (Some s) <> [] ->
      Forall2 (fun e id => Py.int (Py.strip e) = Some id
                           /\ (Z.of_nat (digit_count e) <= int_max_str_digits)%Z)
              (List.filter nonblank (Py.split s ","))
              (_parse_admin_ids (Some s))).
Proof.
  intros _. rewrite parse_admin_ids_eq.
  set (entries := List.filter nonblank (Py.split s ",")).
  assert (Exists (fun e => nonblank e = true
                           /\ int_within_limit (Py.strip e) = None)
                 (Py.split s ",") ->
          default [] (mapM (fun id_str => int_within_limit (Py.strip id_str))
                           entries) = []) as Hbad.
  { intros Hex.
    assert (mapM (fun id_str => int_within_limit (Py.strip id_str)) entries
            = None) as ->; [|reflexivity].
    apply mapM_None. apply Exists_exists in Hex as (e & Hin & Hnb & He).
    apply Exists_exists. exists e. split; [|exact He].
    unfold entries. apply list_elem_of_In, filter_In.
    split; [by apply list_elem_of_In|exact Hnb]. }
  split; [exact Hbad|]. split.
  - intros Hex. apply Hbad. eapply Exists_impl; [exact Hex|].
    intros e He. by apply too_long_rejected.
  - destruct (mapM _ entries) as [ids|] eqn:E; cbn [default]; [|done].
    intros _. apply mapM_Some in E.
    eapply Forall2_impl; [exact E|]. intros e id. cbn beta.
    unfold int_within_limit. rewrite digit_count_strip.
    destruct (Z.ltb_spec int_max_str_digits (Z.of_nat (digit_count e)));
      [discriminate|]. intros He. split; [exact He|lia].
Qed.

Lemma X22_witness :
  ascii_text "12,x7,30" = true
  /\ Exists (fun e => nonblank e = true /\ int_within_limit (Py.strip e) = None)
            (Py.split "12,x7,30" ",")
  /\ _parse_admin_ids (Some "12,x7,30") = [].
Proof.
  assert (Exists (fun e => nonblank e = true
                           /\ int_within_limit (Py.strip e) = None)
                 (Py.split "12,x7,30" ",")) as H.
  { apply Exists_cons_tl, Exists_cons_hd. vm_compute. done. }
  split; [reflexivity|]. split; [exact H|].
  exact (proj1 (X22_admin_ids_all_or_nothing "12,x7,30" eq_refl) H).
Defined.
